(** * Confirmation watching in web3-eth

    A shallow embedding of
    [packages/web3-eth/src/utils/watch_transaction_for_confirmations.ts]:
    the entry point [watchTransactionForConfirmations] and its two observers,
    [watchByPolling] and [watchBySubscription].

    The JavaScript code is event driven: it registers callbacks (an interval
    callback, a [setImmediate] callback, promise continuations and the
    ['data'] / ['error'] handlers of a subscription) and returns.  The
    embedding keeps one definition per callback, cut at every [await], written
    over an explicit [World] (the closures' mutable variables, the promises
    that are awaited, and a chronological trace of the calls made to the
    outside), and a [step] function that lets the environment run one piece
    at a time, as the single-threaded scheduler does. *)

From Stdlib Require Import ZArith List String Bool Lia.
Import ListNotations.
Open Scope Z_scope.

(** ** Data *)

Definition HexString32Bytes := string.

(** [ReceiptInfo]: the fields the watcher reads.  A field that may be
    [undefined] / [null] at run time is an [option]; the block number is
    taken in its numeric form ([number] or [bigint]), whose zero is falsy. *)
Record ReceiptInfo := mkReceipt {
  transactionHash : option HexString32Bytes;
  blockHash : option HexString32Bytes;
  blockNumber : option Z
}.

(** [BlockOutput]: a block or a block header as the provider returns it
    ([number?: bigint | number], [hash] and [parentHash] optional). *)
Record BlockOutput := mkBlock {
  number : option Z;
  hash : option HexString32Bytes;
  parentHash : option HexString32Bytes
}.

Inductive FMT_NUMBER := FMT_NUMBER_NUMBER | FMT_NUMBER_HEX | FMT_NUMBER_STR | FMT_NUMBER_BIGINT.
Inductive FMT_BYTES := FMT_BYTES_HEX | FMT_BYTES_BUFFER | FMT_BYTES_UINT8ARRAY.

Record DataFormat := mkFormat { fmt_number : FMT_NUMBER; fmt_bytes : FMT_BYTES }.

(** Modelled from the spec: [format] of web3-common is an external
    collaborator (value formatting is out of scope of the watcher).  It picks
    the representation named by the return format and keeps the value, so a
    formatted value is the value together with the format it was given. *)
Inductive Formatted (A : Type) := Fmt (f : DataFormat) (v : A).
Arguments Fmt {A} f v.

Definition format {A : Type} (v : A) (returnFormat : DataFormat) : Formatted A :=
  Fmt returnFormat v.

Definition value {A : Type} (x : Formatted A) : A :=
  match x with Fmt _ v => v end.

(** The object passed to [emit('confirmation', ...)]. *)
Record ConfirmationEvent := mkEvent {
  confirmationNumber : Formatted Z;
  receipt : ReceiptInfo;
  latestBlockHash : Formatted (option HexString32Bytes)
}.

(** [Web3Context]: the configuration and the capabilities the watcher reads.
    [supportsSubscriptions] is [requestManager.provider.supportsSubscriptions()],
    [subscriptionManager] says whether [web3Context.subscriptionManager] is
    defined (the code reaches it through [?.]). *)
Record Web3Context := mkContext {
  transactionConfirmationBlocks : Z;
  transactionPollingInterval : Z;
  transactionReceiptPollingInterval : option Z;
  supportsSubscriptions : bool;
  subscriptionManager : bool
}.

(** [WaitProps]: the argument object of both observers.  The emitter is
    identified by a number, so that a trace records on which emitter an event
    was emitted. *)
Record WaitProps := mkProps {
  web3Context : Web3Context;
  transactionReceipt : ReceiptInfo;
  transactionWeb3PromiEvent : nat;
  returnFormat : DataFormat
}.

(** What can be thrown.  The two transaction errors and [SubscriptionError]
    stand for the error objects, with their payload; [TypeError] is what the
    language raises for a property read on [undefined] or for
    [BigInt(undefined)]; [RequestError] is the reason an awaited request of
    the provider (a block request, an unsubscribe request) is rejected
    with. *)
Inductive Error :=
| TypeError
| RequestError
| TransactionMissingReceiptOrBlockHashError
    (r : option ReceiptInfo)
    (bh : Formatted (option HexString32Bytes))
    (th : Formatted HexString32Bytes)
| TransactionReceiptMissingBlockNumberError (r : ReceiptInfo)
| SubscriptionError (r : ReceiptInfo).

(** The constructors of the two error classes of [../errors], which are not
    part of this file: they are taken as parameters.  Each gives the outcome
    of [new C(payload)]: [inr e] when the constructor returns the error
    object [e], [inl e] when the constructor itself throws [e]. *)
Record ErrorClasses := mkErrors {
  new_TransactionMissingReceiptOrBlockHashError :
    option ReceiptInfo -> Formatted (option HexString32Bytes) ->
    Formatted HexString32Bytes -> Error + Error;
  new_TransactionReceiptMissingBlockNumberError :
    ReceiptInfo -> Error + Error
}.

(** What [throw new C(payload)] raises: the error object, or whatever its
    constructor threw. *)
Definition thrown (x : Error + Error) : Error :=
  match x with
  | inl e => e
  | inr e => e
  end.

(** Modelled from the spec: error classes whose constructors just build the
    error object the spec names.  They serve to run the scenarios; what is
    proved of the entry point holds for every [ErrorClasses]. *)
Definition plain_errors : ErrorClasses :=
  mkErrors (fun r bh th => inr (TransactionMissingReceiptOrBlockHashError r bh th))
           (fun r => inr (TransactionReceiptMissingBlockNumberError r)).

(** Calls made to the outside, in the order they happen.  [Uncaught e] is an
    error raised inside a detached asynchronous context (a rejected promise
    nobody awaits). *)
Inductive Effect :=
| Emit (emitter : nat) (ev : ConfirmationEvent)
| SetInterval (ms : Z)
| ClearInterval
| GetBlockByNumber (height : Z)
| SetImmediate
| Subscribe
| Unsubscribe
| Uncaught (e : Error).

(** ** JavaScript helpers *)

(** Truthiness of an optional number ([undefined], [null] and [0] are falsy). *)
Definition truthy_number (n : option Z) : bool :=
  match n with
  | Some n => negb (n =? 0)
  | None => false
  end.

(** Truthiness of an optional string ([undefined], [null] and [''] are falsy). *)
Definition truthy_string (s : option string) : bool :=
  match s with
  | Some s => negb (String.eqb s EmptyString)
  | None => false
  end.

Definition isNullish {A : Type} (x : option A) : bool :=
  match x with Some _ => false | None => true end.

(** [BigInt(x)]: throws on [undefined]. *)
Definition BigInt (x : option Z) : Error + Z :=
  match x with
  | Some n => inr n
  | None => inl TypeError
  end.

(** [a ?? b] *)
Definition nullish_coalesce {A : Type} (a : option A) (b : A) : A :=
  match a with Some x => x | None => b end.

Fixpoint remove_nth {A : Type} (i : nat) (l : list A) : list A :=
  match l, i with
  | [], _ => []
  | _ :: l', O => l'
  | x :: l', S i' => x :: remove_nth i' l'
  end.

Fixpoint update_nth {A : Type} (i : nat) (y : A) (l : list A) : list A :=
  match l, i with
  | [], _ => []
  | _ :: l', O => y :: l'
  | x :: l', S i' => x :: update_nth i' y l'
  end.

(** ** The world of one watch *)

(** The closure of one call of [watchByPolling]: its arguments, the local
    variable [confirmationNumber] (here [counter]), whether the interval
    behind [intervalId] is still scheduled, and the heights of the
    [getBlockByNumber] requests that have not been answered yet. *)
Record Poller := mkPoller {
  poller_props : WaitProps;
  counter : Z;
  interval_active : bool;
  pending : list Z
}.

(** Where the subscription stands.  [Scheduled]: the [setImmediate] callback
    is queued.  [Subscribing]: [subscribe('newHeads')] was called and its
    promise is pending.  [Active]: the promise resolved and the two handlers
    are registered.  [Unsubscribed]: an unsubscribe request was acknowledged.
    [Rejected]: the subscribe promise rejected. *)
Inductive SubscriptionState :=
| NoSubscription
| Scheduled (props : WaitProps)
| Subscribing (props : WaitProps)
| Active (props : WaitProps)
| Unsubscribed
| Rejected.

(** What a handler still has to do once its [await subscription.unsubscribe()]
    is fulfilled: nothing in the ['data'] handler, [watchByPolling] with the
    handler's arguments in the ['error'] handler. *)
Inductive Continuation :=
| AfterThreshold
| AfterError (props : WaitProps).

(** [unsubscribing]: the unsubscribe calls that are still awaited, oldest
    first.  [pollers]: the closures of the calls of [watchByPolling] made so
    far, oldest first; each has its own counter and its own interval. *)
Record World := mkWorld {
  subscription : SubscriptionState;
  unsubscribing : list Continuation;
  pollers : list Poller;
  trace : list Effect
}.

Definition empty_world : World := mkWorld NoSubscription [] [] [].

Definition perform (es : list Effect) (w : World) : World :=
  mkWorld (subscription w) (unsubscribing w) (pollers w) (trace w ++ es).

Definition set_subscription (s : SubscriptionState) (w : World) : World :=
  mkWorld s (unsubscribing w) (pollers w) (trace w).

Definition set_unsubscribing (u : list Continuation) (w : World) : World :=
  mkWorld (subscription w) u (pollers w) (trace w).

Definition set_pollers (ps : list Poller) (w : World) : World :=
  mkWorld (subscription w) (unsubscribing w) ps (trace w).

(** ** watchByPolling *)

(** The body of [watchByPolling]: a new closure with [confirmationNumber = 1],
    and [setInterval]. *)
Definition watchByPolling (props : WaitProps) (w : World) : World :=
  let ctx := web3Context props in
  perform
    [SetInterval (nullish_coalesce (transactionReceiptPollingInterval ctx)
                                   (transactionPollingInterval ctx))]
    (set_pollers (pollers w ++ [mkPoller props 1 true []]) w).

(** The interval callback up to its [await]: the threshold test, which clears
    the interval and goes on, then the request for the block at height
    [blockNumber + confirmationNumber]. *)
Definition interval_callback (p : Poller) : Poller * list Effect :=
  let props := poller_props p in
  let reached := transactionConfirmationBlocks (web3Context props) <=? counter p in
  let active' := if reached then false else interval_active p in
  let cleared := if reached then [ClearInterval] else [] in
  match BigInt (blockNumber (transactionReceipt props)) with
  | inl e =>
      (mkPoller props (counter p) active' (pending p), cleared ++ [Uncaught e])
  | inr b =>
      let height := b + counter p in
      (mkPoller props (counter p) active' (pending p ++ [height]),
       cleared ++ [GetBlockByNumber height])
  end.

(** The rest of the interval callback, once [getBlockByNumber] has answered
    with [nextBlock] ([None] is [null]). *)
Definition after_getBlockByNumber (p : Poller) (nextBlock : option BlockOutput)
  : Poller * list Effect :=
  let props := poller_props p in
  match nextBlock with
  | Some blk =>
      if truthy_string (hash blk) then
        let confirmationNumber' := counter p + 1 in
        (mkPoller props confirmationNumber' (interval_active p) (pending p),
         [Emit (transactionWeb3PromiEvent props)
               (mkEvent (format confirmationNumber' (returnFormat props))
                        (transactionReceipt props)
                        (format (hash blk) (returnFormat props)))])
      else (p, [])
  | None => (p, [])
  end.

(** The interval callback when [getBlockByNumber] rejects: the [await]
    throws inside the detached [async] function, which has no [catch]; the
    closure's variables and the interval are left as they are. *)
Definition getBlockByNumber_rejected (p : Poller) : Poller * list Effect :=
  (p, [Uncaught RequestError]).

(** ** watchBySubscription *)

(** The body of [watchBySubscription]: only [setImmediate]. *)
Definition watchBySubscription (props : WaitProps) (w : World) : World :=
  perform [SetImmediate] (set_subscription (Scheduled props) w).

(** The [setImmediate] callback: [subscriptionManager?.subscribe('newHeads')].
    Without a subscription manager the optional chain yields [undefined] and
    nothing else is ever registered. *)
Definition immediate_callback (props : WaitProps) (w : World) : World :=
  if subscriptionManager (web3Context props)
  then perform [Subscribe] (set_subscription (Subscribing props) w)
  else set_subscription NoSubscription w.

(** The [.then] continuation: registers the two handlers. *)
Definition subscribe_then (props : WaitProps) (w : World) : World :=
  set_subscription (Active props) w.

(** The [.catch] continuation: throws [SubscriptionError] inside the promise
    chain started from the [setImmediate] callback. *)
Definition subscribe_catch (props : WaitProps) (w : World) : World :=
  perform [Uncaught (SubscriptionError (transactionReceipt props))]
          (set_subscription Rejected w).

(** The ['data'] handler, up to its [await]: at the threshold it calls
    [subscription.unsubscribe()] and awaits; it keeps no flag, and the
    subscription goes on as it is until the request is acknowledged. *)
Definition on_data (props : WaitProps) (data : option BlockOutput) (w : World) : World :=
  match data with
  | None => w
  | Some d =>
      if negb (truthy_number (number d)) then w
      else
        match BigInt (number d), BigInt (blockNumber (transactionReceipt props)) with
        | inr h, inr b =>
            let confirmationNumber' := h - b + 1 in
            let w1 :=
              perform
                [Emit (transactionWeb3PromiEvent props)
                      (mkEvent (format confirmationNumber' (returnFormat props))
                               (transactionReceipt props)
                               (format (parentHash d) (returnFormat props)))]
                w in
            if transactionConfirmationBlocks (web3Context props) <=? confirmationNumber'
            then set_unsubscribing (unsubscribing w1 ++ [AfterThreshold])
                   (perform [Unsubscribe] w1)
            else w1
        | inl e, _ => perform [Uncaught e] w
        | _, inl e => perform [Uncaught e] w
        end
  end.

(** The ['error'] handler, up to its [await]: it calls
    [subscription.unsubscribe()] and awaits; [watchByPolling] comes after. *)
Definition on_error (props : WaitProps) (w : World) : World :=
  set_unsubscribing (unsubscribing w ++ [AfterError props])
    (perform [Unsubscribe] w).

(** A handler resumed after its [await subscription.unsubscribe()]. *)
Definition unsubscribe_fulfilled (c : Continuation) (w : World) : World :=
  match c with
  | AfterThreshold => w
  | AfterError props => watchByPolling props w
  end.

(** A handler whose [await subscription.unsubscribe()] throws: the handlers
    are [async] functions nobody awaits, so the rejection is unhandled, and
    in the ['error'] handler [watchByPolling] is not reached. *)
Definition unsubscribe_rejected (c : Continuation) (w : World) : World :=
  perform [Uncaught RequestError] w.

(** ** watchTransactionForConfirmations *)

Inductive Completion :=
| Threw (e : Error) (w : World)
| Returned (w : World).

(** [transactionReceipt.blockHash]: a property read on [undefined] throws. *)
Definition read_blockHash (r : option ReceiptInfo) : Error + option HexString32Bytes :=
  match r with
  | Some r => inr (blockHash r)
  | None => inl TypeError
  end.

(** The guard [isNullish(transactionReceipt) || isNullish(transactionReceipt.blockHash)]. *)
Definition missing_receipt_or_blockHash (r : option ReceiptInfo) : bool :=
  isNullish r ||
  match r with
  | Some r => isNullish (blockHash r)
  | None => true
  end.

Definition watchTransactionForConfirmations
    (errors : ErrorClasses)
    (ctx : Web3Context) (transactionWeb3PromiEvent : nat)
    (transactionReceipt : option ReceiptInfo)
    (transactionHash : HexString32Bytes) (returnFormat : DataFormat)
    (w : World) : Completion :=
  if missing_receipt_or_blockHash transactionReceipt then
    (* the argument object of the error is built first, field by field *)
    match read_blockHash transactionReceipt with
    | inl e => Threw e w
    | inr bh =>
        Threw (thrown (new_TransactionMissingReceiptOrBlockHashError errors
                         transactionReceipt
                         (format bh returnFormat)
                         (format transactionHash returnFormat))) w
    end
  else
    match transactionReceipt with
    | None => Threw TypeError w
    | Some r =>
        if negb (truthy_number (blockNumber r)) then
          Threw (thrown (new_TransactionReceiptMissingBlockNumberError errors r)) w
        else
          let props := mkProps ctx r transactionWeb3PromiEvent returnFormat in
          if supportsSubscriptions ctx
          then Returned (watchBySubscription props w)
          else Returned (watchByPolling props w)
    end.

(** ** The scheduler *)

(** What the environment can make happen: run the [setImmediate] callback,
    settle the [subscribe] promise, deliver a header or an error on the
    subscription, settle the [i]-th awaited unsubscribe request, fire the
    interval of the [k]-th poller, or settle the [i]-th outstanding
    [getBlockByNumber] request of the [k]-th poller. *)
Inductive Input :=
| Immediate
| SubscribeResolved
| SubscribeRejected
| Data (d : option BlockOutput)
| SubError
| UnsubscribeResolved (i : nat)
| UnsubscribeRejected (i : nat)
| Tick (k : nat)
| BlockReturned (k i : nat) (b : option BlockOutput)
| BlockRejected (k i : nat).

(** Modelled from the spec: the timer and the [Subscription] object are
    external.  A cleared interval never fires again.  A subscription has the
    lifecycle active -> unsubscribed: it delivers ['data'] and ['error']
    while it is active, also while an unsubscribe request is awaited (the
    [await] is a suspension point), and nothing once an unsubscribe request
    has been acknowledged.  A callback that is not registered, or a promise
    that is not pending, does not run, which is the [w] in every default
    branch below. *)
Definition step (w : World) (i : Input) : World :=
  match i with
  | Immediate =>
      match subscription w with
      | Scheduled props => immediate_callback props w
      | _ => w
      end
  | SubscribeResolved =>
      match subscription w with
      | Subscribing props => subscribe_then props w
      | _ => w
      end
  | SubscribeRejected =>
      match subscription w with
      | Subscribing props => subscribe_catch props w
      | _ => w
      end
  | Data d =>
      match subscription w with
      | Active props => on_data props d w
      | _ => w
      end
  | SubError =>
      match subscription w with
      | Active props => on_error props w
      | _ => w
      end
  | UnsubscribeResolved i =>
      match nth_error (unsubscribing w) i with
      | Some c =>
          unsubscribe_fulfilled c
            (set_subscription Unsubscribed
               (set_unsubscribing (remove_nth i (unsubscribing w)) w))
      | None => w
      end
  | UnsubscribeRejected i =>
      match nth_error (unsubscribing w) i with
      | Some c =>
          unsubscribe_rejected c
            (set_unsubscribing (remove_nth i (unsubscribing w)) w)
      | None => w
      end
  | Tick k =>
      match nth_error (pollers w) k with
      | Some p =>
          if interval_active p then
            let '(p', es) := interval_callback p in
            perform es (set_pollers (update_nth k p' (pollers w)) w)
          else w
      | None => w
      end
  | BlockReturned k i b =>
      match nth_error (pollers w) k with
      | Some p =>
          match nth_error (pending p) i with
          | Some _ =>
              let p0 := mkPoller (poller_props p) (counter p) (interval_active p)
                                 (remove_nth i (pending p)) in
              let '(p', es) := after_getBlockByNumber p0 b in
              perform es (set_pollers (update_nth k p' (pollers w)) w)
          | None => w
          end
      | None => w
      end
  | BlockRejected k i =>
      match nth_error (pollers w) k with
      | Some p =>
          match nth_error (pending p) i with
          | Some _ =>
              let p0 := mkPoller (poller_props p) (counter p) (interval_active p)
                                 (remove_nth i (pending p)) in
              let '(p', es) := getBlockByNumber_rejected p0 in
              perform es (set_pollers (update_nth k p' (pollers w)) w)
          | None => w
          end
      | None => w
      end
  end.

Definition run (w : World) (ins : list Input) : World := fold_left step ins w.

(** ** Observing traces and inputs *)

(** The events emitted so far, and their confirmation numbers. *)
Fixpoint emitted (t : list Effect) : list ConfirmationEvent :=
  match t with
  | [] => []
  | Emit _ ev :: t' => ev :: emitted t'
  | _ :: t' => emitted t'
  end.

Fixpoint confirmation_numbers (t : list Effect) : list Z :=
  match t with
  | [] => []
  | Emit _ ev :: t' => value (confirmationNumber ev) :: confirmation_numbers t'
  | _ :: t' => confirmation_numbers t'
  end.

Fixpoint count_unsubscribe (t : list Effect) : nat :=
  match t with
  | [] => O
  | Unsubscribe :: t' => S (count_unsubscribe t')
  | _ :: t' => count_unsubscribe t'
  end.

Fixpoint count_fetch (t : list Effect) : nat :=
  match t with
  | [] => O
  | GetBlockByNumber _ :: t' => S (count_fetch t')
  | _ :: t' => count_fetch t'
  end.

(** The heights asked for so far. *)
Fixpoint fetch_heights (t : list Effect) : list Z :=
  match t with
  | [] => []
  | GetBlockByNumber h :: t' => h :: fetch_heights t'
  | _ :: t' => fetch_heights t'
  end.

Fixpoint count_ticks (ins : list Input) : nat :=
  match ins with
  | [] => O
  | Tick _ :: ins' => S (count_ticks ins')
  | _ :: ins' => count_ticks ins'
  end.

(** The heights of the headers offered to the ['data'] handler that pass its
    guard (present and not zero), in order. *)
Fixpoint data_heights (ins : list Input) : list Z :=
  match ins with
  | [] => []
  | Data (Some d) :: ins' =>
      match number d with
      | Some h => if h =? 0 then data_heights ins' else h :: data_heights ins'
      | None => data_heights ins'
      end
  | _ :: ins' => data_heights ins'
  end.

Definition is_Subscribe (e : Effect) : bool :=
  match e with Subscribe => true | _ => false end.

Definition is_SetInterval (e : Effect) : bool :=
  match e with SetInterval _ => true | _ => false end.


(** The calls only a poller makes to the timer and to the block source. *)
Definition is_polling_call (e : Effect) : bool :=
  match e with
  | SetInterval _ | ClearInterval | GetBlockByNumber _ => true
  | _ => false
  end.

(** How many effects of a trace satisfy [f]. *)
Definition count (f : Effect -> bool) (t : list Effect) : nat :=
  List.length (filter f t).

(** The inputs that reject a request the code awaits without a [catch]. *)
Definition rejected_request (i : Input) : bool :=
  match i with
  | UnsubscribeRejected _ | BlockRejected _ _ => true
  | _ => false
  end.

(** How many pollers have cleared their interval. *)
Definition cleared (qs : list Poller) : nat :=
  List.length (filter (fun q => negb (interval_active q)) qs).

(** The inputs addressed to the pollers: ticks and settled block requests. *)
Definition polling_input (i : Input) : bool :=
  match i with
  | Tick _ | BlockReturned _ _ _ | BlockRejected _ _ => true
  | _ => false
  end.

Definition is_SubError (i : Input) : bool :=
  match i with SubError => true | _ => false end.

(** [a; a+1; ...; a+n-1] *)
Definition Zseq (a : Z) (n : nat) : list Z :=
  map (fun i => a + Z.of_nat i) (seq 0 n).

Inductive Subseq {A : Type} : list A -> list A -> Prop :=
| Subseq_nil : Subseq [] []
| Subseq_skip x l1 l2 : Subseq l1 l2 -> Subseq l1 (x :: l2)
| Subseq_keep x l1 l2 : Subseq l1 l2 -> Subseq (x :: l1) (x :: l2).

(** [Merge ls l]: [l] is an interleaving of the lists [ls], each of them
    keeping its own order. *)
Inductive Merge : list (list Z) -> list Z -> Prop :=
| Merge_empty ls : Forall (fun l => l = []) ls -> Merge ls []
| Merge_snoc ls k l x m :
    Merge ls m -> nth_error ls k = Some l ->
    Merge (update_nth k (l ++ [x]) ls) (m ++ [x]).

(** Non-decreasing / strictly increasing lists of numbers. *)
Fixpoint nondecreasing (l : list Z) : Prop :=
  match l with
  | x :: (y :: _) as l' => x <= y /\ nondecreasing l'
  | _ => True
  end.

Fixpoint increasing (l : list Z) : Prop :=
  match l with
  | x :: (y :: _) as l' => x < y /\ increasing l'
  | _ => True
  end.

(** The numbers a poller has emitted when its counter stands where it does:
    2, 3, ..., counter. *)
Definition poller_numbers (q : Poller) : list Z :=
  Zseq 2 (Z.to_nat (counter q - 1)).

(** The block requests a poller accounts for: one per event it has emitted,
    and the ones not settled yet. *)
Definition poller_load (q : Poller) : nat :=
  (Z.to_nat (counter q - 1) + List.length (pending q))%nat.

Definition total_load (qs : list Poller) : nat :=
  fold_right (fun q n => (poller_load q + n)%nat) O qs.

(** What the callbacks of a poller started with [props] may do: clear the
    interval, ask for a block, emit on the emitter of [props] an event about
    the receipt of [props], and fail with the rejection of a block request. *)
Definition polling_effect (props : WaitProps) (e : Effect) : Prop :=
  match e with
  | Emit em ev =>
      em = transactionWeb3PromiEvent props /\ receipt ev = transactionReceipt props
  | ClearInterval | GetBlockByNumber _ => True
  | Uncaught err => err = RequestError
  | _ => False
  end.

(** An event built from the argument object [props]: about its receipt, and
    with both formatted fields in its return format. *)
Definition event_of (props : WaitProps) (ev : ConfirmationEvent) : Prop :=
  receipt ev = transactionReceipt props
  /\ (exists n, confirmationNumber ev = format n (returnFormat props))
  /\ (exists h, latestBlockHash ev = format h (returnFormat props)).

(** What a watch started with [props] may emit or raise. *)
Definition watch_effect (props : WaitProps) (e : Effect) : Prop :=
  match e with
  | Emit em ev => em = transactionWeb3PromiEvent props /\ event_of props ev
  | Uncaught err =>
      err = SubscriptionError (transactionReceipt props) \/ err = RequestError
  | _ => True
  end.

(** A block the poller takes as not produced yet: no block, or one whose hash
    is absent or empty. *)
Definition no_block_yet (nextBlock : option BlockOutput) : Prop :=
  match nextBlock with
  | Some blk => truthy_string (hash blk) = false
  | None => True
  end.

(** ** Starting a watch, and the inputs of the scenarios *)

Definition ctx_polling (T : Z) : Web3Context := mkContext T 1000 None false false.
Definition ctx_subscription (T : Z) : Web3Context := mkContext T 1000 None true true.
Definition receipt100 : ReceiptInfo :=
  mkReceipt (Some "0xT"%string) (Some "0xB"%string) (Some 100).
Definition fmt0 : DataFormat := mkFormat FMT_NUMBER_BIGINT FMT_BYTES_HEX.
Definition block (n : Z) (h p : string) : BlockOutput := mkBlock (Some n) (Some h) (Some p).

(** A header whose height is 0. *)
Definition genesis_header : BlockOutput :=
  mkBlock (Some 0) (Some "G"%string) (Some "P"%string).

(** Starts a watch in a fresh world; [None] when the entry point throws. *)
Definition start (errors : ErrorClasses) (ctx : Web3Context) (emitter : nat)
    (r : option ReceiptInfo) (th : HexString32Bytes) (fmt : DataFormat)
  : option World :=
  match watchTransactionForConfirmations errors ctx emitter r th fmt empty_world with
  | Returned w => Some w
  | Threw _ _ => None
  end.

Definition run_from (ctx : Web3Context) (r : ReceiptInfo) (ins : list Input) : list Z :=
  match start plain_errors ctx 0%nat (Some r) "0xT"%string fmt0 with
  | Some w => confirmation_numbers (trace (run w ins))
  | None => []
  end.

(** Polls of the first poller whose block request is answered, with a block,
    before the next tick. *)
Definition serial_polls (blks : list BlockOutput) : list Input :=
  flat_map (fun blk => [Tick 0; BlockReturned 0 0 (Some blk)]) blks.

(** [n] ticks of the first poller in a row, none answered in between, then
    the [n] answers, each with the block [blk]. *)
Definition overlapping_polls (n : nat) (blk : BlockOutput) : list Input :=
  repeat (Tick 0) n ++ repeat (BlockReturned 0 0 (Some blk)) n.

(** ** The invariant of a watch

    [P] is the argument object built by the entry point.  In every state of
    the watch the handlers and the pollers all hold [P]; there is no poller
    while the subscription is being set up or is active; and before the
    subscription is active the trace is known entirely. *)
Record Base (P : WaitProps) (w : World) : Prop := mkBase {
  base_subscription :
    match subscription w with
    | NoSubscription => unsubscribing w = []
    | Scheduled p =>
        p = P /\ unsubscribing w = [] /\ pollers w = []
        /\ trace w = [SetImmediate]
    | Subscribing p =>
        p = P /\ unsubscribing w = [] /\ pollers w = []
        /\ trace w = [SetImmediate; Subscribe]
    | Active p => p = P /\ pollers w = []
    | Unsubscribed => True
    | Rejected =>
        unsubscribing w = [] /\ pollers w = []
        /\ trace w = [SetImmediate; Subscribe;
                      Uncaught (SubscriptionError (transactionReceipt P))]
    end;
  base_pollers :
    Forall (fun q => poller_props q = P /\ 1 <= counter q) (pollers w);
  base_unsubscribing :
    Forall (fun c => c = AfterThreshold \/ c = AfterError P) (unsubscribing w)
}.

(** * Proofs *)

#[local] Arguments Z.add : simpl never.
#[local] Arguments Z.sub : simpl never.
#[local] Arguments Z.of_nat : simpl never.
#[local] Arguments Z.to_nat : simpl never.

(** ** Scenarios of the specification, run on the code *)

(** Scenario A: block 101, then block 102, each polled once. *)
Example scenario_A :
  run_from (ctx_polling 3) receipt100
    [Tick 0; BlockReturned 0 0 (Some (block 101 "H1" "B"));
     Tick 0; BlockReturned 0 0 (Some (block 102 "H2" "H1"))] = [2; 3].
Proof. reflexivity. Qed.

(** Scenario B: header 105 with parent hash P. *)
Example scenario_B :
  option_map (fun w => (emitted (trace w), subscription w))
    (option_map (fun w => run w [Immediate; SubscribeResolved;
                                 Data (Some (block 105 "H" "P"))])
       (start plain_errors (ctx_subscription 10) 7%nat (Some receipt100)
              "0xT"%string fmt0))
  = Some ([mkEvent (format 6 fmt0) receipt100 (format (Some "P"%string) fmt0)],
          Active (mkProps (ctx_subscription 10) receipt100 7%nat fmt0)).
Proof. reflexivity. Qed.

(** Scenario C: a stream error, acknowledged unsubscribe, then polling. *)
Example scenario_C :
  run_from (ctx_subscription 10) receipt100
    [Immediate; SubscribeResolved; SubError; UnsubscribeResolved 0;
     Tick 0; BlockReturned 0 0 (Some (block 101 "H1" "B"))] = [2].
Proof. reflexivity. Qed.

(** A block that is not there yet: the tick fetches and nothing is emitted. *)
Example polling_block_absent :
  run_from (ctx_polling 3) receipt100 [Tick 0; BlockReturned 0 0 None; Tick 0] = [].
Proof. reflexivity. Qed.

(** ** Lists, traces and runs *)

Lemma run_app w ins1 ins2 : run w (ins1 ++ ins2) = run (run w ins1) ins2.
Proof. unfold run. apply fold_left_app. Qed.

Lemma run_snoc w ins i : run w (ins ++ [i]) = step (run w ins) i.
Proof. rewrite run_app. reflexivity. Qed.

Lemma run_cons w i ins : run w (i :: ins) = run (step w i) ins.
Proof. reflexivity. Qed.

Lemma emitted_app t1 t2 : emitted (t1 ++ t2) = emitted t1 ++ emitted t2.
Proof.
  induction t1 as [|e t1 IH]; simpl; [reflexivity|].
  destruct e; simpl; rewrite IH; reflexivity.
Qed.

Lemma confirmation_numbers_app t1 t2 :
  confirmation_numbers (t1 ++ t2) = confirmation_numbers t1 ++ confirmation_numbers t2.
Proof.
  induction t1 as [|e t1 IH]; simpl; [reflexivity|].
  destruct e; simpl; rewrite IH; reflexivity.
Qed.

Lemma confirmation_numbers_emitted t :
  confirmation_numbers t = map (fun ev => value (confirmationNumber ev)) (emitted t).
Proof.
  induction t as [|e t IH]; simpl; [reflexivity|].
  destruct e; simpl; rewrite IH; reflexivity.
Qed.

Lemma count_unsubscribe_app t1 t2 :
  count_unsubscribe (t1 ++ t2) = (count_unsubscribe t1 + count_unsubscribe t2)%nat.
Proof.
  induction t1 as [|e t1 IH]; simpl; [reflexivity|].
  destruct e; simpl; rewrite IH; reflexivity.
Qed.

Lemma count_fetch_app t1 t2 :
  count_fetch (t1 ++ t2) = (count_fetch t1 + count_fetch t2)%nat.
Proof.
  induction t1 as [|e t1 IH]; simpl; [reflexivity|].
  destruct e; simpl; rewrite IH; reflexivity.
Qed.

Lemma fetch_heights_app t1 t2 :
  fetch_heights (t1 ++ t2) = fetch_heights t1 ++ fetch_heights t2.
Proof.
  induction t1 as [|e t1 IH]; simpl; [reflexivity|].
  destruct e; simpl; rewrite IH; reflexivity.
Qed.

Lemma count_app f t1 t2 : count f (t1 ++ t2) = (count f t1 + count f t2)%nat.
Proof. unfold count. rewrite filter_app, length_app. reflexivity. Qed.

Lemma count_ticks_app i1 i2 :
  count_ticks (i1 ++ i2) = (count_ticks i1 + count_ticks i2)%nat.
Proof.
  induction i1 as [|i i1 IH]; simpl; [reflexivity|].
  destruct i; simpl; rewrite IH; reflexivity.
Qed.

Lemma data_heights_app i1 i2 :
  data_heights (i1 ++ i2) = data_heights i1 ++ data_heights i2.
Proof.
  induction i1 as [|i i1 IH]; simpl; [reflexivity|].
  destruct i as [| | |[d|]| | | | | |]; simpl; try exact IH.
  destruct (number d) as [h|]; [|exact IH].
  destruct (h =? 0); simpl; rewrite IH; reflexivity.
Qed.

Lemma Zseq_S a n : Zseq a (S n) = Zseq a n ++ [a + Z.of_nat n].
Proof. unfold Zseq. rewrite seq_S, map_app. reflexivity. Qed.

Lemma Zseq_cons a n : Zseq a (S n) = a :: Zseq (a + 1) n.
Proof.
  unfold Zseq. simpl. f_equal; [lia|].
  rewrite <- seq_shift, map_map. apply map_ext. intros i. lia.
Qed.

Lemma Zseq_length a n : List.length (Zseq a n) = n.
Proof. unfold Zseq. rewrite length_map. apply length_seq. Qed.

Lemma In_Zseq a n x : In x (Zseq a n) -> a <= x < a + Z.of_nat n.
Proof.
  unfold Zseq. rewrite in_map_iff. intros [i [<- Hi]].
  apply in_seq in Hi. lia.
Qed.

Lemma increasing_snoc l x :
  increasing l -> (forall y, In y l -> y < x) -> increasing (l ++ [x]).
Proof.
  induction l as [|a [|c l] IH]; simpl; intros Hl Hx.
  - exact I.
  - split; [apply Hx; left; reflexivity | exact I].
  - destruct Hl as [Hac Hl]. split; [exact Hac|].
    apply IH; [exact Hl|]. intros y Hy. apply Hx. right. exact Hy.
Qed.

Lemma Zseq_increasing a n : increasing (Zseq a n).
Proof.
  induction n as [|n IH]; [exact I|].
  rewrite Zseq_S. apply increasing_snoc; [exact IH|].
  intros y Hy. apply In_Zseq in Hy. lia.
Qed.

Lemma Subseq_refl {A : Type} (l : list A) : Subseq l l.
Proof. induction l; constructor; assumption. Qed.

Lemma Subseq_nil_l {A : Type} (l : list A) : Subseq [] l.
Proof. induction l; constructor; assumption. Qed.

Lemma Subseq_app {A : Type} (l1 l2 m1 m2 : list A) :
  Subseq l1 l2 -> Subseq m1 m2 -> Subseq (l1 ++ m1) (l2 ++ m2).
Proof.
  intros H1 H2. induction H1; simpl; [exact H2 | |]; constructor; assumption.
Qed.

Lemma Subseq_app_nil {A : Type} (l1 l2 m : list A) :
  Subseq l1 l2 -> Subseq l1 (l2 ++ m).
Proof.
  intros H. rewrite <- (app_nil_r l1).
  apply Subseq_app; [exact H | apply Subseq_nil_l].
Qed.

Lemma Subseq_Forall {A : Type} (Q : A -> Prop) (l1 l2 : list A) :
  Subseq l1 l2 -> Forall Q l2 -> Forall Q l1.
Proof.
  induction 1; intros HF; [constructor | |];
    inversion HF; subst; auto.
Qed.

Lemma nondecreasing_head_le l x :
  nondecreasing (x :: l) -> Forall (fun y => x <= y) l.
Proof.
  revert x. induction l as [|a l IH]; intros x H; [constructor|].
  destruct H as [Hxa Hl]. constructor; [exact Hxa|].
  eapply Forall_impl; [|apply IH; exact Hl]. simpl. intros; lia.
Qed.

Lemma nondecreasing_tail l x : nondecreasing (x :: l) -> nondecreasing l.
Proof. destruct l; simpl; tauto. Qed.

Lemma nondecreasing_cons l x :
  Forall (fun y => x <= y) l -> nondecreasing l -> nondecreasing (x :: l).
Proof.
  destruct l as [|a l]; simpl; [tauto|].
  intros HF Hl. inversion HF; subst. tauto.
Qed.

Lemma nondecreasing_snoc l x :
  nondecreasing l -> Forall (fun y => y <= x) l -> nondecreasing (l ++ [x]).
Proof.
  induction l as [|a [|c l] IH]; simpl; intros Hl Hx.
  - exact I.
  - inversion Hx; subst. split; [assumption | exact I].
  - destruct Hl as [Hac Hl]. split; [exact Hac|].
    apply IH; [exact Hl|]. inversion Hx; assumption.
Qed.

Lemma Subseq_nondecreasing l1 l2 :
  Subseq l1 l2 -> nondecreasing l2 -> nondecreasing l1.
Proof.
  induction 1 as [|x l1 l2 H IH|x l1 l2 H IH]; intros Hl.
  - exact I.
  - apply IH. eapply nondecreasing_tail; exact Hl.
  - apply nondecreasing_cons.
    + eapply Subseq_Forall; [exact H|]. apply nondecreasing_head_le; exact Hl.
    + apply IH. eapply nondecreasing_tail; exact Hl.
Qed.

Lemma nondecreasing_map_shift (b : Z) l :
  nondecreasing l -> nondecreasing (map (fun h => h - b + 1) l).
Proof.
  induction l as [|x [|y l] IH]; simpl; intros H; try exact I.
  destruct H as [Hxy Hl]. split; [lia|]. apply IH. exact Hl.
Qed.

Lemma remove_nth_length {A : Type} (i : nat) (l : list A) (x : A) :
  nth_error l i = Some x -> S (List.length (remove_nth i l)) = List.length l.
Proof.
  revert i. induction l as [|a l IH]; intros [|i] H; simpl in *; try discriminate.
  - reflexivity.
  - f_equal. apply IH. exact H.
Qed.

Lemma Forall_remove_nth {A : Type} (Q : A -> Prop) (i : nat) (l : list A) :
  Forall Q l -> Forall Q (remove_nth i l).
Proof.
  revert i. induction l as [|a l IH]; intros i H; [destruct i; constructor|].
  inversion H; subst. destruct i; simpl; [assumption|].
  constructor; [assumption | apply IH; assumption].
Qed.

Lemma Forall_update_nth {A : Type} (Q : A -> Prop) (i : nat) (y : A) (l : list A) :
  Forall Q l -> Q y -> Forall Q (update_nth i y l).
Proof.
  revert i. induction l as [|a l IH]; intros i H Hy; [destruct i; constructor|].
  inversion H; subst. destruct i; simpl; constructor; auto.
Qed.

Lemma Forall_nth_error {A : Type} (Q : A -> Prop) (i : nat) (l : list A) (x : A) :
  Forall Q l -> nth_error l i = Some x -> Q x.
Proof.
  intros H Hn. rewrite Forall_forall in H. apply H.
  eapply nth_error_In. exact Hn.
Qed.

Lemma update_nth_length {A : Type} (i : nat) (y : A) (l : list A) :
  List.length (update_nth i y l) = List.length l.
Proof.
  revert i. induction l as [|a l IH]; intros [|i]; simpl; auto.
Qed.

Lemma nth_error_update_nth {A : Type} (i : nat) (y : A) (l : list A) (x : A) :
  nth_error l i = Some x -> nth_error (update_nth i y l) i = Some y.
Proof.
  revert i. induction l as [|a l IH]; intros [|i] H; simpl in *;
    try discriminate; auto.
Qed.

Lemma nth_error_update_nth_other {A : Type} (i j : nat) (y : A) (l : list A) :
  i <> j -> nth_error (update_nth i y l) j = nth_error l j.
Proof.
  revert i j. induction l as [|a l IH]; intros [|i] [|j] H; simpl; auto.
  congruence.
Qed.

Lemma update_nth_app_l {A : Type} (i : nat) (y x : A) (l m : list A) :
  nth_error l i = Some x -> update_nth i y (l ++ m) = update_nth i y l ++ m.
Proof.
  revert i. induction l as [|a l IH]; intros [|i] H; simpl in *;
    try discriminate; auto.
  f_equal. apply IH. exact H.
Qed.

Lemma map_update_nth {A B : Type} (f : A -> B) (i : nat) (y : A) (l : list A) :
  map f (update_nth i y l) = update_nth i (f y) (map f l).
Proof.
  revert i. induction l as [|a l IH]; intros [|i]; simpl; auto.
  f_equal. apply IH.
Qed.

Lemma update_nth_same {A : Type} (i : nat) (l : list A) (x : A) :
  nth_error l i = Some x -> update_nth i x l = l.
Proof.
  revert i. induction l as [|a l IH]; intros [|i] H; simpl in *;
    try discriminate; auto.
  - inversion H. reflexivity.
  - f_equal. apply IH. exact H.
Qed.

(** ** The invariant holds all along *)

Lemma Base_no_pollers P w k q :
  Base P w -> nth_error (pollers w) k = Some q ->
  subscription w = NoSubscription \/ subscription w = Unsubscribed.
Proof.
  intros [Hs _ _] Hq.
  assert (Hne : pollers w <> [])
    by (intros E; rewrite E in Hq; destruct k; discriminate).
  destruct (subscription w); auto; exfalso; apply Hne; tauto.
Qed.

Lemma Base_no_unsubscribing P w i c :
  Base P w -> nth_error (unsubscribing w) i = Some c ->
  (exists p, subscription w = Active p) \/ subscription w = Unsubscribed.
Proof.
  intros [Hs _ _] Hc.
  assert (Hne : unsubscribing w <> [])
    by (intros E; rewrite E in Hc; destruct i; discriminate).
  destruct (subscription w) as [|p|p|p| |]; eauto; exfalso; apply Hne; tauto.
Qed.

(** Replacing a poller by one with the same arguments and a counter that is
    still at least 1 keeps the invariant. *)
Lemma Base_update_poller P w k q q' es :
  Base P w -> nth_error (pollers w) k = Some q ->
  poller_props q' = poller_props q -> counter q <= counter q' ->
  Base P (perform es (set_pollers (update_nth k q' (pollers w)) w)).
Proof.
  intros HB Hq Hprops Hc.
  pose proof (Base_no_pollers _ _ _ _ HB Hq) as Hs.
  destruct HB as [HBs HBp HBu].
  pose proof (Forall_nth_error _ _ _ _ HBp Hq) as HPq.
  destruct HPq as [HP H1].
  constructor; simpl.
  - destruct Hs as [Hs | Hs]; rewrite Hs in *; simpl; auto.
  - apply Forall_update_nth; [exact HBp|]. split; [congruence | lia].
  - exact HBu.
Qed.

Lemma Base_step P w i : Base P w -> Base P (step w i).
Proof.
  intros HB. destruct i as [| | |d| |j|j|k|k j blk|k j]; simpl.
  - destruct HB as [Hs Hp Hu]. destruct w as [s u ps t]. simpl in *.
    destruct s; try (constructor; assumption).
    destruct Hs as (-> & -> & -> & ->). unfold immediate_callback. simpl.
    destruct (subscriptionManager _); constructor; simpl; auto.
  - destruct HB as [Hs Hp Hu]. destruct w as [s u ps t]. simpl in *.
    destruct s; try (constructor; assumption).
    destruct Hs as (-> & -> & -> & ->). constructor; simpl; auto.
  - destruct HB as [Hs Hp Hu]. destruct w as [s u ps t]. simpl in *.
    destruct s; try (constructor; assumption).
    destruct Hs as (-> & -> & -> & ->). constructor; simpl; auto.
  - destruct HB as [Hs Hp Hu]. destruct w as [s u ps t]. simpl in *.
    destruct s; try (constructor; assumption).
    destruct Hs as (-> & ->). unfold on_data.
    destruct d as [d|]; [|constructor; simpl; auto].
    destruct (negb (truthy_number (number d))); [constructor; simpl; auto|].
    destruct (BigInt (number d)); [constructor; simpl; auto|].
    destruct (BigInt (blockNumber _)); [constructor; simpl; auto|].
    simpl. destruct (_ <=? _); constructor; simpl; auto.
    apply Forall_app. split; [exact Hu|]. constructor; [left; reflexivity | constructor].
  - destruct HB as [Hs Hp Hu]. destruct w as [s u ps t]. simpl in *.
    destruct s; try (constructor; assumption).
    destruct Hs as (-> & ->). constructor; simpl; auto.
    apply Forall_app. split; [exact Hu|]. constructor; [right; reflexivity | constructor].
  - destruct (nth_error (unsubscribing w) j) as [c|] eqn:Hc; [|exact HB].
    destruct HB as [Hs Hp Hu].
    pose proof (Forall_nth_error _ _ _ _ Hu Hc) as Hc'.
    destruct Hc' as [-> | ->]; constructor; simpl; auto;
      try (apply Forall_remove_nth; exact Hu).
    apply Forall_app. split; [exact Hp|].
    constructor; [simpl; split; [reflexivity | lia] | constructor].
  - destruct (nth_error (unsubscribing w) j) as [c|] eqn:Hc; [|exact HB].
    destruct (Base_no_unsubscribing _ _ _ _ HB Hc) as [[p Hs'] | Hs'];
      destruct HB as [Hs Hp Hu]; constructor; simpl; rewrite ?Hs' in *; auto;
      apply Forall_remove_nth; exact Hu.
  - destruct (nth_error (pollers w) k) as [q|] eqn:Hq; [|exact HB].
    destruct (interval_active q); [|exact HB].
    unfold interval_callback.
    destruct (BigInt _); eapply Base_update_poller; eauto; simpl; lia.
  - destruct (nth_error (pollers w) k) as [q|] eqn:Hq; [|exact HB].
    destruct (nth_error (pending q) j); [|exact HB].
    unfold after_getBlockByNumber. simpl.
    destruct blk as [blk|]; [destruct (truthy_string (hash blk))|];
      eapply Base_update_poller; eauto; simpl; lia.
  - destruct (nth_error (pollers w) k) as [q|] eqn:Hq; [|exact HB].
    destruct (nth_error (pending q) j); [|exact HB].
    eapply Base_update_poller; eauto; simpl; lia.
Qed.

Lemma Base_run P ins : forall w, Base P w -> Base P (run w ins).
Proof.
  induction ins as [|i ins IH]; intros w HB; [exact HB|].
  rewrite run_cons. apply IH. apply Base_step. exact HB.
Qed.

Lemma Base_watchByPolling P : Base P (watchByPolling P empty_world).
Proof.
  constructor; simpl; auto.
  constructor; [simpl; split; [reflexivity | lia] | constructor].
Qed.

Lemma Base_watchBySubscription P : Base P (watchBySubscription P empty_world).
Proof. constructor; simpl; auto. Qed.

(** ** The entry point *)

(** What a successful start looks like: the receipt carries a block hash and
    a non-zero block number, and exactly one observer was started, with the
    argument object built from the entry point's own arguments. *)
Lemma start_returns errors ctx em r th fmt w0 :
  start errors ctx em (Some r) th fmt = Some w0 ->
  exists b, blockNumber r = Some b /\ b <> 0 /\ blockHash r <> None /\
    w0 = (if supportsSubscriptions ctx
          then watchBySubscription (mkProps ctx r em fmt) empty_world
          else watchByPolling (mkProps ctx r em fmt) empty_world).
Proof.
  unfold start, watchTransactionForConfirmations, missing_receipt_or_blockHash.
  simpl.
  destruct (blockHash r) as [bh|] eqn:Hbh; simpl; [|discriminate].
  destruct (blockNumber r) as [b|] eqn:Hb; simpl; [|discriminate].
  destruct (b =? 0) eqn:Hz; simpl; [discriminate|].
  intros H. exists b. apply Z.eqb_neq in Hz.
  repeat split; [exact Hz | congruence |].
  destruct (supportsSubscriptions ctx); inversion H; reflexivity.
Qed.

Lemma start_Base errors ctx em r th fmt w0 ins :
  start errors ctx em (Some r) th fmt = Some w0 ->
  Base (mkProps ctx r em fmt) (run w0 ins).
Proof.
  intros H. apply start_returns in H. destruct H as (b & _ & _ & _ & ->).
  apply Base_run. destruct (supportsSubscriptions ctx);
    [apply Base_watchBySubscription | apply Base_watchByPolling].
Qed.

(** A property that holds when the observer is started and that every
    callback preserves, in states that satisfy [Base], holds all along. *)
Lemma start_invariant (Q : list Input -> World -> Prop)
    errors ctx em r th fmt w0 :
  start errors ctx em (Some r) th fmt = Some w0 ->
  Q [] w0 ->
  (forall b ins w i,
     blockNumber r = Some b ->
     Base (mkProps ctx r em fmt) w ->
     Q ins w -> Q (ins ++ [i]) (step w i)) ->
  forall ins, Q ins (run w0 ins).
Proof.
  intros Hstart H0 Hstep ins.
  induction ins as [|i ins IH] using rev_ind; [exact H0|].
  rewrite run_snoc.
  pose proof Hstart as H. apply start_returns in H. destruct H as (b & Hb & _).
  eapply Hstep; [exact Hb | eapply start_Base; exact Hstart | exact IH].
Qed.

(** A watch whose subscription is over, with no unsubscribe request awaited
    and no poller, does nothing any more, whatever the environment
    delivers. *)
Lemma step_finished w i :
  pollers w = [] ->
  unsubscribing w = [] ->
  subscription w = Unsubscribed \/ subscription w = Rejected
    \/ subscription w = NoSubscription ->
  step w i = w.
Proof.
  intros Hp Hu Hs. destruct w as [s u p t]. simpl in *. subst p u.
  destruct Hs as [->|[->| ->]]; destruct i as [| | | | |j|j|k|k j b|k j];
    simpl; try reflexivity; try (destruct j; reflexivity);
    try (destruct k; reflexivity).
Qed.

Lemma run_finished w ins :
  pollers w = [] ->
  unsubscribing w = [] ->
  subscription w = Unsubscribed \/ subscription w = Rejected
    \/ subscription w = NoSubscription ->
  run w ins = w.
Proof.
  intros Hp Hu Hs. induction ins as [|i ins IH]; [reflexivity|].
  rewrite run_cons, (step_finished w i Hp Hu Hs). exact IH.
Qed.

(** ** Interleavings *)

Lemma Merge_nil_inv m : Merge [] m -> m = [].
Proof.
  intros H. remember (@nil (list Z)) as ls eqn:E.
  induction H as [ls _ | ls k l x m H IH Hk]; [reflexivity|].
  destruct ls; [destruct k; discriminate Hk|].
  destruct k; discriminate E.
Qed.

Lemma Merge_add ls m : Merge ls m -> Merge (ls ++ [[]]) m.
Proof.
  induction 1 as [ls HF | ls k l x m H IH Hk].
  - constructor. apply Forall_app. split; [exact HF | repeat constructor].
  - rewrite <- (update_nth_app_l _ _ l) by exact Hk.
    econstructor; [exact IH|]. rewrite nth_error_app1; [exact Hk|].
    apply nth_error_Some. congruence.
Qed.

Lemma Merge_single l m : Merge [l] m -> m = l.
Proof.
  intros H. remember [l] as ls eqn:E. revert l E.
  induction H as [ls HF | ls k l0 x m H IH Hk]; intros l E.
  - subst ls. inversion HF; subst. reflexivity.
  - destruct ls as [|a ls]; [destruct k; discriminate Hk|].
    destruct k as [|k]; simpl in *.
    + inversion Hk; subst a. inversion E; subst.
      rewrite (IH l0 eq_refl). reflexivity.
    + inversion E as [[Ha Hl]].
      destruct ls; [destruct k; discriminate Hk | destruct k; discriminate Hl].
Qed.

Lemma poller_numbers_next q :
  1 <= counter q ->
  Zseq 2 (Z.to_nat (counter q + 1 - 1)) = poller_numbers q ++ [counter q + 1].
Proof.
  intros H. unfold poller_numbers.
  replace (Z.to_nat (counter q + 1 - 1)) with (S (Z.to_nat (counter q - 1))) by lia.
  rewrite Zseq_S. do 2 f_equal. lia.
Qed.

Lemma map_update_same {A B : Type} (f : A -> B) (k : nat) (l : list A) (x y : A) :
  nth_error l k = Some x -> f y = f x ->
  map f (update_nth k y l) = map f l.
Proof.
  intros Hk Hf. rewrite map_update_nth, Hf. apply update_nth_same.
  rewrite nth_error_map, Hk. reflexivity.
Qed.

(** ** The numbers emitted in a watch *)

(** The numbers emitted during any run: first those of the headers [hs] the
    subscription handled, a subsequence of the heights delivered, then an
    interleaving [m] of what the pollers emitted, each of them 2, 3, ... up
    to its counter. *)
Lemma numbers_shape errors ctx em r th fmt w0 ins :
  start errors ctx em (Some r) th fmt = Some w0 ->
  exists b hs m,
    blockNumber r = Some b
    /\ confirmation_numbers (trace (run w0 ins)) =
       map (fun h => h - b + 1) hs ++ m
    /\ Subseq hs (data_heights ins)
    /\ Merge (map poller_numbers (pollers (run w0 ins))) m
    /\ Forall (fun n => 2 <= n) m
    /\ match subscription (run w0 ins) with
       | NoSubscription | Scheduled _ | Subscribing _ | Rejected => hs = []
       | _ => True
       end.
Proof.
  intros Hstart.
  pose proof Hstart as H. apply start_returns in H.
  destruct H as (b & Hb & _ & _ & Hw0). exists b.
  assert (HQ : exists hs m,
    confirmation_numbers (trace (run w0 ins)) = map (fun h => h - b + 1) hs ++ m
    /\ Subseq hs (data_heights ins)
    /\ Merge (map poller_numbers (pollers (run w0 ins))) m
    /\ Forall (fun n => 2 <= n) m
    /\ match subscription (run w0 ins) with
       | NoSubscription | Scheduled _ | Subscribing _ | Rejected => hs = []
       | _ => True
       end).
  { revert ins.
    apply (start_invariant
      (fun ins w => exists hs m,
         confirmation_numbers (trace w) = map (fun h => h - b + 1) hs ++ m
         /\ Subseq hs (data_heights ins)
         /\ Merge (map poller_numbers (pollers w)) m
         /\ Forall (fun n => 2 <= n) m
         /\ match subscription w with
            | NoSubscription | Scheduled _ | Subscribing _ | Rejected => hs = []
            | _ => True
            end) errors ctx em r th fmt w0 Hstart).
    - exists [], []. subst w0.
      destruct (supportsSubscriptions ctx); simpl; repeat split;
        repeat constructor.
    - clear Hw0. intros b' ins w i Hb' HB (hs & m & Hn & Hh & Hm & H2 & He).
      assert (b' = b) by congruence. subst b'.
      assert (Hh' : Subseq hs (data_heights (ins ++ [i])))
        by (rewrite data_heights_app; apply Subseq_app_nil; exact Hh).
      destruct i as [| | |d| |j|j|k|k j blk|k j]; simpl.
      + destruct HB as [Hs _ _]. destruct w as [s u ps t]. simpl in *.
        destruct s; try (exists hs, m; auto; fail).
        destruct Hs as (-> & -> & -> & ->). unfold immediate_callback. simpl.
        exists hs, m. destruct (subscriptionManager ctx); simpl; auto.
      + destruct w as [s u ps t]. simpl in *.
        destruct s; try (exists hs, m; auto; fail).
        exists hs, m. simpl. auto.
      + destruct HB as [Hs _ _]. destruct w as [s u ps t]. simpl in *.
        destruct s; try (exists hs, m; auto; fail).
        destruct Hs as (-> & -> & -> & ->). exists hs, m. simpl. auto.
      + destruct HB as [Hs _ _]. destruct w as [s u ps t]. simpl in *.
        destruct s; try (exists hs, m; auto; fail).
        destruct Hs as (-> & ->). simpl in Hm.
        apply Merge_nil_inv in Hm. subst m. rewrite app_nil_r in Hn.
        unfold on_data.
        destruct d as [d|]; [|exists hs, []; rewrite app_nil_r; simpl; auto;
                               repeat split; auto; repeat constructor].
        destruct (number d) as [h|] eqn:Hnum; simpl;
          [|exists hs, []; rewrite app_nil_r; simpl;
            repeat split; auto; repeat constructor].
        destruct (h =? 0) eqn:Hz; simpl;
          [exists hs, []; rewrite app_nil_r; simpl;
           repeat split; auto; repeat constructor|].
        rewrite Hb. simpl.
        exists (hs ++ [h]), []. rewrite app_nil_r.
        assert (Hsub : Subseq (hs ++ [h]) (data_heights (ins ++ [Data (Some d)]))).
        { rewrite data_heights_app. apply Subseq_app; [exact Hh|].
          simpl. rewrite Hnum, Hz. apply Subseq_refl. }
        destruct (_ <=? _); simpl; rewrite <- ?app_assoc;
          rewrite confirmation_numbers_app, Hn, map_app; simpl;
          repeat split; auto; repeat constructor.
      + destruct w as [s u ps t]. simpl in *.
        destruct s; try (exists hs, m; auto; fail).
        exists hs, m. simpl. rewrite confirmation_numbers_app, Hn. simpl.
        rewrite app_nil_r. auto.
      + destruct (nth_error (unsubscribing w) j) as [c|] eqn:Hc;
          [|exists hs, m; auto].
        exists hs, m. destruct c as [|props]; simpl; [auto|].
        rewrite confirmation_numbers_app, Hn, map_app. simpl.
        rewrite app_nil_r. repeat split; auto.
        apply (Merge_add _ _ Hm).
      + destruct (nth_error (unsubscribing w) j) as [c|] eqn:Hc;
          [|exists hs, m; auto].
        exists hs, m. simpl. rewrite confirmation_numbers_app, Hn. simpl.
        rewrite app_nil_r.
        destruct (Base_no_unsubscribing _ _ _ _ HB Hc) as [[p Hs] | Hs];
          rewrite Hs in *; auto.
      + destruct (nth_error (pollers w) k) as [q|] eqn:Hq; [|exists hs, m; auto].
        destruct (interval_active q); [|exists hs, m; auto].
        exists hs, m. unfold interval_callback.
        assert (Hs : match subscription w with
                     | NoSubscription | Scheduled _ | Subscribing _ | Rejected =>
                         hs = []
                     | _ => True
                     end) by exact He.
        destruct (BigInt _); simpl; rewrite !confirmation_numbers_app, Hn;
          rewrite (map_update_same poller_numbers k _ q) by (exact Hq || reflexivity);
          destruct (_ <=? _); simpl; rewrite !app_nil_r; auto.
      + destruct (nth_error (pollers w) k) as [q|] eqn:Hq; [|exists hs, m; auto].
        destruct (nth_error (pending q) j); [|exists hs, m; auto].
        destruct HB as [_ HBp _].
        pose proof (Forall_nth_error _ _ _ _ HBp Hq) as [_ H1].
        unfold after_getBlockByNumber. simpl.
        destruct blk as [blk|]; [destruct (truthy_string (hash blk))|]; simpl.
        * exists hs, (m ++ [counter q + 1]).
          rewrite confirmation_numbers_app, Hn, <- app_assoc. simpl.
          repeat split; auto.
          -- rewrite map_update_nth. unfold poller_numbers at 1. simpl.
             rewrite poller_numbers_next by exact H1.
             econstructor; [exact Hm|].
             rewrite nth_error_map, Hq. reflexivity.
          -- apply Forall_app. split; [exact H2|]. repeat constructor. lia.
        * exists hs, m. rewrite app_nil_r.
          rewrite (map_update_same poller_numbers k _ q) by (exact Hq || reflexivity).
          auto.
        * exists hs, m. rewrite app_nil_r.
          rewrite (map_update_same poller_numbers k _ q) by (exact Hq || reflexivity).
          auto.
      + destruct (nth_error (pollers w) k) as [q|] eqn:Hq; [|exists hs, m; auto].
        destruct (nth_error (pending q) j); [|exists hs, m; auto].
        exists hs, m. simpl. rewrite confirmation_numbers_app, Hn. simpl.
        rewrite app_nil_r.
        rewrite (map_update_same poller_numbers k _ q) by (exact Hq || reflexivity).
        auto. }
  destruct HQ as (hs & m & HQ). exists hs, m. split; [exact Hb | exact HQ].
Qed.

(** Without subscription support there is one poller, and nothing else. *)
Lemma polling_mode errors ctx em r th fmt w0 ins :
  start errors ctx em (Some r) th fmt = Some w0 ->
  supportsSubscriptions ctx = false ->
  subscription (run w0 ins) = NoSubscription
  /\ unsubscribing (run w0 ins) = []
  /\ exists q, pollers (run w0 ins) = [q]
               /\ poller_props q = mkProps ctx r em fmt /\ 1 <= counter q.
Proof.
  intros Hstart Hsup. revert ins.
  apply (start_invariant
    (fun _ w => subscription w = NoSubscription /\ unsubscribing w = []
                /\ exists q, pollers w = [q]
                             /\ poller_props q = mkProps ctx r em fmt
                             /\ 1 <= counter q)
    errors ctx em r th fmt w0 Hstart).
  - pose proof Hstart as H. apply start_returns in H.
    destruct H as (b & _ & _ & _ & ->). rewrite Hsup. simpl.
    repeat split. eexists. repeat split. simpl. lia.
  - intros b ins w i Hb HB (Hs & Hu & q & Hq & HP & Hc).
    destruct w as [s u ps t]. simpl in *. subst s u ps.
    destruct i as [| | |d| |j|j|k|k j blk|k j]; simpl;
      try (repeat split; auto; exists q; auto; fail);
      try (destruct j; simpl; repeat split; auto; exists q; auto; fail).
    + destruct k as [|k]; simpl;
        [|destruct k; repeat split; auto; exists q; auto].
      destruct (interval_active q); [|repeat split; auto; exists q; auto].
      unfold interval_callback.
      destruct (BigInt _); simpl; repeat split; auto; eexists;
        repeat split; simpl; auto.
    + destruct k as [|k]; simpl;
        [|destruct k; repeat split; auto; exists q; auto].
      destruct (nth_error (pending q) j); [|repeat split; auto; exists q; auto].
      unfold after_getBlockByNumber. simpl.
      destruct blk as [blk|]; [destruct (truthy_string (hash blk))|]; simpl;
        repeat split; auto; eexists; repeat split; simpl; auto; lia.
    + destruct k as [|k]; simpl;
        [|destruct k; repeat split; auto; exists q; auto].
      destruct (nth_error (pending q) j); [|repeat split; auto; exists q; auto].
      simpl. repeat split; auto; eexists; repeat split; simpl; auto.
Qed.

(** ** Validation at the entry point *)

(** A receipt without a block hash: what is raised is what
    [throw new TransactionMissingReceiptOrBlockHashError(..)] raises on the
    payload with the formatted transaction hash, and the world is untouched. *)
Lemma missing_blockHash_throws errors ctx em r th fmt w :
  blockHash r = None ->
  watchTransactionForConfirmations errors ctx em (Some r) th fmt w =
  Threw (thrown (new_TransactionMissingReceiptOrBlockHashError errors
                   (Some r) (format None fmt) (format th fmt))) w.
Proof.
  intros H. unfold watchTransactionForConfirmations, missing_receipt_or_blockHash.
  simpl. rewrite H. reflexivity.
Qed.

(** A receipt with a block hash whose block number is absent or zero. *)
Lemma missing_blockNumber_throws errors ctx em r th fmt w bh :
  blockHash r = Some bh ->
  blockNumber r = None \/ blockNumber r = Some 0 ->
  watchTransactionForConfirmations errors ctx em (Some r) th fmt w =
  Threw (thrown (new_TransactionReceiptMissingBlockNumberError errors r)) w.
Proof.
  intros H Hn. unfold watchTransactionForConfirmations, missing_receipt_or_blockHash.
  simpl. rewrite H. simpl. destruct Hn as [-> | ->]; reflexivity.
Qed.

(** C3 (defect): with the receipt itself absent the guard is taken, but the
    payload of the validation error reads [transactionReceipt.blockHash] on
    the absent receipt, so what reaches the caller is a [TypeError] and not
    [TransactionMissingReceiptOrBlockHashError], whatever the constructor of
    that class does: it is not even called.  (It is still thrown
    synchronously and the world is untouched.) *)
Theorem absent_receipt_throws_TypeError errors ctx em th fmt w :
  watchTransactionForConfirmations errors ctx em None th fmt w = Threw TypeError w.
Proof. reflexivity. Qed.

(** C10: for a receipt with a block hash and a block number the outcome of
    [watchTransactionForConfirmations] does not depend on the transaction
    hash, and neither does anything the watch does afterwards; for any
    receipt at all, two calls that differ only in the transaction hash either
    agree or both raise what
    [throw new TransactionMissingReceiptOrBlockHashError(..)] raises, on
    payloads that differ in the transaction hash only. *)
Theorem transactionHash_only_in_error_payload
    errors ctx em r th1 th2 fmt w bh n :
  blockHash r = Some bh ->
  blockNumber r = Some n ->
  watchTransactionForConfirmations errors ctx em (Some r) th1 fmt w =
  watchTransactionForConfirmations errors ctx em (Some r) th2 fmt w
  /\ (forall ins,
        option_map (fun w0 => run w0 ins) (start errors ctx em (Some r) th1 fmt) =
        option_map (fun w0 => run w0 ins) (start errors ctx em (Some r) th2 fmt))
  /\ (forall r' : option ReceiptInfo,
        watchTransactionForConfirmations errors ctx em r' th1 fmt w =
        watchTransactionForConfirmations errors ctx em r' th2 fmt w
        \/ exists bh',
            watchTransactionForConfirmations errors ctx em r' th1 fmt w =
              Threw (thrown (new_TransactionMissingReceiptOrBlockHashError errors
                               r' bh' (format th1 fmt))) w /\
            watchTransactionForConfirmations errors ctx em r' th2 fmt w =
              Threw (thrown (new_TransactionMissingReceiptOrBlockHashError errors
                               r' bh' (format th2 fmt))) w).
Proof.
  intros Hbh Hn.
  assert (Heq : forall w',
    watchTransactionForConfirmations errors ctx em (Some r) th1 fmt w' =
    watchTransactionForConfirmations errors ctx em (Some r) th2 fmt w').
  { intros w'.
    unfold watchTransactionForConfirmations, missing_receipt_or_blockHash.
    simpl. rewrite Hbh. reflexivity. }
  split; [apply Heq|]. split.
  - intros ins. unfold start. rewrite Heq. reflexivity.
  - intros [r'|]; [|left; reflexivity].
    destruct (blockHash r') as [bh'|] eqn:Hbh'.
    + left. unfold watchTransactionForConfirmations, missing_receipt_or_blockHash.
      simpl. rewrite Hbh'. reflexivity.
    + right. exists (format None fmt).
      split; apply missing_blockHash_throws; exact Hbh'.
Qed.

Lemma transactionHash_only_in_error_payload_witness :
  watchTransactionForConfirmations plain_errors (ctx_polling 3) 0%nat
    (Some receipt100) "0x01"%string fmt0 empty_world =
  watchTransactionForConfirmations plain_errors (ctx_polling 3) 0%nat
    (Some receipt100) "0x02"%string fmt0 empty_world.
Proof.
  exact (proj1 (transactionHash_only_in_error_payload
                  plain_errors (ctx_polling 3) 0%nat receipt100
                  "0x01"%string "0x02"%string
                  fmt0 empty_world "0xB"%string 100 eq_refl eq_refl)).
Defined.

(** ** The polling observer *)

(** The tick that finds the threshold reached clears the interval and still
    asks for the next block. *)
Lemma stop_tick_still_fetches p b :
  blockNumber (transactionReceipt (poller_props p)) = Some b ->
  transactionConfirmationBlocks (web3Context (poller_props p)) <= counter p ->
  interval_callback p =
  (mkPoller (poller_props p) (counter p) false (pending p ++ [b + counter p]),
   [ClearInterval; GetBlockByNumber (b + counter p)]).
Proof.
  intros Hb HT. unfold interval_callback. rewrite Hb. simpl.
  apply Z.leb_le in HT. rewrite HT. reflexivity.
Qed.

(** C1 (defect): two runs of the polling observer on the code.  With threshold
    1 and block 101 already there, the first tick clears the interval, still
    fetches block 101 and emits confirmation 2, where the threshold allows no
    event at all.  With threshold 3 and blocks 101, 102, 103 arriving in
    order, the third tick (counter = 3 = threshold) clears the interval,
    fetches block 103 and emits confirmation 4: three events 2, 3, 4 instead
    of the two events 2, 3. *)
Theorem polling_overshoots_threshold :
  option_map (fun w0 => trace (run w0
      [Tick 0; BlockReturned 0 0 (Some (block 101 "H1" "B"))]))
    (start plain_errors (ctx_polling 1) 0%nat (Some receipt100) "0xT"%string fmt0)
  = Some [SetInterval 1000; ClearInterval; GetBlockByNumber 101;
          Emit 0%nat (mkEvent (format 2 fmt0) receipt100
                              (format (Some "H1"%string) fmt0))]
  /\ run_from (ctx_polling 3) receipt100
       [Tick 0; BlockReturned 0 0 (Some (block 101 "H1" "B"));
        Tick 0; BlockReturned 0 0 (Some (block 102 "H2" "H1"));
        Tick 0; BlockReturned 0 0 (Some (block 103 "H3" "H2"));
        Tick 0; Tick 0] = [2; 3; 4].
Proof. split; reflexivity. Qed.

(** ** The subscription observer *)

(** C2, as stated, fails: a header that carries the height 0 is delivered to
    an active subscription and nothing is emitted, because the guard of the
    handler tests the height for truthiness and 0 is falsy. *)
Lemma zero_height_header_ignored :
  exists w,
    option_map (fun w0 => run w0 [Immediate; SubscribeResolved])
      (start plain_errors (ctx_subscription 10) 7%nat (Some receipt100)
             "0xT"%string fmt0)
    = Some w
    /\ subscription w = Active (mkProps (ctx_subscription 10) receipt100 7%nat fmt0)
    /\ number genesis_header = Some 0
    /\ emitted (trace (step w (Data (Some genesis_header)))) = [].
Proof. eexists. repeat split. Qed.

(** C2 (amended): while the subscription is active, every header that carries
    a non-zero height [h] makes the handler emit, on the caller's emitter, an
    event with confirmationNumber [h - blockNumber + 1], the original receipt
    and the header's parent hash (followed by [unsubscribe] when the
    threshold is reached); a header (or a payload) without a height, or with
    the height 0, changes nothing. *)
Theorem data_handler_emits errors ctx em r th fmt w0 ins P d h :
  start errors ctx em (Some r) th fmt = Some w0 ->
  subscription (run w0 ins) = Active P ->
  number d = Some h ->
  h <> 0 ->
  exists b,
    blockNumber r = Some b /\
    trace (step (run w0 ins) (Data (Some d))) =
      trace (run w0 ins)
      ++ Emit em (mkEvent (format (h - b + 1) fmt) r (format (parentHash d) fmt))
         :: (if transactionConfirmationBlocks ctx <=? h - b + 1
             then [Unsubscribe] else [])
    /\ step (run w0 ins) (Data None) = run w0 ins
    /\ (forall d', number d' = None \/ number d' = Some 0 ->
                   step (run w0 ins) (Data (Some d')) = run w0 ins).
Proof.
  intros Hstart Hact Hnum Hh.
  pose proof Hstart as H. apply start_returns in H. destruct H as (b & Hb & _).
  exists b. split; [exact Hb|].
  pose proof (base_subscription _ _ (start_Base _ _ _ _ _ _ _ ins Hstart)) as Hs.
  rewrite Hact in Hs. destruct Hs as (-> & _).
  unfold step. rewrite Hact. unfold on_data. simpl.
  repeat split.
  - rewrite Hnum. simpl. rewrite Hb. simpl.
    apply Z.eqb_neq in Hh. rewrite Hh. simpl.
    destruct (_ <=? _); simpl; [rewrite <- app_assoc|]; reflexivity.
  - intros d' [Hd | Hd]; rewrite Hd; reflexivity.
Qed.

Lemma data_handler_emits_witness :
  exists w0 b,
    start plain_errors (ctx_subscription 10) 7%nat (Some receipt100)
          "0xT"%string fmt0 = Some w0
    /\ blockNumber receipt100 = Some b
    /\ trace (step (run w0 [Immediate; SubscribeResolved])
                   (Data (Some (block 105 "H" "P")))) =
       trace (run w0 [Immediate; SubscribeResolved])
       ++ Emit 7%nat (mkEvent (format (105 - b + 1) fmt0) receipt100
                              (format (Some "P"%string) fmt0))
          :: (if 10 <=? 105 - b + 1 then [Unsubscribe] else []).
Proof.
  eexists.
  destruct (data_handler_emits plain_errors (ctx_subscription 10) 7%nat receipt100
              "0xT"%string fmt0 _ [Immediate; SubscribeResolved] _
              (block 105 "H" "P") 105 eq_refl eq_refl eq_refl
              ltac:(discriminate))
    as (b & Hb & Ht & _).
  exists b. split; [reflexivity|]. split; [exact Hb | exact Ht].
Defined.

(** Once an unsubscribe request is acknowledged the subscription is over for
    good, and [unsubscribe] is never called again. *)
Lemma unsubscribed_stable ins : forall w,
  subscription w = Unsubscribed ->
  subscription (run w ins) = Unsubscribed
  /\ count_unsubscribe (trace (run w ins)) = count_unsubscribe (trace w).
Proof.
  induction ins as [|i ins IH]; intros w Hs; [auto|].
  rewrite run_cons.
  assert (Hstep : subscription (step w i) = Unsubscribed
                  /\ count_unsubscribe (trace (step w i)) =
                     count_unsubscribe (trace w)).
  { destruct w as [s u ps t]. simpl in Hs. subst s.
    destruct i as [| | |d| |j|j|k|k j blk|k j]; simpl; auto.
    - destruct (nth_error u j) as [[|props]|]; simpl; auto.
      rewrite count_unsubscribe_app. simpl. auto.
    - destruct (nth_error u j); simpl; auto.
      rewrite count_unsubscribe_app. simpl. auto.
    - destruct (nth_error ps k) as [q|]; auto.
      destruct (interval_active q); auto.
      unfold interval_callback.
      destruct (BigInt _); simpl; rewrite !count_unsubscribe_app;
        destruct (_ <=? _); simpl; auto.
    - destruct (nth_error ps k) as [q|]; auto.
      destruct (nth_error (pending q) j); auto.
      unfold after_getBlockByNumber. simpl.
      destruct blk as [blk|]; [destruct (truthy_string (hash blk))|]; simpl;
        rewrite count_unsubscribe_app; simpl; auto.
    - destruct (nth_error ps k) as [q|]; auto.
      destruct (nth_error (pending q) j); auto.
      simpl. rewrite count_unsubscribe_app. simpl. auto. }
  destruct Hstep as [Hs' Hc].
  destruct (IH _ Hs') as [H1 H2]. split; [exact H1 | congruence].
Qed.

(** C4, as stated, fails: with threshold 3 and a receipt in block 100, header
    102 reaches the threshold and the handler calls [unsubscribe]; header
    103 is delivered before that request is acknowledged, and the handler,
    which keeps no flag, emits confirmation 4 and calls [unsubscribe] a
    second time. *)
Lemma header_before_acknowledgment_unsubscribes_again :
  option_map
    (fun w0 => trace (run w0 [Immediate; SubscribeResolved;
                              Data (Some (block 102 "H2" "H1"));
                              Data (Some (block 103 "H3" "H2"))]))
    (start plain_errors (ctx_subscription 3) 7%nat (Some receipt100)
           "0xT"%string fmt0)
  = Some [SetImmediate; Subscribe;
          Emit 7%nat (mkEvent (format 3 fmt0) receipt100
                              (format (Some "H1"%string) fmt0));
          Unsubscribe;
          Emit 7%nat (mkEvent (format 4 fmt0) receipt100
                              (format (Some "H2"%string) fmt0));
          Unsubscribe].
Proof. reflexivity. Qed.

(** C4 (amended): every header delivered to the active subscription whose
    confirmation number reaches the threshold makes the handler emit that
    event and call [unsubscribe] once, the subscription staying as it is
    until the request is acknowledged.  If no unsubscribe request is awaited
    when such a header arrives and the acknowledgment comes before anything
    else is delivered on the subscription, the call is the last thing the
    watch does: whatever is delivered afterwards adds nothing to the trace.
    And in any run, once an unsubscribe request has been acknowledged, the
    subscription delivers nothing to the handlers and [unsubscribe] is never
    called again. *)
Theorem threshold_header_unsubscribes
    errors ctx em r th fmt w0 ins1 ins2 P d h b :
  start errors ctx em (Some r) th fmt = Some w0 ->
  subscription (run w0 ins1) = Active P ->
  number d = Some h ->
  h <> 0 ->
  blockNumber r = Some b ->
  transactionConfirmationBlocks ctx <= h - b + 1 ->
  step (run w0 ins1) (Data (Some d)) =
    mkWorld (Active P)
      (unsubscribing (run w0 ins1) ++ [AfterThreshold])
      []
      (trace (run w0 ins1)
       ++ [Emit em (mkEvent (format (h - b + 1) fmt) r (format (parentHash d) fmt));
           Unsubscribe])
  /\ (unsubscribing (run w0 ins1) = [] ->
      run w0 (ins1 ++ Data (Some d) :: UnsubscribeResolved 0 :: ins2) =
        mkWorld Unsubscribed [] []
          (trace (run w0 ins1)
           ++ [Emit em (mkEvent (format (h - b + 1) fmt) r
                                (format (parentHash d) fmt));
               Unsubscribe])
      /\ count_unsubscribe
           (trace (run w0 (ins1 ++ Data (Some d) :: UnsubscribeResolved 0 :: ins2)))
         = S (count_unsubscribe (trace (run w0 ins1))))
  /\ (forall ins ins' d',
        subscription (run w0 ins) = Unsubscribed ->
        subscription (run w0 (ins ++ ins')) = Unsubscribed
        /\ count_unsubscribe (trace (run w0 (ins ++ ins'))) =
           count_unsubscribe (trace (run w0 ins))
        /\ step (run w0 (ins ++ ins')) (Data d') = run w0 (ins ++ ins')
        /\ step (run w0 (ins ++ ins')) SubError = run w0 (ins ++ ins')).
Proof.
  intros Hstart Hact Hnum Hh Hb HT.
  pose proof (base_subscription _ _ (start_Base _ _ _ _ _ _ _ ins1 Hstart)) as Hs.
  rewrite Hact in Hs. destruct Hs as (-> & Hpoll).
  assert (Hstep : step (run w0 ins1) (Data (Some d)) =
    mkWorld (Active (mkProps ctx r em fmt))
      (unsubscribing (run w0 ins1) ++ [AfterThreshold])
      []
      (trace (run w0 ins1)
       ++ [Emit em (mkEvent (format (h - b + 1) fmt) r (format (parentHash d) fmt));
           Unsubscribe])).
  { unfold step. rewrite Hact. unfold on_data. simpl.
    rewrite Hnum. simpl. rewrite Hb. simpl.
    apply Z.eqb_neq in Hh. rewrite Hh. simpl.
    apply Z.leb_le in HT. rewrite HT.
    unfold perform, set_unsubscribing. simpl.
    rewrite ?Hpoll, <- ?app_assoc, ?Hact. reflexivity. }
  split; [exact Hstep|]. split.
  - intros Hu.
    assert (Hrun : run w0 (ins1 ++ Data (Some d) :: UnsubscribeResolved 0 :: ins2) =
      mkWorld Unsubscribed [] []
        (trace (run w0 ins1)
         ++ [Emit em (mkEvent (format (h - b + 1) fmt) r
                              (format (parentHash d) fmt));
             Unsubscribe])).
    { rewrite run_app, !run_cons, Hstep, Hu. simpl.
      apply run_finished; simpl; auto. }
    rewrite Hrun. split; [reflexivity|]. simpl.
    rewrite count_unsubscribe_app. simpl. lia.
  - intros ins ins' d' Hun. rewrite run_app.
    destruct (unsubscribed_stable ins' _ Hun) as [H1 H2].
    repeat split; auto; unfold step; rewrite H1; reflexivity.
Qed.

Lemma threshold_header_unsubscribes_witness :
  exists w0,
    start plain_errors (ctx_subscription 3) 7%nat (Some receipt100)
          "0xT"%string fmt0 = Some w0
    /\ step (run w0 [Immediate; SubscribeResolved])
            (Data (Some (block 102 "H2" "H1"))) =
       mkWorld (Active (mkProps (ctx_subscription 3) receipt100 7%nat fmt0))
         (unsubscribing (run w0 [Immediate; SubscribeResolved]) ++ [AfterThreshold])
         []
         (trace (run w0 [Immediate; SubscribeResolved])
          ++ [Emit 7%nat (mkEvent (format (102 - 100 + 1) fmt0) receipt100
                                  (format (parentHash (block 102 "H2" "H1")) fmt0));
              Unsubscribe]).
Proof.
  eexists. split; [reflexivity|].
  exact (proj1
    (threshold_header_unsubscribes plain_errors (ctx_subscription 3) 7%nat
       receipt100 "0xT"%string fmt0 _ [Immediate; SubscribeResolved]
       [Data (Some (block 103 "H3" "H2")); Tick 0; SubError] _
       (block 102 "H2" "H1") 102 100
       eq_refl eq_refl eq_refl ltac:(discriminate) eq_refl ltac:(discriminate))).
Defined.

(** A subscription that was established is never established again. *)
Lemma subscribed_stays ins : forall w,
  (exists p, subscription w = Active p) \/ subscription w = Unsubscribed ->
  (exists p, subscription (run w ins) = Active p)
  \/ subscription (run w ins) = Unsubscribed.
Proof.
  induction ins as [|i ins IH]; intros w Hs; [exact Hs|].
  rewrite run_cons. apply IH.
  destruct w as [s u ps t]. simpl in Hs.
  destruct i as [| | |d| |j|j|k|k j blk|k j]; simpl.
  - destruct Hs as [[p ->] | ->]; simpl; eauto.
  - destruct Hs as [[p ->] | ->]; simpl; eauto.
  - destruct Hs as [[p ->] | ->]; simpl; eauto.
  - destruct Hs as [[p ->] | ->]; simpl; eauto.
    unfold on_data. destruct d as [d|]; simpl; eauto.
    destruct (negb _); simpl; eauto.
    destruct (BigInt (number d)); simpl; eauto.
    destruct (BigInt (blockNumber _)); simpl; eauto.
    destruct (_ <=? _); simpl; eauto.
  - destruct Hs as [[p ->] | ->]; simpl; eauto.
  - destruct (nth_error u j) as [[|props]|]; simpl; auto.
  - destruct (nth_error u j); simpl; auto.
  - destruct (nth_error ps k) as [q|]; simpl; auto.
    destruct (interval_active q); simpl; auto.
    unfold interval_callback. destruct (BigInt _); simpl; exact Hs.
  - destruct (nth_error ps k) as [q|]; simpl; auto.
    destruct (nth_error (pending q) j); simpl; auto.
    destruct (after_getBlockByNumber _ _); simpl; exact Hs.
  - destruct (nth_error ps k) as [q|]; simpl; auto.
    destruct (nth_error (pending q) j); simpl; auto.
Qed.

(** [subscribe] is called once, by the deferred callback, or not at all. *)
Lemma subscribe_count errors ctx em r th fmt w0 ins :
  start errors ctx em (Some r) th fmt = Some w0 ->
  count is_Subscribe (trace (run w0 ins)) =
  match subscription (run w0 ins) with
  | NoSubscription | Scheduled _ => 0%nat
  | _ => 1%nat
  end.
Proof.
  intros Hstart. revert ins.
  apply (start_invariant
    (fun _ w => count is_Subscribe (trace w) =
                match subscription w with
                | NoSubscription | Scheduled _ => 0%nat
                | _ => 1%nat
                end) errors ctx em r th fmt w0 Hstart).
  - pose proof Hstart as H. apply start_returns in H.
    destruct H as (b & _ & _ & _ & ->).
    destruct (supportsSubscriptions ctx); reflexivity.
  - intros b ins w i Hb HB HQ.
    destruct i as [| | |d| |j|j|k|k j blk|k j]; simpl.
    + destruct HB as [Hs _ _]. destruct w as [s u ps t]. simpl in *.
      destruct s; auto. destruct Hs as (-> & -> & -> & ->).
      unfold immediate_callback. simpl.
      destruct (subscriptionManager ctx); reflexivity.
    + destruct w as [s u ps t]. simpl in *. destruct s; auto.
    + destruct w as [s u ps t]. simpl in *. destruct s; auto.
      simpl. rewrite count_app, HQ. reflexivity.
    + destruct w as [s u ps t]. simpl in *. destruct s; auto.
      unfold on_data. destruct d as [d|]; auto.
      destruct (negb (truthy_number (number d))); auto.
      destruct (BigInt (number d)); [simpl; rewrite count_app, HQ; reflexivity|].
      destruct (BigInt (blockNumber _));
        [simpl; rewrite count_app, HQ; reflexivity|].
      simpl. destruct (_ <=? _); simpl; rewrite !count_app, HQ; reflexivity.
    + destruct w as [s u ps t]. simpl in *. destruct s; auto.
      simpl. rewrite count_app, HQ. reflexivity.
    + destruct (nth_error (unsubscribing w) j) as [c|] eqn:Hc; [|exact HQ].
      destruct (Base_no_unsubscribing _ _ _ _ HB Hc) as [[p Hs] | Hs];
        rewrite Hs in HQ; destruct c; simpl; rewrite ?count_app, HQ; reflexivity.
    + destruct w as [s u ps t]. simpl in *.
      destruct (nth_error u j) as [c|] eqn:Hc; [|exact HQ].
      simpl. rewrite count_app, HQ. simpl. apply Nat.add_0_r.
    + destruct w as [s u ps t]. simpl in *.
      destruct (nth_error ps k) as [q|] eqn:Hq; [|exact HQ].
      destruct (interval_active q); [|exact HQ].
      unfold interval_callback.
      destruct (BigInt _); simpl; rewrite !count_app, HQ;
        destruct (_ <=? _); simpl; apply Nat.add_0_r.
    + destruct w as [s u ps t]. simpl in *.
      destruct (nth_error ps k) as [q|] eqn:Hq; [|exact HQ].
      destruct (nth_error (pending q) j); [|exact HQ].
      unfold after_getBlockByNumber. simpl.
      destruct blk as [blk|]; [destruct (truthy_string (hash blk))|]; simpl;
        rewrite count_app, HQ; simpl; apply Nat.add_0_r.
    + destruct w as [s u ps t]. simpl in *.
      destruct (nth_error ps k) as [q|] eqn:Hq; [|exact HQ].
      destruct (nth_error (pending q) j); [|exact HQ].
      simpl. rewrite count_app, HQ. simpl. apply Nat.add_0_r.
Qed.

(** C5, as stated, fails: the error handler awaits [unsubscribe] before it
    starts polling, so when that request is rejected the handler ends there:
    no [setInterval], no poller, nothing emitted by later ticks, and the
    rejection is left unhandled. *)
Lemma rejected_unsubscribe_prevents_fallback :
  option_map
    (fun w0 => run w0 [Immediate; SubscribeResolved; SubError;
                       UnsubscribeRejected 0; Tick 0; Tick 0])
    (start plain_errors (ctx_subscription 10) 7%nat (Some receipt100)
           "0xT"%string fmt0)
  = Some (mkWorld (Active (mkProps (ctx_subscription 10) receipt100 7%nat fmt0))
            [] []
            [SetImmediate; Subscribe; Unsubscribe; Uncaught RequestError]).
Proof. reflexivity. Qed.

(** C5 (amended): an error delivered on the active subscription makes the
    handler call [unsubscribe] and wait, with the argument object the entry
    point built.  When that request is acknowledged the handler calls
    [watchByPolling] with the same context, receipt, emitter and format: a
    new poller whose counter is 1 and one [setInterval].  When it is
    rejected, the handler ends with an unhandled rejection and starts no
    poller.  Either way the watch never subscribes again. *)
Theorem subscription_error_hands_over_to_polling
    errors ctx em r th fmt w0 ins1 P :
  start errors ctx em (Some r) th fmt = Some w0 ->
  subscription (run w0 ins1) = Active P ->
  P = mkProps ctx r em fmt
  /\ step (run w0 ins1) SubError =
       mkWorld (Active P) (unsubscribing (run w0 ins1) ++ [AfterError P]) []
               (trace (run w0 ins1) ++ [Unsubscribe])
  /\ (forall ins j,
        nth_error (unsubscribing (run w0 ins)) j = Some (AfterError P) ->
        step (run w0 ins) (UnsubscribeResolved j) =
          mkWorld Unsubscribed
            (remove_nth j (unsubscribing (run w0 ins)))
            (pollers (run w0 ins) ++ [mkPoller P 1 true []])
            (trace (run w0 ins)
             ++ [SetInterval
                   (nullish_coalesce (transactionReceiptPollingInterval ctx)
                                     (transactionPollingInterval ctx))])
        /\ step (run w0 ins) (UnsubscribeRejected j) =
          mkWorld (subscription (run w0 ins))
            (remove_nth j (unsubscribing (run w0 ins)))
            (pollers (run w0 ins))
            (trace (run w0 ins) ++ [Uncaught RequestError]))
  /\ (unsubscribing (run w0 ins1) = [] ->
      run w0 (ins1 ++ [SubError; UnsubscribeResolved 0]) =
        mkWorld Unsubscribed [] [mkPoller P 1 true []]
          (trace (run w0 ins1)
           ++ [Unsubscribe;
               SetInterval
                 (nullish_coalesce (transactionReceiptPollingInterval ctx)
                                   (transactionPollingInterval ctx))]))
  /\ (forall ins, count is_Subscribe (trace (run w0 (ins1 ++ ins))) = 1%nat).
Proof.
  intros Hstart Hact.
  pose proof (base_subscription _ _ (start_Base _ _ _ _ _ _ _ ins1 Hstart)) as Hs.
  rewrite Hact in Hs. destruct Hs as (-> & Hpoll).
  assert (Hstep : step (run w0 ins1) SubError =
       mkWorld (Active (mkProps ctx r em fmt))
               (unsubscribing (run w0 ins1) ++ [AfterError (mkProps ctx r em fmt)])
               [] (trace (run w0 ins1) ++ [Unsubscribe])).
  { unfold step. rewrite Hact. unfold on_error, perform, set_unsubscribing.
    simpl. rewrite Hpoll, Hact. reflexivity. }
  split; [reflexivity|]. split; [exact Hstep|]. split; [|split].
  - intros ins j Hj. unfold step. rewrite Hj. split; reflexivity.
  - intros Hu. rewrite run_app, !run_cons, Hstep, Hu. simpl.
    unfold watchByPolling, perform, set_pollers. simpl.
    rewrite <- app_assoc. reflexivity.
  - intros ins. rewrite (subscribe_count _ _ _ _ _ _ _ _ Hstart).
    rewrite run_app.
    destruct (subscribed_stays ins (run w0 ins1)) as [[p Hp] | Hp];
      [left; eauto | | ]; rewrite Hp; reflexivity.
Qed.

Lemma subscription_error_hands_over_to_polling_witness :
  exists w0,
    start plain_errors (ctx_subscription 10) 7%nat (Some receipt100)
          "0xT"%string fmt0 = Some w0
    /\ run w0 ([Immediate; SubscribeResolved] ++ [SubError; UnsubscribeResolved 0]) =
       mkWorld Unsubscribed []
         [mkPoller (mkProps (ctx_subscription 10) receipt100 7%nat fmt0) 1 true []]
         (trace (run w0 [Immediate; SubscribeResolved])
          ++ [Unsubscribe; SetInterval 1000]).
Proof.
  eexists. split; [reflexivity|].
  exact (proj1 (proj2 (proj2 (proj2
    (subscription_error_hands_over_to_polling plain_errors (ctx_subscription 10)
       7%nat receipt100 "0xT"%string fmt0 _ [Immediate; SubscribeResolved] _
       eq_refl eq_refl)))) eq_refl).
Defined.

(** C8: when the promise of the initial [subscribe] call rejects, the whole
    watch consists of [setImmediate], [subscribe] and a [SubscriptionError]
    raised in the promise chain: no poller is ever started and no
    confirmation event is ever emitted, whatever is delivered afterwards. *)
Theorem subscribe_rejection_is_fatal errors ctx em r th fmt w0 ins1 ins2 P :
  start errors ctx em (Some r) th fmt = Some w0 ->
  subscription (run w0 ins1) = Subscribing P ->
  run w0 (ins1 ++ SubscribeRejected :: ins2) =
    mkWorld Rejected [] []
      [SetImmediate; Subscribe; Uncaught (SubscriptionError r)]
  /\ emitted (trace (run w0 (ins1 ++ SubscribeRejected :: ins2))) = [].
Proof.
  intros Hstart Hsub.
  pose proof (base_subscription _ _ (start_Base _ _ _ _ _ _ _ ins1 Hstart)) as Hs.
  rewrite Hsub in Hs. destruct Hs as (-> & Hu & Hpoll & Htrace).
  assert (Hstep : step (run w0 ins1) SubscribeRejected =
    mkWorld Rejected [] []
      [SetImmediate; Subscribe; Uncaught (SubscriptionError r)]).
  { unfold step. rewrite Hsub. unfold subscribe_catch, perform, set_subscription.
    simpl. rewrite Hu, Hpoll, Htrace. reflexivity. }
  assert (Hrun : run w0 (ins1 ++ SubscribeRejected :: ins2) =
    mkWorld Rejected [] []
      [SetImmediate; Subscribe; Uncaught (SubscriptionError r)]).
  { rewrite run_app, run_cons, Hstep. apply run_finished; simpl; auto. }
  rewrite Hrun. split; reflexivity.
Qed.

Lemma subscribe_rejection_is_fatal_witness :
  exists w0,
    start plain_errors (ctx_subscription 10) 7%nat (Some receipt100)
          "0xT"%string fmt0 = Some w0
    /\ run w0 ([Tick 0; Immediate]
               ++ SubscribeRejected
                  :: [Data (Some (block 105 "H" "P")); SubError;
                      UnsubscribeResolved 0; Tick 0]) =
       mkWorld Rejected [] []
         [SetImmediate; Subscribe; Uncaught (SubscriptionError receipt100)].
Proof.
  eexists. split; [reflexivity|].
  exact (proj1
    (subscribe_rejection_is_fatal plain_errors (ctx_subscription 10) 7%nat
       receipt100 "0xT"%string fmt0 _ [Tick 0; Immediate]
       [Data (Some (block 105 "H" "P")); SubError; UnsubscribeResolved 0; Tick 0]
       _ eq_refl eq_refl)).
Defined.

(** ** Confirmation numbers over a whole watch *)

(** Every list that takes part in an interleaving is found in it, in order. *)
Lemma Merge_Subseq ls m :
  Merge ls m -> forall k l, nth_error ls k = Some l -> Subseq l m.
Proof.
  induction 1 as [ls HF | ls k0 l0 x m H IH Hk0]; intros k l Hk.
  - rewrite (Forall_nth_error _ _ _ _ HF Hk). constructor.
  - destruct (Nat.eq_dec k0 k) as [->|Hne].
    + rewrite (nth_error_update_nth _ _ _ _ Hk0) in Hk. inversion Hk; subst.
      apply Subseq_app; [apply IH with k; exact Hk0 | apply Subseq_refl].
    + rewrite nth_error_update_nth_other in Hk by exact Hne.
      apply Subseq_app_nil. apply IH with k. exact Hk.
Qed.

(** C6, as stated, fails: the subscription emits confirmation 6 for header
    105, then an error makes the observer fall back to polling, whose counter
    starts again at 1: the next event carries confirmation 2. *)
Lemma numbers_drop_after_fallback :
  run_from (ctx_subscription 10) receipt100
    [Immediate; SubscribeResolved; Data (Some (block 105 "H" "P")); SubError;
     UnsubscribeResolved 0; Tick 0;
     BlockReturned 0 0 (Some (block 101 "H1" "B"))] = [6; 2]
  /\ ~ nondecreasing
       (run_from (ctx_subscription 10) receipt100
          [Immediate; SubscribeResolved; Data (Some (block 105 "H" "P")); SubError;
           UnsubscribeResolved 0; Tick 0;
           BlockReturned 0 0 (Some (block 101 "H1" "B"))]).
Proof.
  split; [reflexivity|]. intros [H _]. apply H. reflexivity.
Qed.

(** C6 (amended): in every watch the emitted confirmation numbers are those of
    the subscription observer followed by those of the pollers.  The
    subscription's are [h - blockNumber + 1] for a subsequence of the
    delivered header heights, in delivery order, so they are non-decreasing
    whenever the delivered heights are.  Every poller's counter starts at 1
    and the numbers it has emitted are 2, 3, ..., counter: strictly
    increasing, the first being 2.  The pollers' part of the numbers is an
    interleaving of these sequences, one per poller (each run of the error
    handler that gets its unsubscribe acknowledged starts one), in which each
    of them keeps its order.  Without subscription support only a poller
    emits and there is exactly one, so the numbers are 2, 3, ..., counter. *)
Theorem numbers_monotone_per_observer errors ctx em r th fmt w0 ins :
  start errors ctx em (Some r) th fmt = Some w0 ->
  exists b hs m,
    blockNumber r = Some b
    /\ confirmation_numbers (trace (run w0 ins)) =
       map (fun h => h - b + 1) hs ++ m
    /\ Subseq hs (data_heights ins)
    /\ (nondecreasing (data_heights ins) ->
        nondecreasing (map (fun h => h - b + 1) hs))
    /\ Merge (map poller_numbers (pollers (run w0 ins))) m
    /\ (forall k q, nth_error (pollers (run w0 ins)) k = Some q ->
          1 <= counter q
          /\ poller_numbers q = Zseq 2 (Z.to_nat (counter q - 1))
          /\ increasing (poller_numbers q)
          /\ Subseq (poller_numbers q) m)
    /\ (supportsSubscriptions ctx = false ->
        hs = []
        /\ exists q, pollers (run w0 ins) = [q]
                     /\ m = Zseq 2 (Z.to_nat (counter q - 1)))
    /\ (forall q, In q (pollers w0) -> counter q = 1).
Proof.
  intros Hstart.
  destruct (numbers_shape _ _ _ _ _ _ _ ins Hstart)
    as (b & hs & m & Hb & Hn & Hh & Hm & H2 & Hearly).
  exists b, hs, m.
  split; [exact Hb|]. split; [exact Hn|]. split; [exact Hh|].
  split; [|split; [exact Hm|split; [|split]]].
  - intros Hnd. apply nondecreasing_map_shift.
    eapply Subseq_nondecreasing; eassumption.
  - intros k q Hq.
    pose proof (base_pollers _ _ (start_Base _ _ _ _ _ _ _ ins Hstart)) as HBp.
    destruct (Forall_nth_error _ _ _ _ HBp Hq) as [_ H1].
    split; [exact H1|]. split; [reflexivity|].
    split; [apply Zseq_increasing|].
    apply (Merge_Subseq _ _ Hm k). rewrite nth_error_map, Hq. reflexivity.
  - intros Hsup.
    destruct (polling_mode _ _ _ _ _ _ _ ins Hstart Hsup)
      as (Hs & _ & q & Hq & _ & _).
    rewrite Hs in Hearly. split; [exact Hearly|].
    exists q. split; [exact Hq|].
    rewrite Hq in Hm. simpl in Hm. apply Merge_single in Hm. exact Hm.
  - intros q Hq0. apply start_returns in Hstart.
    destruct Hstart as (_ & _ & _ & _ & ->).
    destruct (supportsSubscriptions ctx); simpl in Hq0;
      [contradiction | destruct Hq0 as [<-|[]]; reflexivity].
Qed.

Lemma numbers_monotone_per_observer_witness :
  exists w0 b hs m,
    start plain_errors (ctx_subscription 10) 7%nat (Some receipt100)
          "0xT"%string fmt0 = Some w0
    /\ blockNumber receipt100 = Some b
    /\ confirmation_numbers
         (trace (run w0 [Immediate; SubscribeResolved;
                         Data (Some (block 105 "H" "P")); SubError; SubError;
                         UnsubscribeResolved 0; UnsubscribeResolved 0;
                         Tick 0; Tick 1;
                         BlockReturned 0 0 (Some (block 101 "H1" "B"));
                         BlockReturned 1 0 (Some (block 101 "H1" "B"))])) =
       map (fun h => h - b + 1) hs ++ m.
Proof.
  eexists.
  destruct (numbers_monotone_per_observer plain_errors (ctx_subscription 10)
              7%nat receipt100 "0xT"%string fmt0 _
              [Immediate; SubscribeResolved;
               Data (Some (block 105 "H" "P")); SubError; SubError;
               UnsubscribeResolved 0; UnsubscribeResolved 0;
               Tick 0; Tick 1;
               BlockReturned 0 0 (Some (block 101 "H1" "B"));
               BlockReturned 1 0 (Some (block 101 "H1" "B"))] eq_refl)
    as (b & hs & m & Hb & Hn & _).
  exists b, hs, m. split; [reflexivity|]. split; [exact Hb | exact Hn].
Defined.

(** Two runs of the error handler start two pollers, each with its own
    counter: their numbers interleave. *)
Example two_pollers_interleave :
  run_from (ctx_subscription 10) receipt100
    [Immediate; SubscribeResolved; SubError; SubError;
     UnsubscribeResolved 0; UnsubscribeResolved 0;
     Tick 0; Tick 1; Tick 0; Tick 1;
     BlockReturned 0 0 (Some (block 101 "H1" "B"));
     BlockReturned 1 0 (Some (block 101 "H1" "B"));
     BlockReturned 0 0 (Some (block 102 "H2" "H1"));
     BlockReturned 1 0 (Some (block 102 "H2" "H1"))] = [2; 2; 3; 3].
Proof. reflexivity. Qed.

(** C7, as stated, fails: a header below the receipt's block (here 99 for a
    receipt in block 100) is handled like any other and an event with
    confirmation number 0 is emitted. *)
Lemma low_header_emits_nonpositive :
  run_from (ctx_subscription 10) receipt100
    [Immediate; SubscribeResolved; Data (Some (block 99 "H" "P"))] = [0]
  /\ ~ Forall (fun n => 1 <= n)
       (run_from (ctx_subscription 10) receipt100
          [Immediate; SubscribeResolved; Data (Some (block 99 "H" "P"))]).
Proof.
  split; [reflexivity|]. intros H. inversion H as [|x l Hx Hl]; subst.
  apply Hx. reflexivity.
Qed.

(** C7 (amended): in every state of a watch, the answer to a block request
    (the polling path) emits at most one event and its confirmation number is
    at least 2; a header handled by the subscription emits at most one event
    and its number is [h - blockNumber + 1] for the header's non-zero height
    [h]; nothing else emits.  So without subscription support every emitted
    number is at least 2, and with a subscription every emitted number is at
    least 1 provided every header delivered with a non-zero height is at or
    above the receipt's block. *)
Theorem numbers_positive errors ctx em r th fmt w0 ins b :
  start errors ctx em (Some r) th fmt = Some w0 ->
  blockNumber r = Some b ->
  (forall k j blk, exists new,
      confirmation_numbers (trace (step (run w0 ins) (BlockReturned k j blk))) =
      confirmation_numbers (trace (run w0 ins)) ++ new
      /\ (List.length new <= 1)%nat
      /\ Forall (fun n => 2 <= n) new)
  /\ (forall d, exists new,
      confirmation_numbers (trace (step (run w0 ins) (Data d))) =
      confirmation_numbers (trace (run w0 ins)) ++ new
      /\ (List.length new <= 1)%nat
      /\ Forall (fun n => exists blk h,
                   d = Some blk /\ number blk = Some h /\ h <> 0
                   /\ n = h - b + 1) new)
  /\ (forall i,
      match i with
      | Data _ | BlockReturned _ _ _ => True
      | _ => confirmation_numbers (trace (step (run w0 ins) i)) =
             confirmation_numbers (trace (run w0 ins))
      end)
  /\ (supportsSubscriptions ctx = false ->
      Forall (fun n => 2 <= n) (confirmation_numbers (trace (run w0 ins))))
  /\ (Forall (fun h => b <= h) (data_heights ins) ->
      Forall (fun n => 1 <= n) (confirmation_numbers (trace (run w0 ins)))).
Proof.
  intros Hstart Hb.
  destruct (numbers_shape _ _ _ _ _ _ _ ins Hstart)
    as (b' & hs & m & Hb' & Hn & Hh & Hm & H2 & Hearly).
  assert (b' = b) by congruence. subst b'.
  pose proof (start_Base _ _ _ _ _ _ _ ins Hstart) as HB.
  pose proof (base_subscription _ _ HB) as Hsub.
  pose proof (base_pollers _ _ HB) as Hpol.
  clear HB.
  split; [|split; [|split; [|split]]].
  - intros k j blk.
    destruct (run w0 ins) as [s u ps t].
    cbn [subscription unsubscribing pollers trace] in *.
    simpl.
    destruct (nth_error ps k) as [q|] eqn:Hq;
      [|exists []; rewrite app_nil_r; repeat split; auto].
    destruct (nth_error (pending q) j);
      [|exists []; rewrite app_nil_r; repeat split; auto].
    destruct (Forall_nth_error _ _ _ _ Hpol Hq) as [_ Hcnt].
    unfold after_getBlockByNumber. simpl.
    destruct blk as [blk|]; [destruct (truthy_string (hash blk))|]; simpl;
      rewrite confirmation_numbers_app; eexists; repeat split; simpl; auto.
    repeat constructor. lia.
  - intros d.
    destruct (run w0 ins) as [s u ps t].
    cbn [subscription unsubscribing pollers trace] in *.
    simpl.
    destruct s; try (exists []; rewrite app_nil_r; repeat split; auto; fail).
    destruct Hsub as (-> & _). unfold on_data.
    destruct d as [d|]; [|exists []; rewrite app_nil_r; repeat split; auto].
    destruct (number d) as [h|] eqn:Hnum; simpl;
      [|exists []; rewrite app_nil_r; repeat split; auto].
    destruct (h =? 0) eqn:Hz; simpl;
      [exists []; rewrite app_nil_r; repeat split; auto|].
    rewrite Hb. simpl. apply Z.eqb_neq in Hz.
    exists [h - b + 1]. split; [|split].
    + destruct (_ <=? _); simpl; rewrite ?confirmation_numbers_app; simpl;
        rewrite ?app_nil_r; reflexivity.
    + simpl. lia.
    + repeat constructor. exists d, h. auto.
  - intros i.
    destruct (run w0 ins) as [s u ps t].
    cbn [subscription unsubscribing pollers trace] in *.
    destruct i as [| | |d| |j|j|k|k j blk|k j]; simpl; auto.
    + destruct s; auto. unfold immediate_callback.
      destruct (subscriptionManager _); simpl;
        rewrite ?confirmation_numbers_app; simpl; rewrite ?app_nil_r; reflexivity.
    + destruct s; auto.
    + destruct s; auto. simpl.
      rewrite confirmation_numbers_app. simpl. apply app_nil_r.
    + destruct s; auto. simpl.
      rewrite !confirmation_numbers_app. simpl. rewrite !app_nil_r. reflexivity.
    + destruct (nth_error u j) as [[|props]|]; simpl; auto.
      rewrite confirmation_numbers_app. simpl. apply app_nil_r.
    + destruct (nth_error u j); simpl; auto.
      rewrite confirmation_numbers_app. simpl. apply app_nil_r.
    + destruct (nth_error ps k) as [q|]; auto.
      destruct (interval_active q); auto.
      unfold interval_callback.
      destruct (BigInt _); simpl; rewrite !confirmation_numbers_app;
        destruct (_ <=? _); simpl; rewrite ?app_nil_r; reflexivity.
    + destruct (nth_error ps k) as [q|]; auto.
      destruct (nth_error (pending q) j); auto.
      simpl. rewrite confirmation_numbers_app. simpl. apply app_nil_r.
  - intros Hpoll.
    destruct (polling_mode _ _ _ _ _ _ _ ins Hstart Hpoll) as (Hs & _).
    rewrite Hs in Hearly. rewrite Hn, Hearly. simpl. exact H2.
  - intros Hge. rewrite Hn. apply Forall_app. split.
    + apply Forall_map. eapply Forall_impl;
        [|eapply Subseq_Forall; [exact Hh | exact Hge]].
      simpl. intros; lia.
    + eapply Forall_impl; [|exact H2]. simpl. intros; lia.
Qed.

Lemma numbers_positive_witness :
  exists w0,
    start plain_errors (ctx_subscription 10) 7%nat (Some receipt100)
          "0xT"%string fmt0 = Some w0
    /\ Forall (fun n => 1 <= n)
         (confirmation_numbers
            (trace (run w0 [Immediate; SubscribeResolved;
                            Data (Some (block 105 "H" "P")); SubError;
                            UnsubscribeResolved 0; Tick 0;
                            BlockReturned 0 0 (Some (block 101 "H1" "B"))]))).
Proof.
  eexists. split; [reflexivity|].
  apply (proj2 (proj2 (proj2 (proj2
           (numbers_positive plain_errors (ctx_subscription 10) 7%nat receipt100
              "0xT"%string fmt0 _
              [Immediate; SubscribeResolved;
               Data (Some (block 105 "H" "P")); SubError;
               UnsubscribeResolved 0; Tick 0;
               BlockReturned 0 0 (Some (block 101 "H1" "B"))]
              100 eq_refl eq_refl))))).
  simpl. repeat constructor. discriminate.
Defined.

(** ** One block per tick *)

(** What the answer to a block request can do to a poller. *)
Lemma after_getBlockByNumber_bounds p nextBlock :
  let '(p', es) := after_getBlockByNumber p nextBlock in
  poller_props p' = poller_props p
  /\ interval_active p' = interval_active p
  /\ pending p' = pending p
  /\ counter p <= counter p' <= counter p + 1
  /\ (List.length (emitted es) <= 1)%nat
  /\ confirmation_numbers es = Zseq (counter p + 1) (List.length (emitted es))
  /\ counter p' = counter p + Z.of_nat (List.length (emitted es))
  /\ count_fetch es = 0%nat.
Proof.
  unfold after_getBlockByNumber.
  destruct nextBlock as [blk|]; [destruct (truthy_string (hash blk))|];
    simpl; repeat split; try lia.
  unfold Zseq. simpl. f_equal. lia.
Qed.

Lemma total_load_app qs q :
  total_load (qs ++ [q]) = (total_load qs + poller_load q)%nat.
Proof.
  unfold total_load. induction qs as [|a qs IH]; simpl; [lia|].
  rewrite IH. lia.
Qed.

Lemma total_load_update qs k q q' :
  nth_error qs k = Some q ->
  (total_load (update_nth k q' qs) + poller_load q =
   total_load qs + poller_load q')%nat.
Proof.
  unfold total_load. revert k.
  induction qs as [|a qs IH]; intros [|k] H; simpl in *; try discriminate.
  - inversion H; subst. lia.
  - specialize (IH k H). lia.
Qed.

Lemma total_load_nth qs k q :
  nth_error qs k = Some q -> (poller_load q <= total_load qs)%nat.
Proof.
  unfold total_load. revert k.
  induction qs as [|a qs IH]; intros [|k] H; simpl in *; try discriminate.
  - inversion H; subst. lia.
  - specialize (IH k H). lia.
Qed.

(** The events the pollers have emitted, plus the block requests still
    unanswered, are at most the block requests made, which are at most the
    ticks delivered. *)
Lemma fetch_counts errors ctx em r th fmt w0 ins :
  start errors ctx em (Some r) th fmt = Some w0 ->
  (total_load (pollers (run w0 ins)) <= count_fetch (trace (run w0 ins)))%nat
  /\ (count_fetch (trace (run w0 ins)) <= count_ticks ins)%nat.
Proof.
  intros Hstart. revert ins.
  apply (start_invariant
    (fun ins w => (total_load (pollers w) <= count_fetch (trace w))%nat
                  /\ (count_fetch (trace w) <= count_ticks ins)%nat)
    errors ctx em r th fmt w0 Hstart).
  - pose proof Hstart as H. apply start_returns in H.
    destruct H as (b & _ & _ & _ & ->).
    destruct (supportsSubscriptions ctx); simpl; unfold poller_load; simpl; lia.
  - intros b ins w i Hb HB [H1 H2].
    rewrite count_ticks_app.
    pose proof (base_pollers _ _ HB) as HBp.
    destruct w as [s u ps t].
    cbn [subscription unsubscribing pollers trace] in *.
    destruct i as [| | |d| |j|j|k|k j blk|k j]; simpl.
    + destruct s; simpl; try lia. unfold immediate_callback.
      destruct (subscriptionManager _); simpl; rewrite ?count_fetch_app; simpl; lia.
    + destruct s; simpl; lia.
    + destruct s; simpl; rewrite ?count_fetch_app; simpl; lia.
    + destruct s; simpl; try lia. unfold on_data.
      destruct d as [d|]; simpl; try lia.
      destruct (negb _); simpl; try lia.
      destruct (BigInt (number d)); simpl; rewrite ?count_fetch_app; simpl; try lia.
      destruct (BigInt (blockNumber _)); simpl; rewrite ?count_fetch_app;
        simpl; try lia.
      destruct (_ <=? _); simpl; rewrite ?count_fetch_app; simpl; lia.
    + destruct s; simpl; rewrite ?count_fetch_app; simpl; lia.
    + destruct (nth_error u j) as [[|props]|]; simpl; try lia.
      rewrite total_load_app, count_fetch_app. unfold poller_load. simpl. lia.
    + destruct (nth_error u j); simpl; rewrite ?count_fetch_app; simpl; lia.
    + destruct (nth_error ps k) as [q|] eqn:Hq; simpl; [|lia].
      destruct (interval_active q); simpl; [|lia].
      destruct (Forall_nth_error _ _ _ _ HBp Hq) as [HP Hc].
      unfold interval_callback. rewrite HP. simpl. rewrite Hb. simpl.
      rewrite !count_fetch_app. simpl.
      pose proof (total_load_update ps k q
        (mkPoller (mkProps ctx r em fmt) (counter q)
           (if transactionConfirmationBlocks ctx <=? counter q
            then false else interval_active q)
           (pending q ++ [b + counter q])) Hq) as Hl.
      unfold poller_load in Hl. simpl in Hl. rewrite length_app in Hl.
      simpl in Hl.
      destruct (_ <=? _); simpl; lia.
    + destruct (nth_error ps k) as [q|] eqn:Hq; simpl; [|lia].
      destruct (nth_error (pending q) j) as [h|] eqn:Hj; simpl; [|lia].
      destruct (Forall_nth_error _ _ _ _ HBp Hq) as [HP Hc].
      pose proof (after_getBlockByNumber_bounds
        (mkPoller (poller_props q) (counter q) (interval_active q)
                  (remove_nth j (pending q))) blk) as Hbd.
      destruct (after_getBlockByNumber _ blk) as [q' es].
      simpl in Hbd. destruct Hbd as (_ & _ & Hpe & Hcq & Hle & _ & Hcn & Hf).
      simpl. rewrite count_fetch_app, Hf.
      pose proof (total_load_update ps k q q' Hq) as Hl.
      pose proof (remove_nth_length _ _ _ Hj) as Hr.
      unfold poller_load in Hl. rewrite Hpe in Hl. lia.
    + destruct (nth_error ps k) as [q|] eqn:Hq; simpl; [|lia].
      destruct (nth_error (pending q) j) as [h|] eqn:Hj; simpl; [|lia].
      rewrite count_fetch_app. simpl.
      pose proof (total_load_update ps k q
        (mkPoller (poller_props q) (counter q) (interval_active q)
                  (remove_nth j (pending q))) Hq) as Hl.
      pose proof (remove_nth_length _ _ _ Hj) as Hr.
      unfold poller_load in Hl. simpl in Hl. lia.
Qed.

(** What one step can do to a poller that is already there. *)
Lemma step_poller w i k p :
  subscription w = NoSubscription \/ subscription w = Unsubscribed ->
  nth_error (pollers w) k = Some p ->
  exists p',
    nth_error (pollers (step w i)) k = Some p'
    /\ poller_props p' = poller_props p
    /\ counter p <= counter p' <= counter p + 1
    /\ (interval_active p = false -> interval_active p' = false)
    /\ (List.length (emitted (trace (step w i)))
        <= S (List.length (emitted (trace w))))%nat.
Proof.
  intros Hs Hp.
  assert (Hnop : exists p',
    nth_error (pollers w) k = Some p'
    /\ poller_props p' = poller_props p
    /\ counter p <= counter p' <= counter p + 1
    /\ (interval_active p = false -> interval_active p' = false)
    /\ (List.length (emitted (trace w)) <= S (List.length (emitted (trace w))))%nat)
    by (exists p; repeat split; auto; lia).
  destruct w as [s u ps t].
  cbn [subscription unsubscribing pollers trace] in *.
  destruct i as [| | |d| |j|j|k'|k' j blk|k' j]; simpl;
    try (destruct Hs as [-> | ->]; exact Hnop).
  - destruct (nth_error u j) as [[|props]|]; simpl; try exact Hnop.
    exists p. rewrite nth_error_app1 by (apply nth_error_Some; congruence).
    rewrite emitted_app. simpl. rewrite app_nil_r.
    repeat split; auto; lia.
  - destruct (nth_error u j); simpl; try exact Hnop.
    exists p. rewrite emitted_app. simpl. rewrite app_nil_r.
    repeat split; auto; lia.
  - destruct (nth_error ps k') as [q|] eqn:Hq; [|exact Hnop].
    destruct (interval_active q) eqn:Hact; [|exact Hnop].
    assert (He : emitted (snd (interval_callback q)) = []).
    { unfold interval_callback.
      destruct (BigInt _); simpl; destruct (_ <=? _); reflexivity. }
    destruct (interval_callback q) as [q' es] eqn:Hcb. simpl in He. simpl.
    rewrite emitted_app, He, app_nil_r.
    destruct (Nat.eq_dec k' k) as [->|Hne].
    + rewrite (nth_error_update_nth _ _ _ _ Hq).
      rewrite Hp in Hq. inversion Hq; subst q. exists q'.
      unfold interval_callback in Hcb.
      destruct (BigInt _); inversion Hcb; subst; simpl;
        repeat split; auto; try lia; congruence.
    + rewrite nth_error_update_nth_other by exact Hne.
      exists p. repeat split; auto; lia.
  - destruct (nth_error ps k') as [q|] eqn:Hq; [|exact Hnop].
    destruct (nth_error (pending q) j); [|exact Hnop].
    pose proof (after_getBlockByNumber_bounds
      (mkPoller (poller_props q) (counter q) (interval_active q)
                (remove_nth j (pending q))) blk) as Hbd.
    destruct (after_getBlockByNumber _ blk) as [q' es].
    simpl in Hbd. destruct Hbd as (HP & Ha & _ & Hc & Hle & _).
    simpl. rewrite emitted_app, length_app.
    destruct (Nat.eq_dec k' k) as [->|Hne].
    + rewrite (nth_error_update_nth _ _ _ _ Hq).
      rewrite Hp in Hq. inversion Hq; subst q. exists q'.
      repeat split; auto; try lia. congruence.
    + rewrite nth_error_update_nth_other by exact Hne.
      exists p. repeat split; auto; lia.
  - destruct (nth_error ps k') as [q|] eqn:Hq; [|exact Hnop].
    destruct (nth_error (pending q) j); [|exact Hnop].
    simpl. rewrite emitted_app. simpl. rewrite app_nil_r.
    destruct (Nat.eq_dec k' k) as [->|Hne].
    + rewrite (nth_error_update_nth _ _ _ _ Hq).
      rewrite Hp in Hq. inversion Hq; subst q. eexists. split; [reflexivity|].
      simpl. repeat split; auto; lia.
    + rewrite nth_error_update_nth_other by exact Hne.
      exists p. repeat split; auto; lia.
Qed.

(** A poller's counter plus its unanswered requests grows only when one of
    its ticks fires, and then by one. *)
Lemma step_potential w i k p :
  nth_error (pollers w) k = Some p ->
  exists p',
    nth_error (pollers (step w i)) k = Some p'
    /\ counter p' + Z.of_nat (List.length (pending p'))
       <= counter p + Z.of_nat (List.length (pending p))
          + Z.of_nat (count_ticks [i]).
Proof.
  intros Hp.
  assert (Hnop : exists p',
    nth_error (pollers w) k = Some p'
    /\ counter p' + Z.of_nat (List.length (pending p'))
       <= counter p + Z.of_nat (List.length (pending p))
          + Z.of_nat (count_ticks [i]))
    by (exists p; split; [exact Hp | lia]).
  destruct w as [s u ps t].
  cbn [subscription unsubscribing pollers trace] in *.
  destruct i as [| | |d| |j|j|k'|k' j blk|k' j]; simpl.
  - destruct s; try exact Hnop. unfold immediate_callback.
    destruct (subscriptionManager _); exact Hnop.
  - destruct s; exact Hnop.
  - destruct s; exact Hnop.
  - destruct s; try exact Hnop. unfold on_data.
    destruct d as [d|]; try exact Hnop.
    destruct (negb _); try exact Hnop.
    destruct (BigInt (number d)); try exact Hnop.
    destruct (BigInt (blockNumber _)); try exact Hnop.
    simpl. destruct (_ <=? _); exact Hnop.
  - destruct s; exact Hnop.
  - destruct (nth_error u j) as [[|props]|]; simpl; try exact Hnop.
    exists p. rewrite nth_error_app1 by (apply nth_error_Some; congruence).
    split; [exact Hp | lia].
  - destruct (nth_error u j); exact Hnop.
  - destruct (nth_error ps k') as [q|] eqn:Hq; [|exact Hnop].
    destruct (interval_active q) eqn:Hact; [|exact Hnop].
    destruct (interval_callback q) as [q' es] eqn:Hcb. simpl.
    destruct (Nat.eq_dec k' k) as [->|Hne].
    + rewrite (nth_error_update_nth _ _ _ _ Hq).
      rewrite Hp in Hq. inversion Hq; subst q. exists q'.
      split; [reflexivity|].
      unfold interval_callback in Hcb.
      destruct (BigInt _); inversion Hcb; subst; simpl;
        rewrite ?length_app; simpl; lia.
    + rewrite nth_error_update_nth_other by exact Hne.
      exists p. split; [exact Hp | lia].
  - destruct (nth_error ps k') as [q|] eqn:Hq; [|exact Hnop].
    destruct (nth_error (pending q) j) as [h|] eqn:Hj; [|exact Hnop].
    pose proof (after_getBlockByNumber_bounds
      (mkPoller (poller_props q) (counter q) (interval_active q)
                (remove_nth j (pending q))) blk) as Hbd.
    destruct (after_getBlockByNumber _ blk) as [q' es].
    simpl in Hbd. destruct Hbd as (_ & _ & Hpe & Hc & _).
    simpl.
    destruct (Nat.eq_dec k' k) as [->|Hne].
    + rewrite (nth_error_update_nth _ _ _ _ Hq).
      rewrite Hp in Hq. inversion Hq; subst q. exists q'.
      split; [reflexivity|]. rewrite Hpe.
      pose proof (remove_nth_length _ _ _ Hj). lia.
    + rewrite nth_error_update_nth_other by exact Hne.
      exists p. split; [exact Hp | lia].
  - destruct (nth_error ps k') as [q|] eqn:Hq; [|exact Hnop].
    destruct (nth_error (pending q) j) as [h|] eqn:Hj; [|exact Hnop].
    simpl.
    destruct (Nat.eq_dec k' k) as [->|Hne].
    + rewrite (nth_error_update_nth _ _ _ _ Hq).
      rewrite Hp in Hq. inversion Hq; subst q. eexists.
      split; [reflexivity|]. simpl.
      pose proof (remove_nth_length _ _ _ Hj). lia.
    + rewrite nth_error_update_nth_other by exact Hne.
      exists p. split; [exact Hp | lia].
Qed.

Lemma poller_potential ins : forall w k p,
  nth_error (pollers w) k = Some p ->
  exists p',
    nth_error (pollers (run w ins)) k = Some p'
    /\ counter p' + Z.of_nat (List.length (pending p'))
       <= counter p + Z.of_nat (List.length (pending p))
          + Z.of_nat (count_ticks ins).
Proof.
  induction ins as [|i ins IH]; intros w k p Hp.
  - exists p. split; [exact Hp | simpl; lia].
  - rewrite run_cons.
    destruct (step_potential w i k p Hp) as (p1 & Hp1 & H1).
    destruct (IH _ _ _ Hp1) as (p2 & Hp2 & H2).
    exists p2. split; [exact Hp2|].
    change (i :: ins) with ([i] ++ ins). rewrite count_ticks_app. lia.
Qed.

(** C9, as stated, fails in its second half: the counter is tied to the
    answers, not to the ticks.  Three ticks fire while no answer has come
    (the counter stays at 1 and the same block, 101, is asked for three
    times); then the three answers arrive with no tick in between and the
    counter goes from 1 to 4, with the events 2, 3 and 4. *)
Lemma answers_between_ticks_advance_counter :
  option_map
    (fun w0 =>
       let w := run w0 [Tick 0; Tick 0; Tick 0] in
       let answers := [BlockReturned 0 0 (Some (block 101 "H1" "B"));
                       BlockReturned 0 0 (Some (block 101 "H1" "B"));
                       BlockReturned 0 0 (Some (block 101 "H1" "B"))] in
       (map counter (pollers w), fetch_heights (trace w),
        count_ticks answers,
        map counter (pollers (run w answers)),
        confirmation_numbers (trace (run w answers))))
    (start plain_errors (ctx_polling 10) 0%nat (Some receipt100)
           "0xT"%string fmt0)
  = Some ([1], [101; 101; 101], 0%nat, [4], [2; 3; 4]).
Proof. reflexivity. Qed.

(** C9 (amended): in every state of a watch, for each of its pollers, a tick
    that fires asks for exactly one block, the one at height blockNumber +
    counter, and leaves the counter and the emitted events as they are; a
    tick on a cleared interval does nothing; no single callback raises the
    counter by more than 1 or emits more than one event; and over the whole
    run the events emitted by the pollers (counter - 1 for each) plus the
    requests still unanswered are at most the block requests made, which are
    at most the ticks delivered.  The counter moves when an answer arrives,
    not when a tick fires, so nothing bounds its advance between two ticks
    but the number of requests still unanswered. *)
Theorem polling_one_block_per_tick errors ctx em r th fmt w0 ins k p :
  start errors ctx em (Some r) th fmt = Some w0 ->
  nth_error (pollers (run w0 ins)) k = Some p ->
  exists b,
    blockNumber r = Some b
    /\ (interval_active p = true ->
        exists p',
          nth_error (pollers (step (run w0 ins) (Tick k))) k = Some p'
          /\ counter p' = counter p
          /\ pending p' = pending p ++ [b + counter p]
          /\ trace (step (run w0 ins) (Tick k)) =
             trace (run w0 ins)
             ++ (if transactionConfirmationBlocks ctx <=? counter p
                 then [ClearInterval] else [])
             ++ [GetBlockByNumber (b + counter p)])
    /\ (interval_active p = false -> step (run w0 ins) (Tick k) = run w0 ins)
    /\ (forall i, exists p',
          nth_error (pollers (step (run w0 ins) i)) k = Some p'
          /\ counter p <= counter p' <= counter p + 1
          /\ (List.length (emitted (trace (step (run w0 ins) i)))
              <= S (List.length (emitted (trace (run w0 ins)))))%nat)
    /\ (forall ins' p',
          nth_error (pollers (run w0 (ins ++ ins'))) k = Some p' ->
          counter p' <= counter p + Z.of_nat (List.length (pending p))
                        + Z.of_nat (count_ticks ins'))
    /\ (Z.to_nat (counter p - 1) + List.length (pending p)
        <= total_load (pollers (run w0 ins)))%nat
    /\ (total_load (pollers (run w0 ins))
        <= count_fetch (trace (run w0 ins)))%nat
    /\ (count_fetch (trace (run w0 ins)) <= count_ticks ins)%nat.
Proof.
  intros Hstart Hp.
  pose proof Hstart as H0. apply start_returns in H0.
  destruct H0 as (b & Hb & _). exists b. split; [exact Hb|].
  pose proof (start_Base _ _ _ _ _ _ _ ins Hstart) as HB.
  pose proof (Base_no_pollers _ _ _ _ HB Hp) as Hs0.
  destruct (Forall_nth_error _ _ _ _ (base_pollers _ _ HB) Hp) as [HP Hcnt].
  destruct (fetch_counts _ _ _ _ _ _ _ ins Hstart) as [Hload Hticks].
  assert (Hcb : interval_callback p =
    (mkPoller (poller_props p) (counter p)
       (if transactionConfirmationBlocks ctx <=? counter p
        then false else interval_active p)
       (pending p ++ [b + counter p]),
     (if transactionConfirmationBlocks ctx <=? counter p
      then [ClearInterval] else []) ++ [GetBlockByNumber (b + counter p)])).
  { unfold interval_callback. rewrite HP. simpl. rewrite Hb. reflexivity. }
  split; [|split; [|split; [|split; [|split; [|split]]]]].
  - intros Hact. unfold step. rewrite Hp, Hact, Hcb.
    eexists. split; [apply (nth_error_update_nth _ _ _ _ Hp)|].
    simpl. repeat split.
  - intros Hact. unfold step. rewrite Hp, Hact. reflexivity.
  - intros i.
    destruct (step_poller _ i _ _ Hs0 Hp) as (p' & Hp' & _ & Hc & _ & He).
    exists p'. repeat split; auto; lia.
  - intros ins' p' Hp'. rewrite run_app in Hp'.
    destruct (poller_potential ins' _ _ _ Hp) as (p2 & Hp2 & H2).
    rewrite Hp' in Hp2. inversion Hp2; subst p2. lia.
  - apply (total_load_nth _ _ _ Hp).
  - exact Hload.
  - exact Hticks.
Qed.

Lemma polling_one_block_per_tick_witness :
  exists w0 b,
    start plain_errors (ctx_polling 3) 0%nat (Some receipt100)
          "0xT"%string fmt0 = Some w0
    /\ blockNumber receipt100 = Some b
    /\ (count_fetch
          (trace (run w0 [Tick 0; Tick 0;
                          BlockReturned 0 0 (Some (block 101 "H1" "B"))]))
        <= count_ticks [Tick 0; Tick 0;
                        BlockReturned 0 0 (Some (block 101 "H1" "B"))])%nat.
Proof.
  eexists.
  destruct (polling_one_block_per_tick plain_errors (ctx_polling 3) 0%nat
              receipt100 "0xT"%string fmt0 _
              [Tick 0; Tick 0; BlockReturned 0 0 (Some (block 101 "H1" "B"))]
              0%nat _ eq_refl eq_refl)
    as (b & Hb & _ & _ & _ & _ & _ & _ & Hticks).
  exists b. split; [reflexivity|]. split; [exact Hb | exact Hticks].
Defined.

(** * Further properties of the code *)

(** ** The entry point, completely *)


(** ** Which observer runs *)

(** X2: a provider that supports subscriptions in a context without a
    subscription manager: the deferred callback finds nothing to subscribe
    with, and the watch is silent for ever: [setImmediate] is the only call
    it ever makes, no poller is started as a fallback, nothing is emitted and
    nothing is raised. *)
Theorem no_subscription_manager_is_silent errors ctx em r th fmt w0 ins :
  start errors ctx em (Some r) th fmt = Some w0 ->
  supportsSubscriptions ctx = true ->
  subscriptionManager ctx = false ->
  trace (run w0 ins) = [SetImmediate]
  /\ pollers (run w0 ins) = []
  /\ (In Immediate ins -> subscription (run w0 ins) = NoSubscription).
Proof.
  intros Hstart Hsup Hman.
  apply start_returns in Hstart. destruct Hstart as (b & _ & _ & _ & ->).
  rewrite Hsup. unfold watchBySubscription, perform, set_subscription. simpl.
  set (P := mkProps ctx r em fmt).
  assert (H : forall ins w,
    trace w = [SetImmediate] -> pollers w = [] -> unsubscribing w = [] ->
    (subscription w = Scheduled P \/ subscription w = NoSubscription) ->
    trace (run w ins) = [SetImmediate] /\ pollers (run w ins) = []
    /\ ((In Immediate ins \/ subscription w = NoSubscription) ->
        subscription (run w ins) = NoSubscription)).
  { clear ins. induction ins as [|i ins IH]; intros w Ht Hp Hu Hs.
    - simpl. repeat split; auto. intros [[]|H]; exact H.
    - rewrite run_cons.
      destruct w as [s u ps t]. simpl in *. subst u ps t.
      destruct Hs as [-> | ->].
      + destruct i as [| | |d| |j|j|k|k j blk|k j]; simpl;
          rewrite ?nth_error_nil;
          try (destruct (IH (mkWorld (Scheduled P) [] [] [SetImmediate]))
                 as (H1 & H2 & H3); auto;
               repeat split; auto;
               intros [[Hi|Hi]|Hi]; try discriminate; apply H3; auto; fail).
        unfold immediate_callback. simpl. rewrite Hman.
        destruct (IH (mkWorld NoSubscription [] [] [SetImmediate]))
          as (H1 & H2 & H3); auto.
      + rewrite (step_finished (mkWorld NoSubscription [] [] [SetImmediate]) i)
          by (simpl; auto).
        destruct (IH (mkWorld NoSubscription [] [] [SetImmediate]))
          as (H1 & H2 & H3); auto. }
  destruct (H ins (mkWorld (Scheduled P) [] [] [SetImmediate]))
    as (H1 & H2 & H3); auto.
Qed.

Lemma no_subscription_manager_is_silent_witness :
  exists w0,
    start plain_errors (mkContext 3 1000 None true false) 0%nat (Some receipt100)
      "0xT"%string fmt0 = Some w0
    /\ trace (run w0 [Tick 0; Immediate; SubscribeResolved;
                      Data (Some (block 105 "H" "P")); SubError;
                      UnsubscribeResolved 0; Tick 0])
       = [SetImmediate].
Proof.
  eexists. split; [reflexivity|].
  exact (proj1
    (no_subscription_manager_is_silent plain_errors
       (mkContext 3 1000 None true false) 0%nat
       receipt100 "0xT"%string fmt0 _
       [Tick 0; Immediate; SubscribeResolved;
        Data (Some (block 105 "H" "P")); SubError; UnsubscribeResolved 0; Tick 0]
       eq_refl eq_refl eq_refl)).
Defined.

(** In a world without subscription, only the inputs of the pollers count. *)
Lemma polling_filter ins : forall w,
  subscription w = NoSubscription -> unsubscribing w = [] ->
  run w ins = run w (filter polling_input ins).
Proof.
  induction ins as [|i ins IH]; intros w Hs Hu; [reflexivity|].
  rewrite run_cons.
  destruct w as [s u ps t]. simpl in Hs, Hu. subst s u.
  assert (Hkeep : forall ps' t',
    run (mkWorld NoSubscription [] ps' t') ins =
    run (mkWorld NoSubscription [] ps' t') (filter polling_input ins))
    by (intros; apply IH; reflexivity).
  destruct i as [| | |d| |j|j|k|k j blk|k j]; simpl filter; simpl step;
    rewrite ?nth_error_nil; try apply Hkeep; rewrite run_cons; simpl step.
  - destruct (nth_error ps k) as [q|]; [|apply Hkeep].
    destruct (interval_active q); [|apply Hkeep].
    destruct (interval_callback q). apply Hkeep.
  - destruct (nth_error ps k) as [q|]; [|apply Hkeep].
    destruct (nth_error (pending q) j); [|apply Hkeep].
    destruct (after_getBlockByNumber _ blk). apply Hkeep.
  - destruct (nth_error ps k) as [q|]; [|apply Hkeep].
    destruct (nth_error (pending q) j); apply Hkeep.
Qed.

(** X3: without subscription support the watch is one poller alone.  Only
    ticks and settled block requests matter: dropping every other input from
    a run leads to the same world.  There is never a subscription, never an
    unsubscribe request, and never a second poller.  And the trace is
    [setInterval] followed by nothing but the poller's own clearInterval,
    block requests and events, and the unhandled rejection of a block
    request that was rejected: no subscribe, no unsubscribe, no other
    error. *)
Theorem polling_mode_is_polling_only errors ctx em r th fmt w0 ins :
  start errors ctx em (Some r) th fmt = Some w0 ->
  supportsSubscriptions ctx = false ->
  run w0 ins = run w0 (filter polling_input ins)
  /\ subscription (run w0 ins) = NoSubscription
  /\ unsubscribing (run w0 ins) = []
  /\ (exists q, pollers (run w0 ins) = [q]
                /\ poller_props q = mkProps ctx r em fmt)
  /\ exists es,
       trace (run w0 ins) =
         SetInterval (nullish_coalesce (transactionReceiptPollingInterval ctx)
                                       (transactionPollingInterval ctx)) :: es
       /\ Forall (polling_effect (mkProps ctx r em fmt)) es.
Proof.
  intros Hstart Hsup.
  destruct (polling_mode _ _ _ _ _ _ _ ins Hstart Hsup)
    as (Hs & Hu & q & Hq & HP & _).
  split; [|split; [exact Hs|split; [exact Hu|split; [exists q; auto|]]]].
  - pose proof Hstart as H. apply start_returns in H.
    destruct H as (b & _ & _ & _ & ->). rewrite Hsup.
    apply polling_filter; reflexivity.
  - clear q Hq HP Hs Hu.
    induction ins as [|i ins IH] using rev_ind.
    + pose proof Hstart as H. apply start_returns in H.
      destruct H as (b & _ & _ & _ & ->). rewrite Hsup.
      eexists. split; [reflexivity | constructor].
    + rewrite run_snoc.
      destruct IH as (es & Ht & HF).
      destruct (polling_mode _ _ _ _ _ _ _ ins Hstart Hsup)
        as (Hs & Hu & q & Hq & HP & _).
      pose proof Hstart as H. apply start_returns in H.
      destruct H as (b & Hb & _).
      destruct (run w0 ins) as [s u ps t].
      cbn [subscription unsubscribing pollers trace] in *. subst s u ps t.
      assert (Hadd : forall es',
        Forall (polling_effect (mkProps ctx r em fmt)) es' ->
        exists es0,
          (SetInterval (nullish_coalesce (transactionReceiptPollingInterval ctx)
                                         (transactionPollingInterval ctx)) :: es)
          ++ es' =
          SetInterval (nullish_coalesce (transactionReceiptPollingInterval ctx)
                                        (transactionPollingInterval ctx)) :: es0
          /\ Forall (polling_effect (mkProps ctx r em fmt)) es0).
      { intros es' Hes'. exists (es ++ es'). split; [reflexivity|].
        apply Forall_app. split; assumption. }
      assert (Hnop : exists es0,
          SetInterval (nullish_coalesce (transactionReceiptPollingInterval ctx)
                                        (transactionPollingInterval ctx)) :: es =
          SetInterval (nullish_coalesce (transactionReceiptPollingInterval ctx)
                                        (transactionPollingInterval ctx)) :: es0
          /\ Forall (polling_effect (mkProps ctx r em fmt)) es0)
        by (exists es; auto).
      destruct i as [| | |d| |j|j|k|k j blk|k j]; simpl step;
        rewrite ?nth_error_nil; try exact Hnop.
      * destruct k as [|k]; simpl; rewrite ?nth_error_nil; try exact Hnop.
        destruct (interval_active q); [|exact Hnop].
        unfold interval_callback. rewrite HP. simpl. rewrite Hb. simpl.
        apply Hadd. destruct (_ <=? _); repeat constructor.
      * destruct k as [|k]; simpl; rewrite ?nth_error_nil; try exact Hnop.
        destruct (nth_error (pending q) j); [|exact Hnop].
        unfold after_getBlockByNumber. simpl. rewrite HP.
        destruct blk as [blk|]; [destruct (truthy_string (hash blk))|]; simpl;
          apply Hadd; repeat constructor.
      * destruct k as [|k]; simpl; rewrite ?nth_error_nil; try exact Hnop.
        destruct (nth_error (pending q) j); [|exact Hnop].
        simpl. apply Hadd. repeat constructor.
Qed.

Lemma polling_mode_is_polling_only_witness :
  exists w0,
    start plain_errors (ctx_polling 3) 0%nat (Some receipt100)
          "0xT"%string fmt0 = Some w0
    /\ run w0 [Immediate; Tick 0; SubError; Data (Some (block 105 "H" "P"));
               UnsubscribeResolved 0; BlockRejected 0 0; Tick 0;
               BlockReturned 0 0 (Some (block 101 "H1" "B"))]
       = run w0 (filter polling_input
                   [Immediate; Tick 0; SubError; Data (Some (block 105 "H" "P"));
                    UnsubscribeResolved 0; BlockRejected 0 0; Tick 0;
                    BlockReturned 0 0 (Some (block 101 "H1" "B"))]).
Proof.
  eexists. split; [reflexivity|].
  exact (proj1
    (polling_mode_is_polling_only plain_errors (ctx_polling 3) 0%nat receipt100
       "0xT"%string fmt0 _
       [Immediate; Tick 0; SubError; Data (Some (block 105 "H" "P"));
        UnsubscribeResolved 0; BlockRejected 0 0; Tick 0;
        BlockReturned 0 0 (Some (block 101 "H1" "B"))]
       eq_refl eq_refl)).
Defined.

(** X4: with subscription support, polling starts only through the error
    handler.  In a run in which no subscription error is delivered there is
    never a poller and the trace holds no [setInterval], [clearInterval] or
    block request, whatever else happens (rejected subscribe, threshold
    reached, unsubscribe acknowledged or rejected, stray ticks); and the
    ticks and block answers of such a run can be dropped without changing
    the world reached. *)
Theorem no_polling_without_subscription_error errors ctx em r th fmt w0 ins :
  start errors ctx em (Some r) th fmt = Some w0 ->
  supportsSubscriptions ctx = true ->
  existsb is_SubError ins = false ->
  pollers (run w0 ins) = []
  /\ Forall (fun e => is_polling_call e = false) (trace (run w0 ins))
  /\ run w0 ins = run w0 (filter (fun i => negb (polling_input i)) ins).
Proof.
  intros Hstart Hsup.
  apply start_returns in Hstart. destruct Hstart as (b & _ & _ & _ & ->).
  rewrite Hsup.
  assert (H : forall ins w,
    pollers w = [] ->
    Forall (fun c => c = AfterThreshold) (unsubscribing w) ->
    Forall (fun e => is_polling_call e = false) (trace w) ->
    existsb is_SubError ins = false ->
    pollers (run w ins) = []
    /\ Forall (fun e => is_polling_call e = false) (trace (run w ins))
    /\ run w ins = run w (filter (fun i => negb (polling_input i)) ins)).
  { clear ins. induction ins as [|i ins IH]; intros w Hp Hu Ht Hins.
    - simpl. auto.
    - rewrite run_cons.
      simpl in Hins. apply orb_false_iff in Hins. destruct Hins as [Hi Hins].
      assert (Hstep : pollers (step w i) = []
                      /\ Forall (fun c => c = AfterThreshold)
                                (unsubscribing (step w i))
                      /\ Forall (fun e => is_polling_call e = false)
                                (trace (step w i))
                      /\ (polling_input i = true -> step w i = w)).
      { destruct w as [s u ps t]. simpl in Hp, Hu, Ht. subst ps.
        assert (Hadd : forall es,
          Forall (fun e => is_polling_call e = false) es ->
          Forall (fun e => is_polling_call e = false) (t ++ es))
          by (intros es Hes; apply Forall_app; split; assumption).
        destruct i as [| | |d| |j|j|k|k j blk|k j]; try discriminate Hi;
          simpl; rewrite ?nth_error_nil;
          try (repeat split; auto; discriminate).
        - destruct s; simpl; try (repeat split; auto; discriminate).
          unfold immediate_callback. destruct (subscriptionManager _); simpl;
            repeat split; auto; try discriminate;
            try (apply Hadd; repeat constructor).
        - destruct s; simpl; repeat split; auto; discriminate.
        - destruct s; simpl; repeat split; auto; try discriminate;
            try (apply Hadd; repeat constructor).
        - destruct s; simpl; try (repeat split; auto; discriminate).
          unfold on_data. destruct d as [d|]; [|repeat split; auto; discriminate].
          destruct (negb _); [repeat split; auto; discriminate|].
          destruct (BigInt (number d)); simpl;
            [repeat split; auto; try discriminate;
             try (apply Hadd; repeat constructor)|].
          destruct (BigInt (blockNumber _)); simpl;
            [repeat split; auto; try discriminate;
             try (apply Hadd; repeat constructor)|].
          destruct (_ <=? _); simpl; repeat split; auto; try discriminate;
            rewrite <- ?app_assoc; try (apply Hadd; repeat constructor);
            try (apply Forall_app; split; [exact Hu | repeat constructor]).
        - destruct (nth_error u j) as [c|] eqn:Hc;
            [|repeat split; auto; discriminate].
          rewrite (Forall_nth_error _ _ _ _ Hu Hc). simpl.
          repeat split; auto; try discriminate;
            try (apply Forall_remove_nth; exact Hu).
        - destruct (nth_error u j) as [c|] eqn:Hc;
            [|repeat split; auto; discriminate].
          simpl. repeat split; auto; try discriminate;
            try (apply Forall_remove_nth; exact Hu);
            try (apply Hadd; repeat constructor). }
      destruct Hstep as (Hp' & Hu' & Ht' & Hsame).
      destruct (IH (step w i) Hp' Hu' Ht' Hins) as (H1 & H2 & H3).
      repeat split; auto.
      simpl filter. destruct (polling_input i) eqn:Hpi; simpl.
      + rewrite <- (Hsame eq_refl) at 2. exact H3.
      + exact H3. }
  apply H; simpl; auto.
Qed.

Lemma no_polling_without_subscription_error_witness :
  exists w0,
    start plain_errors (ctx_subscription 3) 0%nat (Some receipt100)
          "0xT"%string fmt0 = Some w0
    /\ pollers (run w0 [Tick 0; Immediate; SubscribeResolved; Tick 0;
                        Data (Some (block 102 "H2" "H1")); UnsubscribeResolved 0;
                        Tick 0]) = [].
Proof.
  eexists. split; [reflexivity|].
  exact (proj1
    (no_polling_without_subscription_error plain_errors (ctx_subscription 3)
       0%nat receipt100 "0xT"%string fmt0 _
       [Tick 0; Immediate; SubscribeResolved; Tick 0;
        Data (Some (block 102 "H2" "H1")); UnsubscribeResolved 0; Tick 0]
       eq_refl eq_refl eq_refl)).
Defined.

(** ** What a watch emits and raises *)

(** What one step adds to the trace: events and errors that come from the
    argument object the entry point built. *)
Lemma step_effects P b w i :
  Base P w ->
  blockNumber (transactionReceipt P) = Some b ->
  exists es,
    trace (step w i) = trace w ++ es
    /\ Forall (watch_effect P) es
    /\ (forall err, In (Uncaught err) es ->
          (err = SubscriptionError (transactionReceipt P)
           /\ subscription (step w i) = Rejected)
          \/ (err = RequestError /\ rejected_request i = true))
    /\ (subscription w = Rejected -> subscription (step w i) = Rejected).
Proof.
  intros HB Hb.
  pose proof (base_subscription _ _ HB) as Hs.
  pose proof (base_pollers _ _ HB) as Hp.
  destruct w as [s u ps t].
  cbn [subscription unsubscribing pollers trace] in *.
  assert (Hnop : exists es,
    t = t ++ es
    /\ Forall (watch_effect P) es
    /\ (forall err, In (Uncaught err) es ->
          (err = SubscriptionError (transactionReceipt P) /\ s = Rejected)
          \/ (err = RequestError /\ rejected_request i = true))
    /\ (s = Rejected -> s = Rejected)).
  { exists []. rewrite app_nil_r. repeat split; auto. intros err []. }
  assert (Hev : forall n h,
    watch_effect P
      (Emit (transactionWeb3PromiEvent P)
            (mkEvent (format n (returnFormat P)) (transactionReceipt P)
                     (format h (returnFormat P))))).
  { intros n h. simpl. split; [reflexivity|]. unfold event_of. simpl.
    split; [reflexivity|]. split; eexists; reflexivity. }
  destruct i as [| | |d| |j|j|k|k j blk|k j]; simpl step.
  - destruct s; try exact Hnop. destruct Hs as (-> & _).
    unfold immediate_callback.
    destruct (subscriptionManager _); simpl.
    + exists [Subscribe].
      split; [reflexivity|]. split; [repeat constructor|].
      split; [|discriminate]. intros err [H|[]]. discriminate H.
    + exists []. rewrite app_nil_r.
      split; [reflexivity|]. split; [constructor|].
      split; [|discriminate]. intros err [].
  - destruct s; try exact Hnop. simpl.
    exists []. rewrite app_nil_r.
    split; [reflexivity|]. split; [constructor|].
    split; [|discriminate]. intros err [].
  - destruct s; try exact Hnop. destruct Hs as (-> & _). simpl.
    exists [Uncaught (SubscriptionError (transactionReceipt P))].
    split; [reflexivity|]. split; [|split; [|reflexivity]].
    + constructor; [|constructor]. simpl. left. reflexivity.
    + intros err [H|[]]. inversion H. left. split; reflexivity.
  - destruct s; try exact Hnop. destruct Hs as (-> & _).
    unfold on_data. destruct d as [d|]; [|exact Hnop].
    destruct (number d) as [h|]; simpl; [|exact Hnop].
    destruct (h =? 0); simpl; [exact Hnop|].
    rewrite Hb. simpl.
    destruct (_ <=? _); simpl; rewrite <- ?app_assoc; eexists;
      (split; [reflexivity|]);
      (split; [constructor; [apply Hev | repeat constructor]|]);
      (split; [|discriminate]);
      intros err H; simpl in H;
      repeat (destruct H as [H|H]; [discriminate H|]); destruct H.
  - destruct s; try exact Hnop. simpl.
    exists [Unsubscribe].
    split; [reflexivity|]. split; [repeat constructor|].
    split; [|discriminate]. intros err [H|[]]. discriminate H.
  - destruct (nth_error u j) as [c|] eqn:Hc; [|exact Hnop].
    assert (Hrej : s <> Rejected).
    { intros ->. destruct Hs as (Hu & _). rewrite Hu in Hc.
      destruct j; discriminate Hc. }
    destruct c as [|props]; simpl.
    + exists []. rewrite app_nil_r.
      split; [reflexivity|]. split; [constructor|].
      split; [|intros E; destruct (Hrej E)]. intros err [].
    + eexists. split; [reflexivity|]. split; [repeat constructor|].
      split; [|intros E; destruct (Hrej E)]. intros err [H|[]]. discriminate H.
  - destruct (nth_error u j) as [c|] eqn:Hc; [|exact Hnop].
    simpl. exists [Uncaught RequestError].
    split; [reflexivity|]. split; [|split; [|auto]].
    + constructor; [|constructor]. simpl. right. reflexivity.
    + intros err [H|[]]. inversion H. right. split; reflexivity.
  - destruct (nth_error ps k) as [q|] eqn:Hq; [|exact Hnop].
    destruct (interval_active q); [|exact Hnop].
    destruct (Forall_nth_error _ _ _ _ Hp Hq) as [HP _].
    unfold interval_callback. rewrite HP, Hb. simpl.
    eexists. split; [reflexivity|].
    split; [destruct (_ <=? _); repeat constructor|].
    split; [|auto].
    intros err H. destruct (_ <=? _); simpl in H;
      repeat (destruct H as [H|H]; [discriminate H|]); destruct H.
  - destruct (nth_error ps k) as [q|] eqn:Hq; [|exact Hnop].
    destruct (nth_error (pending q) j); [|exact Hnop].
    destruct (Forall_nth_error _ _ _ _ Hp Hq) as [HP _].
    unfold after_getBlockByNumber. simpl. rewrite HP.
    destruct blk as [blk|]; [destruct (truthy_string (hash blk))|]; simpl;
      eexists; (split; [reflexivity|]);
      (split; [try (constructor; [apply Hev | constructor]); constructor|]);
      (split; [|auto]);
      intros err H; simpl in H;
      repeat (destruct H as [H|H]; [discriminate H|]); destruct H.
  - destruct (nth_error ps k) as [q|] eqn:Hq; [|exact Hnop].
    destruct (nth_error (pending q) j); [|exact Hnop].
    simpl. exists [Uncaught RequestError].
    split; [reflexivity|]. split; [|split; [|auto]].
    + constructor; [|constructor]. simpl. right. reflexivity.
    + intros err [H|[]]. inversion H. right. split; reflexivity.
Qed.

(** Everything emitted or raised in a watch comes from the argument object
    the entry point built; an error raised is the [SubscriptionError] of a
    rejected subscribe or the rejection of an awaited request. *)
Lemma watch_effects errors ctx em r th fmt w0 ins :
  start errors ctx em (Some r) th fmt = Some w0 ->
  Forall (watch_effect (mkProps ctx r em fmt)) (trace (run w0 ins))
  /\ (forall err, In (Uncaught err) (trace (run w0 ins)) ->
        (err = SubscriptionError r /\ subscription (run w0 ins) = Rejected)
        \/ (err = RequestError /\ existsb rejected_request ins = true)).
Proof.
  intros Hstart. revert ins.
  apply (start_invariant
    (fun ins w =>
       Forall (watch_effect (mkProps ctx r em fmt)) (trace w)
       /\ (forall err, In (Uncaught err) (trace w) ->
             (err = SubscriptionError r /\ subscription w = Rejected)
             \/ (err = RequestError /\ existsb rejected_request ins = true)))
    errors ctx em r th fmt w0 Hstart).
  - pose proof Hstart as H. apply start_returns in H.
    destruct H as (b & _ & _ & _ & ->).
    destruct (supportsSubscriptions ctx); simpl; split;
      try (repeat constructor; fail);
      intros err [H|[]]; discriminate H.
  - intros b ins w i Hb HB [HF HU].
    destruct (step_effects (mkProps ctx r em fmt) b w i HB Hb)
      as (es & -> & Hes & Herr & Hrej).
    split; [apply Forall_app; split; assumption|].
    intros err Hin. apply in_app_or in Hin. destruct Hin as [Hin|Hin].
    + destruct (HU err Hin) as [[-> Hs] | [-> Hr]].
      * left. split; [reflexivity | apply Hrej; exact Hs].
      * right. split; [reflexivity|].
        rewrite existsb_app, Hr. reflexivity.
    + destruct (Herr err Hin) as [[-> Hs] | [-> Hr]].
      * left. split; [reflexivity | exact Hs].
      * right. split; [reflexivity|].
        rewrite existsb_app. simpl. rewrite Hr. apply orb_true_iff.
        right. reflexivity.
Qed.

(** X5: every confirmation event of a watch is emitted on the emitter the
    caller passed, carries the caller's receipt unchanged, and has both its
    confirmation number and its block hash in the caller's return format:
    nothing is ever emitted on another emitter or about another receipt,
    whichever observer emits and also across the fallback. *)
Theorem events_carry_the_callers_arguments errors ctx em r th fmt w0 ins em' ev :
  start errors ctx em (Some r) th fmt = Some w0 ->
  In (Emit em' ev) (trace (run w0 ins)) ->
  em' = em
  /\ receipt ev = r
  /\ (exists n, confirmationNumber ev = format n fmt)
  /\ (exists h, latestBlockHash ev = format h fmt).
Proof.
  intros Hstart Hin.
  destruct (watch_effects _ _ _ _ _ _ _ ins Hstart) as [HF _].
  rewrite Forall_forall in HF. apply HF in Hin.
  destruct Hin as (Hem & Hr & Hn & Hh). auto.
Qed.

Lemma events_carry_the_callers_arguments_witness :
  exists w0,
    start plain_errors (ctx_polling 3) 7%nat (Some receipt100)
          "0xT"%string fmt0 = Some w0
    /\ receipt (mkEvent (format 2 fmt0) receipt100 (format (Some "H1"%string) fmt0))
       = receipt100.
Proof.
  eexists. split; [reflexivity|].
  exact (proj1 (proj2
    (events_carry_the_callers_arguments plain_errors (ctx_polling 3) 7%nat
       receipt100 "0xT"%string fmt0 _
       [Tick 0; BlockReturned 0 0 (Some (block 101 "H1" "B"))] 7%nat
       (mkEvent (format 2 fmt0) receipt100 (format (Some "H1"%string) fmt0))
       eq_refl ltac:(simpl; auto)))).
Defined.

(** X6: the errors a watch raises after the entry point has returned.  Each
    is either the [SubscriptionError] of a rejected subscribe, and then the
    whole trace is [setImmediate], [subscribe] and that error; or the
    rejection of a request the code awaits without a [catch]: an unsubscribe
    request or a block request that the provider rejected.  So in a run in
    which the provider rejects no such request, the only error possible is
    the [SubscriptionError]; and the [BigInt] conversions of the callbacks
    never throw: the entry point has checked the block number, and a header
    reaches its conversion only with a height. *)
Theorem uncaught_errors errors ctx em r th fmt w0 ins err :
  start errors ctx em (Some r) th fmt = Some w0 ->
  In (Uncaught err) (trace (run w0 ins)) ->
  (err = SubscriptionError r
   /\ subscription (run w0 ins) = Rejected
   /\ trace (run w0 ins) = [SetImmediate; Subscribe; Uncaught (SubscriptionError r)])
  \/ (err = RequestError /\ existsb rejected_request ins = true).
Proof.
  intros Hstart Hin.
  destruct (watch_effects _ _ _ _ _ _ _ ins Hstart) as [_ HU].
  destruct (HU err Hin) as [[-> Hs] | H]; [left | right; exact H].
  split; [reflexivity|]. split; [exact Hs|].
  pose proof (base_subscription _ _ (start_Base _ _ _ _ _ _ _ ins Hstart)) as HB.
  rewrite Hs in HB. destruct HB as (_ & _ & Ht). exact Ht.
Qed.

Lemma uncaught_errors_witness :
  exists w0,
    start plain_errors (ctx_subscription 3) 7%nat (Some receipt100)
          "0xT"%string fmt0 = Some w0
    /\ ((SubscriptionError receipt100 = SubscriptionError receipt100
         /\ subscription (run w0 [Immediate; SubscribeRejected; Tick 0]) = Rejected
         /\ trace (run w0 [Immediate; SubscribeRejected; Tick 0]) =
            [SetImmediate; Subscribe; Uncaught (SubscriptionError receipt100)])
        \/ (SubscriptionError receipt100 = RequestError
            /\ existsb rejected_request [Immediate; SubscribeRejected; Tick 0]
               = true)).
Proof.
  eexists. split; [reflexivity|].
  exact (uncaught_errors plain_errors (ctx_subscription 3) 7%nat receipt100
       "0xT"%string fmt0 _ [Immediate; SubscribeRejected; Tick 0]
       (SubscriptionError receipt100) eq_refl ltac:(simpl; auto)).
Defined.

(** ** Handles taken and released *)





(** Handles at work: two errors and a threshold header before any
    acknowledgment make three unsubscribe calls and two pollers. *)
Example three_unsubscribes_two_pollers :
  option_map
    (fun w0 =>
       let w := run w0 [Immediate; SubscribeResolved; SubError;
                        Data (Some (block 102 "H2" "H1")); SubError;
                        UnsubscribeResolved 0; UnsubscribeResolved 0;
                        UnsubscribeResolved 0] in
       (count_unsubscribe (trace w), count is_SetInterval (trace w),
        List.length (pollers w), subscription w))
    (start plain_errors (ctx_subscription 3) 7%nat (Some receipt100)
           "0xT"%string fmt0)
  = Some (3%nat, 2%nat, 2%nat, Unsubscribed).
Proof. reflexivity. Qed.

(** ** The pollers' counters, intervals and block requests *)

(** What holds of every poller of a watch, [b] being the receipt's block. *)
Lemma poller_invariant errors ctx em r th fmt w0 ins b :
  start errors ctx em (Some r) th fmt = Some w0 ->
  blockNumber r = Some b ->
  Forall (fun q =>
            (interval_active q = false ->
             transactionConfirmationBlocks ctx <= counter q)
            /\ Forall (fun h => b < h <= b + counter q) (pending q))
         (pollers (run w0 ins))
  /\ Forall (fun h => b < h) (fetch_heights (trace (run w0 ins)))
  /\ (pollers (run w0 ins) = [] -> fetch_heights (trace (run w0 ins)) = []).
Proof.
  intros Hstart Hb. revert ins.
  apply (start_invariant
    (fun _ w =>
       Forall (fun q =>
                 (interval_active q = false ->
                  transactionConfirmationBlocks ctx <= counter q)
                 /\ Forall (fun h => b < h <= b + counter q) (pending q))
              (pollers w)
       /\ Forall (fun h => b < h) (fetch_heights (trace w))
       /\ (pollers w = [] -> fetch_heights (trace w) = []))
    errors ctx em r th fmt w0 Hstart).
  - pose proof Hstart as H. apply start_returns in H.
    destruct H as (b' & _ & _ & _ & ->).
    destruct (supportsSubscriptions ctx); simpl; repeat split;
      try discriminate; repeat constructor; discriminate.
  - intros b' ins w i Hb' HB (HQ & HF & HE).
    assert (b' = b) by congruence. subst b'.
    pose proof (base_pollers _ _ HB) as HBp.
    destruct w as [s u ps t].
    cbn [subscription unsubscribing pollers trace] in *.
    assert (Hnop : Forall (fun q =>
                 (interval_active q = false ->
                  transactionConfirmationBlocks ctx <= counter q)
                 /\ Forall (fun h => b < h <= b + counter q) (pending q)) ps
       /\ Forall (fun h => b < h) (fetch_heights t)
       /\ (ps = [] -> fetch_heights t = [])) by auto.
    assert (Hsame : forall es,
      fetch_heights es = [] ->
      Forall (fun q =>
                 (interval_active q = false ->
                  transactionConfirmationBlocks ctx <= counter q)
                 /\ Forall (fun h => b < h <= b + counter q) (pending q)) ps
       /\ Forall (fun h => b < h) (fetch_heights (t ++ es))
       /\ (ps = [] -> fetch_heights (t ++ es) = [])).
    { intros es Hes. rewrite fetch_heights_app, Hes, app_nil_r. exact Hnop. }
    assert (Hne : forall k q (q' : Poller),
      nth_error ps k = Some q -> update_nth k q' ps <> []).
    { intros k q q' Hq E. apply (f_equal (@List.length _)) in E.
      rewrite update_nth_length in E. destruct ps; [destruct k|]; discriminate. }
    destruct i as [| | |d| |j|j|k|k j blk|k j]; simpl.
    + destruct s; auto. unfold immediate_callback.
      destruct (subscriptionManager _); simpl; auto;
      try (apply Hsame; reflexivity).
    + destruct s; auto.
    + destruct s; auto. simpl; try (apply Hsame; reflexivity).
    + destruct s; auto. unfold on_data. destruct d as [d|]; auto.
      destruct (negb _); auto.
      destruct (BigInt (number d)); simpl; [apply Hsame; reflexivity|].
      destruct (BigInt (blockNumber _)); simpl; [apply Hsame; reflexivity|].
      destruct (_ <=? _); simpl; rewrite <- ?app_assoc; try (apply Hsame; reflexivity).
    + destruct s; auto. simpl; try (apply Hsame; reflexivity).
    + destruct (nth_error u j) as [[|props]|]; simpl; auto.
      rewrite fetch_heights_app. simpl. rewrite app_nil_r.
      split; [|split; [exact HF|]].
      * apply Forall_app. split; [exact HQ|].
        repeat constructor. discriminate.
      * intros E. destruct ps; discriminate E.
    + destruct (nth_error u j); simpl; auto; try (apply Hsame; reflexivity).
    + destruct (nth_error ps k) as [q|] eqn:Hq; auto.
      destruct (interval_active q) eqn:Hact; auto.
      destruct (Forall_nth_error _ _ _ _ HBp Hq) as [HP Hc].
      destruct (Forall_nth_error _ _ _ _ HQ Hq) as [Hclr Hpend].
      unfold interval_callback. rewrite HP. simpl. rewrite Hb. simpl.
      assert (Hfh : fetch_heights
                (t ++ (if transactionConfirmationBlocks ctx <=? counter q
                       then [ClearInterval] else [])
                   ++ [GetBlockByNumber (b + counter q)])
              = fetch_heights t ++ [b + counter q]).
      { rewrite !fetch_heights_app. destruct (_ <=? _); reflexivity. }
      rewrite Hfh. split; [|split].
      * apply Forall_update_nth; [exact HQ|]. simpl. split.
        -- destruct (_ <=? _) eqn:Hle; [intros _; apply Z.leb_le; exact Hle|].
           rewrite Hact. discriminate.
        -- apply Forall_app. split; [exact Hpend|]. repeat constructor; lia.
      * apply Forall_app. split; [exact HF|]. repeat constructor. lia.
      * intros E. destruct (Hne _ _ _ Hq E).
    + destruct (nth_error ps k) as [q|] eqn:Hq; auto.
      destruct (nth_error (pending q) j); auto.
      destruct (Forall_nth_error _ _ _ _ HBp Hq) as [HP Hc].
      destruct (Forall_nth_error _ _ _ _ HQ Hq) as [Hclr Hpend].
      unfold after_getBlockByNumber. simpl.
      destruct blk as [blk|]; [destruct (truthy_string (hash blk))|]; simpl;
        rewrite fetch_heights_app; simpl; rewrite app_nil_r;
        (split; [|split; [exact HF|intros E; destruct (Hne _ _ _ Hq E)]]);
        (apply Forall_update_nth; [exact HQ|]); simpl;
        (split; [intros Hact; specialize (Hclr Hact); lia|]);
        apply Forall_remove_nth;
        (eapply Forall_impl; [|exact Hpend]); simpl; intros; lia.
    + destruct (nth_error ps k) as [q|] eqn:Hq; auto.
      destruct (nth_error (pending q) j); auto.
      destruct (Forall_nth_error _ _ _ _ HQ Hq) as [Hclr Hpend].
      simpl. rewrite fetch_heights_app; simpl; rewrite app_nil_r.
      split; [|split; [exact HF|intros E; destruct (Hne _ _ _ Hq E)]].
      apply Forall_update_nth; [exact HQ|]. simpl.
      split; [exact Hclr|]. apply Forall_remove_nth. exact Hpend.
Qed.

(** The counter of a poller never goes down, the poller stays, and a cleared
    interval stays cleared. *)
Lemma poller_progress errors ctx em r th fmt w0 ins1 ins2 k q :
  start errors ctx em (Some r) th fmt = Some w0 ->
  nth_error (pollers (run w0 ins1)) k = Some q ->
  exists q',
    nth_error (pollers (run w0 (ins1 ++ ins2))) k = Some q'
    /\ counter q <= counter q'
    /\ (interval_active q = false -> interval_active q' = false).
Proof.
  intros Hstart Hq.
  induction ins2 as [|i ins2 IH] using rev_ind.
  - rewrite app_nil_r. exists q. repeat split; auto. lia.
  - destruct IH as (q1 & Hq1 & Hc1 & Ha1).
    rewrite app_assoc, run_snoc.
    pose proof (start_Base _ _ _ _ _ _ _ (ins1 ++ ins2) Hstart) as HB.
    pose proof (Base_no_pollers _ _ _ _ HB Hq1) as Hs.
    destruct (step_poller _ i _ _ Hs Hq1) as (q' & Hq' & _ & Hc' & Ha' & _).
    exists q'. repeat split; auto. lia.
Qed.

(** X8: the interval of a poller is cleared only once its counter has reached
    the threshold, never earlier; the counter starts at 1 and never goes
    down; and once there is a poller it stays, with its interval staying
    cleared once it is: a stopped poller is never restarted. *)
Theorem interval_cleared_only_at_threshold
    errors ctx em r th fmt w0 ins1 ins2 k q :
  start errors ctx em (Some r) th fmt = Some w0 ->
  nth_error (pollers (run w0 ins1)) k = Some q ->
  1 <= counter q
  /\ (interval_active q = false -> transactionConfirmationBlocks ctx <= counter q)
  /\ exists q',
       nth_error (pollers (run w0 (ins1 ++ ins2))) k = Some q'
       /\ counter q <= counter q'
       /\ (interval_active q = false -> interval_active q' = false).
Proof.
  intros Hstart Hq.
  pose proof Hstart as H. apply start_returns in H.
  destruct H as (b & Hb & _).
  destruct (poller_invariant _ _ _ _ _ _ _ ins1 b Hstart Hb) as (HQ & _).
  destruct (Forall_nth_error _ _ _ _ HQ Hq) as [Hclr _].
  pose proof (base_pollers _ _ (start_Base _ _ _ _ _ _ _ ins1 Hstart)) as HBp.
  destruct (Forall_nth_error _ _ _ _ HBp Hq) as [_ Hc].
  split; [exact Hc|]. split; [exact Hclr|].
  apply (poller_progress _ _ _ _ _ _ _ _ _ _ _ Hstart Hq).
Qed.

Lemma interval_cleared_only_at_threshold_witness :
  exists w0 q,
    start plain_errors (ctx_polling 2) 0%nat (Some receipt100)
          "0xT"%string fmt0 = Some w0
    /\ nth_error
         (pollers (run w0 [Tick 0; BlockReturned 0 0 (Some (block 101 "H1" "B"));
                           Tick 0])) 0 = Some q
    /\ 1 <= counter q.
Proof.
  eexists. eexists. split; [reflexivity|]. split; [reflexivity|].
  exact (proj1
    (interval_cleared_only_at_threshold plain_errors (ctx_polling 2) 0%nat
       receipt100 "0xT"%string fmt0 _
       [Tick 0; BlockReturned 0 0 (Some (block 101 "H1" "B")); Tick 0] []
       0%nat _ eq_refl eq_refl)).
Defined.

(** X9: the heights a watch asks the block source for are all above the
    receipt's block; every request still unanswered is for a height above
    the receipt's block and not beyond blockNumber + counter of its poller;
    a watch without a poller asks for no block at all.  Without subscription
    support, where there is one poller, the heights are asked in
    non-decreasing order and none is beyond blockNumber + counter. *)
Theorem requested_heights_bounds errors ctx em r th fmt w0 ins b :
  start errors ctx em (Some r) th fmt = Some w0 ->
  blockNumber r = Some b ->
  Forall (fun h => b < h) (fetch_heights (trace (run w0 ins)))
  /\ (forall k q, nth_error (pollers (run w0 ins)) k = Some q ->
        Forall (fun h => b < h <= b + counter q) (pending q))
  /\ (pollers (run w0 ins) = [] -> fetch_heights (trace (run w0 ins)) = [])
  /\ (supportsSubscriptions ctx = false ->
      nondecreasing (fetch_heights (trace (run w0 ins)))
      /\ exists q, pollers (run w0 ins) = [q]
                   /\ Forall (fun h => h <= b + counter q)
                             (fetch_heights (trace (run w0 ins)))).
Proof.
  intros Hstart Hb.
  destruct (poller_invariant _ _ _ _ _ _ _ ins b Hstart Hb) as (HQ & HF & HE).
  split; [exact HF|]. split; [|split; [exact HE|]].
  - intros k q Hq. destruct (Forall_nth_error _ _ _ _ HQ Hq) as [_ H]. exact H.
  - intros Hsup. clear HQ HF HE.
    assert (H : nondecreasing (fetch_heights (trace (run w0 ins)))
                /\ forall q, pollers (run w0 ins) = [q] ->
                     Forall (fun h => h <= b + counter q)
                            (fetch_heights (trace (run w0 ins)))).
    { induction ins as [|i ins IH] using rev_ind.
      - pose proof Hstart as H. apply start_returns in H.
        destruct H as (b' & _ & _ & _ & ->). rewrite Hsup. simpl.
        split; [exact I | intros; constructor].
      - rewrite run_snoc. destruct IH as [Hnd Hle].
        destruct (polling_mode _ _ _ _ _ _ _ ins Hstart Hsup)
          as (Hs & Hu & q & Hq & HP & Hc).
        specialize (Hle q Hq).
        destruct (run w0 ins) as [s u ps t].
        cbn [subscription unsubscribing pollers trace] in *. subst s u ps.
        assert (Hnop : nondecreasing (fetch_heights t)
                       /\ forall q0, [q] = [q0] ->
                            Forall (fun h => h <= b + counter q0)
                                   (fetch_heights t)).
        { split; [exact Hnd|]. intros q0 E. inversion E; subst. exact Hle. }
        destruct i as [| | |d| |j|j|k|k j blk|k j]; simpl step;
          rewrite ?nth_error_nil; try exact Hnop.
        + destruct k as [|k]; simpl; rewrite ?nth_error_nil; try exact Hnop.
          destruct (interval_active q); [|exact Hnop].
          unfold interval_callback. rewrite HP. simpl. rewrite Hb. simpl.
          assert (Hfh : fetch_heights
                    (t ++ (if transactionConfirmationBlocks ctx <=? counter q
                           then [ClearInterval] else [])
                       ++ [GetBlockByNumber (b + counter q)])
                  = fetch_heights t ++ [b + counter q]).
          { rewrite !fetch_heights_app. destruct (_ <=? _); reflexivity. }
          rewrite Hfh. split.
          * apply nondecreasing_snoc; [exact Hnd|].
            eapply Forall_impl; [|exact Hle]. simpl. intros; lia.
          * intros q0 E. inversion E; subst. simpl.
            apply Forall_app. split; [exact Hle|]. repeat constructor. lia.
        + destruct k as [|k]; simpl; rewrite ?nth_error_nil; try exact Hnop.
          destruct (nth_error (pending q) j); [|exact Hnop].
          unfold after_getBlockByNumber. simpl.
          destruct blk as [blk|]; [destruct (truthy_string (hash blk))|]; simpl;
            rewrite fetch_heights_app; simpl; rewrite app_nil_r;
            (split; [exact Hnd|]); intros q0 E; inversion E; subst; simpl;
            try exact Hle.
          eapply Forall_impl; [|exact Hle]. simpl. intros; lia.
        + destruct k as [|k]; simpl; rewrite ?nth_error_nil; try exact Hnop.
          destruct (nth_error (pending q) j); [|exact Hnop].
          simpl. rewrite fetch_heights_app; simpl; rewrite app_nil_r.
          split; [exact Hnd|]. intros q0 E. inversion E; subst. exact Hle. }
    destruct H as [Hnd Hle]. split; [exact Hnd|].
    destruct (polling_mode _ _ _ _ _ _ _ ins Hstart Hsup)
      as (_ & _ & q & Hq & _).
    exists q. split; [exact Hq | apply Hle; exact Hq].
Qed.

Lemma requested_heights_bounds_witness :
  exists w0,
    start plain_errors (ctx_polling 3) 0%nat (Some receipt100)
          "0xT"%string fmt0 = Some w0
    /\ Forall (fun h => 100 < h)
         (fetch_heights
            (trace (run w0 [Tick 0; Tick 0;
                            BlockReturned 0 1 (Some (block 101 "H1" "B"));
                            Tick 0; BlockReturned 0 0 None]))).
Proof.
  eexists. split; [reflexivity|].
  exact (proj1
    (requested_heights_bounds plain_errors (ctx_polling 3) 0%nat receipt100
       "0xT"%string fmt0 _
       [Tick 0; Tick 0; BlockReturned 0 1 (Some (block 101 "H1" "B"));
        Tick 0; BlockReturned 0 0 None] 100 eq_refl eq_refl)).
Defined.

(** With two pollers the heights asked for are not in order: the first
    poller is at counter 2 when the second, still at 1, asks again. *)
Example two_pollers_heights_out_of_order :
  option_map
    (fun w0 =>
       fetch_heights
         (trace (run w0 [Immediate; SubscribeResolved; SubError; SubError;
                         UnsubscribeResolved 0; UnsubscribeResolved 0;
                         Tick 0; BlockReturned 0 0 (Some (block 101 "H1" "B"));
                         Tick 0; Tick 1])))
    (start plain_errors (ctx_subscription 10) 7%nat (Some receipt100)
           "0xT"%string fmt0)
  = Some [101; 102; 101].
Proof. reflexivity. Qed.

(** ** Block answers *)

(** X10: the answer to an outstanding block request, in any state of a
    watch.  A block with a non-empty hash raises the counter of the poller
    that asked by one and emits one event with the new counter, the receipt
    and that block's own hash, whichever of the outstanding requests it
    answers.  No block, or a block whose hash is absent or empty, only
    retires the request: the trace and the counter stay as they are, so the
    next tick of that poller that fires asks for the same height again. *)
Theorem block_answer errors ctx em r th fmt w0 ins k q j h b :
  start errors ctx em (Some r) th fmt = Some w0 ->
  nth_error (pollers (run w0 ins)) k = Some q ->
  blockNumber r = Some b ->
  nth_error (pending q) j = Some h ->
  (forall blk,
     truthy_string (hash blk) = true ->
     pollers (step (run w0 ins) (BlockReturned k j (Some blk))) =
       update_nth k
         (mkPoller (mkProps ctx r em fmt) (counter q + 1) (interval_active q)
                   (remove_nth j (pending q)))
         (pollers (run w0 ins))
     /\ trace (step (run w0 ins) (BlockReturned k j (Some blk))) =
        trace (run w0 ins)
        ++ [Emit em (mkEvent (format (counter q + 1) fmt) r
                             (format (hash blk) fmt))])
  /\ (forall nb,
        no_block_yet nb ->
        pollers (step (run w0 ins) (BlockReturned k j nb)) =
          update_nth k
            (mkPoller (mkProps ctx r em fmt) (counter q) (interval_active q)
                      (remove_nth j (pending q)))
            (pollers (run w0 ins))
        /\ trace (step (run w0 ins) (BlockReturned k j nb)) = trace (run w0 ins)
        /\ (interval_active q = true ->
            fetch_heights
              (trace (step (step (run w0 ins) (BlockReturned k j nb)) (Tick k))) =
            fetch_heights (trace (run w0 ins)) ++ [b + counter q])).
Proof.
  intros Hstart Hq Hb Hnth.
  pose proof (base_pollers _ _ (start_Base _ _ _ _ _ _ _ ins Hstart)) as HBp.
  destruct (Forall_nth_error _ _ _ _ HBp Hq) as [HP _].
  destruct (run w0 ins) as [s u ps t].
  cbn [subscription unsubscribing pollers trace] in *.
  split.
  - intros blk Hh. simpl. rewrite Hq, Hnth. unfold after_getBlockByNumber. simpl.
    rewrite Hh, HP. simpl. split; reflexivity.
  - intros nb Hnb.
    assert (Hstep : step (mkWorld s u ps t) (BlockReturned k j nb) =
                    mkWorld s u
                      (update_nth k
                         (mkPoller (mkProps ctx r em fmt) (counter q)
                                   (interval_active q)
                                   (remove_nth j (pending q))) ps) t).
    { simpl. rewrite Hq, Hnth. unfold after_getBlockByNumber. simpl.
      destruct nb as [blk|]; simpl in Hnb; [rewrite Hnb|]; simpl;
        unfold perform, set_pollers; simpl; rewrite app_nil_r, HP; reflexivity. }
    rewrite Hstep. cbn [pollers trace]. repeat split.
    intros Hact. simpl. rewrite (nth_error_update_nth _ _ _ _ Hq). simpl.
    rewrite Hact. unfold interval_callback. simpl.
    rewrite Hb. simpl. rewrite !fetch_heights_app.
    destruct (_ <=? _); reflexivity.
Qed.

Lemma block_answer_witness :
  exists w0,
    start plain_errors (ctx_polling 3) 7%nat (Some receipt100)
          "0xT"%string fmt0 = Some w0
    /\ trace (step (run w0 [Tick 0])
                   (BlockReturned 0 0 (Some (block 101 "H1" "B")))) =
       trace (run w0 [Tick 0])
       ++ [Emit 7%nat (mkEvent (format (1 + 1) fmt0) receipt100
                               (format (Some "H1"%string) fmt0))].
Proof.
  eexists. split; [reflexivity|].
  exact (proj2 (proj1
    (block_answer plain_errors (ctx_polling 3) 7%nat receipt100
       "0xT"%string fmt0 _
       [Tick 0] 0%nat _ 0%nat 101 100 eq_refl eq_refl eq_refl eq_refl)
    (block 101 "H1" "B") eq_refl)).
Defined.

(** ** Polls that overlap, and polls that do not *)

Lemma fetch_heights_repeat t h k :
  fetch_heights (t ++ repeat (GetBlockByNumber h) k) =
  fetch_heights t ++ repeat h k.
Proof.
  rewrite fetch_heights_app. f_equal.
  induction k as [|k IH]; simpl; [reflexivity|]. rewrite IH. reflexivity.
Qed.

Lemma confirmation_numbers_repeat t h k :
  confirmation_numbers (t ++ repeat (GetBlockByNumber h) k) =
  confirmation_numbers t.
Proof.
  rewrite confirmation_numbers_app.
  replace (confirmation_numbers (repeat (GetBlockByNumber h) k)) with (@nil Z);
    [apply app_nil_r|].
  induction k as [|k IH]; simpl; [reflexivity | exact IH].
Qed.

(** Ticks on a poller below its threshold, none of them answered: each asks
    for the same height. *)
Lemma ticks_pile_up P b k : forall s u c pend t,
  blockNumber (transactionReceipt P) = Some b ->
  c < transactionConfirmationBlocks (web3Context P) ->
  run (mkWorld s u [mkPoller P c true pend] t) (repeat (Tick 0) k) =
  mkWorld s u [mkPoller P c true (pend ++ repeat (b + c) k)]
          (t ++ repeat (GetBlockByNumber (b + c)) k).
Proof.
  induction k as [|k IH]; intros s u c pend t Hb Hc.
  - simpl. rewrite !app_nil_r. reflexivity.
  - simpl repeat. rewrite run_cons.
    simpl step. unfold interval_callback. simpl. rewrite Hb. simpl.
    replace (_ <=? c) with false by (symmetry; apply Z.leb_gt; exact Hc).
    unfold perform, set_pollers. simpl.
    rewrite IH by assumption. rewrite <- !app_assoc. reflexivity.
Qed.

(** Answers with a block, one per outstanding request. *)
Lemma answers_drain P blk k : forall s u c act pend t,
  truthy_string (hash blk) = true ->
  (k <= List.length pend)%nat ->
  pollers (run (mkWorld s u [mkPoller P c act pend] t)
               (repeat (BlockReturned 0 0 (Some blk)) k)) =
    [mkPoller P (c + Z.of_nat k) act (skipn k pend)]
  /\ confirmation_numbers
       (trace (run (mkWorld s u [mkPoller P c act pend] t)
                   (repeat (BlockReturned 0 0 (Some blk)) k))) =
     confirmation_numbers t ++ Zseq (c + 1) k
  /\ fetch_heights
       (trace (run (mkWorld s u [mkPoller P c act pend] t)
                   (repeat (BlockReturned 0 0 (Some blk)) k))) =
     fetch_heights t.
Proof.
  induction k as [|k IH]; intros s u c act pend t Hh Hlen.
  - simpl. rewrite app_nil_r. replace (c + Z.of_nat 0) with c by lia.
    repeat split.
  - destruct pend as [|h pend]; [simpl in Hlen; lia|].
    simpl repeat. rewrite run_cons.
    simpl step. unfold after_getBlockByNumber. simpl. rewrite Hh.
    unfold perform, set_pollers. simpl.
    destruct (IH s u (c + 1) act pend
                (t ++ [Emit (transactionWeb3PromiEvent P)
                         (mkEvent (format (c + 1) (returnFormat P))
                                  (transactionReceipt P)
                                  (format (hash blk) (returnFormat P)))]) Hh)
      as (H1 & H2 & H3); [simpl in Hlen; lia|].
    rewrite H1, H2, H3.
    rewrite confirmation_numbers_app, fetch_heights_app, Zseq_cons. simpl.
    rewrite <- app_assoc, app_nil_r. simpl.
    repeat split. do 2 f_equal. lia.
Qed.

(** X11: requests are not serialised.  With a threshold above 1, [n] ticks
    that fire before any answer arrives all ask for the same block,
    blockNumber + 1; when the [n] answers then come in, each with a block,
    each one raises the counter and emits: confirmations 2, 3, ..., n + 1 are
    reported on the strength of block blockNumber + 1 alone, and [n] may
    exceed the threshold by any amount. *)
Theorem overlapping_polls_recount_one_block errors ctx em r th fmt w0 b n blk :
  start errors ctx em (Some r) th fmt = Some w0 ->
  supportsSubscriptions ctx = false ->
  blockNumber r = Some b ->
  1 < transactionConfirmationBlocks ctx ->
  truthy_string (hash blk) = true ->
  fetch_heights (trace (run w0 (overlapping_polls n blk))) = repeat (b + 1) n
  /\ confirmation_numbers (trace (run w0 (overlapping_polls n blk))) = Zseq 2 n
  /\ pollers (run w0 (overlapping_polls n blk)) =
     [mkPoller (mkProps ctx r em fmt) (1 + Z.of_nat n) true []].
Proof.
  intros Hstart Hsup Hb HT Hh.
  apply start_returns in Hstart. destruct Hstart as (b' & _ & _ & _ & ->).
  rewrite Hsup. unfold overlapping_polls. rewrite run_app.
  unfold watchByPolling, perform, set_pollers. simpl.
  rewrite (ticks_pile_up (mkProps ctx r em fmt) b n) by (simpl; assumption).
  simpl.
  destruct (answers_drain (mkProps ctx r em fmt) blk n NoSubscription [] 1 true
              (repeat (b + 1) n)
              ([SetInterval (nullish_coalesce (transactionReceiptPollingInterval ctx)
                                              (transactionPollingInterval ctx))]
               ++ repeat (GetBlockByNumber (b + 1)) n) Hh)
    as (H1 & H2 & H3); [rewrite repeat_length; lia|].
  simpl app in H1, H2, H3. rewrite H1, H2, H3.
  repeat split.
  - apply (fetch_heights_repeat [SetInterval _]).
  - pose proof (confirmation_numbers_repeat [] (b + 1) n) as E.
    simpl in E. simpl. rewrite E. reflexivity.
  - rewrite skipn_all2 by (rewrite repeat_length; lia). reflexivity.
Qed.

Lemma overlapping_polls_recount_one_block_witness :
  exists w0,
    start plain_errors (ctx_polling 2) 0%nat (Some receipt100)
          "0xT"%string fmt0 = Some w0
    /\ confirmation_numbers
         (trace (run w0 (overlapping_polls 4 (block 101 "H1" "B")))) = Zseq 2 4.
Proof.
  eexists. split; [reflexivity|].
  exact (proj1 (proj2
    (overlapping_polls_recount_one_block plain_errors (ctx_polling 2) 0%nat
       receipt100 "0xT"%string fmt0 _ 100 4%nat (block 101 "H1" "B")
       eq_refl eq_refl eq_refl eq_refl eq_refl))).
Defined.

(** With threshold T >= 1 and the first n <= T polls each finding its block,
    the poller asks for blocks B+1 .. B+n and emits 2 .. n+1; the interval is
    cleared by the T-th tick, whose block request is still made. *)
Lemma serial_polling P b blks :
  blockNumber (transactionReceipt P) = Some b ->
  1 <= transactionConfirmationBlocks (web3Context P) ->
  Forall (fun blk => truthy_string (hash blk) = true) blks ->
  Z.of_nat (List.length blks) <= transactionConfirmationBlocks (web3Context P) ->
  exists t,
    run (watchByPolling P empty_world) (serial_polls blks) =
      mkWorld NoSubscription []
        [mkPoller P (1 + Z.of_nat (List.length blks))
           (Z.of_nat (List.length blks)
              <? transactionConfirmationBlocks (web3Context P)) []] t
    /\ confirmation_numbers t = Zseq 2 (List.length blks)
    /\ fetch_heights t = Zseq (b + 1) (List.length blks).
Proof.
  intros Hb HT. induction blks as [|blk blks IH] using rev_ind; intros Hh Hlen.
  - simpl. replace (0 <? _) with true by (symmetry; apply Z.ltb_lt; lia).
    eexists. repeat split.
  - apply Forall_app in Hh. destruct Hh as [Hh Hblk].
    inversion Hblk as [|? ? Hhash _]; subst.
    rewrite length_app in *. simpl in Hlen.
    destruct IH as (t & Hrun & Hn & Hf); [exact Hh | lia |].
    unfold serial_polls in *. rewrite flat_map_app, run_app, Hrun. simpl.
    assert (Hlt : (Z.of_nat (List.length blks)
                     <? transactionConfirmationBlocks (web3Context P)) = true)
      by (apply Z.ltb_lt; lia).
    rewrite Hlt.
    unfold run. simpl. unfold interval_callback. simpl. rewrite Hb. simpl.
    unfold after_getBlockByNumber. simpl. rewrite Hhash. simpl.
    unfold perform, set_pollers. simpl.
    eexists. split; [|split].
    + f_equal. f_equal. f_equal; try lia.
      destruct (_ <=? _) eqn:Hle.
      * symmetry. apply Z.ltb_ge. apply Z.leb_le in Hle. lia.
      * symmetry. apply Z.ltb_lt. apply Z.leb_gt in Hle. lia.
    + rewrite !confirmation_numbers_app, Hn.
      replace (List.length blks + 1)%nat with (S (List.length blks)) by lia.
      rewrite Zseq_S.
      destruct (_ <=? _); simpl; rewrite ?app_nil_r; do 2 f_equal; lia.
    + rewrite !fetch_heights_app, Hf.
      replace (List.length blks + 1)%nat with (S (List.length blks)) by lia.
      rewrite Zseq_S.
      destruct (_ <=? _); simpl; rewrite ?app_nil_r; do 2 f_equal; lia.
Qed.

(** A lone poller whose interval is cleared and that waits for no answer is
    at rest. *)
Lemma step_stopped q t i :
  interval_active q = false ->
  pending q = [] ->
  step (mkWorld NoSubscription [] [q] t) i = mkWorld NoSubscription [] [q] t.
Proof.
  intros Hact Hpend.
  destruct i as [| | |d| |j|j|k|k j blk|k j]; simpl;
    rewrite ?nth_error_nil; try reflexivity;
    destruct k as [|k]; simpl; rewrite ?nth_error_nil, ?Hact, ?Hpend,
      ?nth_error_nil; reflexivity.
Qed.

Lemma run_stopped q t ins :
  interval_active q = false ->
  pending q = [] ->
  run (mkWorld NoSubscription [] [q] t) ins = mkWorld NoSubscription [] [q] t.
Proof.
  intros Hact Hpend. induction ins as [|i ins IH]; [reflexivity|].
  rewrite run_cons, (step_stopped q t i Hact Hpend). exact IH.
Qed.

(** X12: polling a chain that is always ahead, one answered request per tick.
    With threshold T >= 1, after n <= T polls the poller has asked for blocks
    B+1 .. B+n, one each, and emitted confirmations 2 .. n+1; its interval is
    cleared by the T-th poll, which still asks and emits.  After T polls it
    has emitted T events, the last numbered T+1, and it is at rest: nothing
    delivered later changes the world. *)
Theorem serial_polls_run_one_past_threshold errors ctx em r th fmt w0 b blks ins :
  start errors ctx em (Some r) th fmt = Some w0 ->
  supportsSubscriptions ctx = false ->
  blockNumber r = Some b ->
  1 <= transactionConfirmationBlocks ctx ->
  Forall (fun blk => truthy_string (hash blk) = true) blks ->
  Z.of_nat (List.length blks) <= transactionConfirmationBlocks ctx ->
  pollers (run w0 (serial_polls blks)) =
    [mkPoller (mkProps ctx r em fmt) (1 + Z.of_nat (List.length blks))
       (Z.of_nat (List.length blks) <? transactionConfirmationBlocks ctx) []]
  /\ confirmation_numbers (trace (run w0 (serial_polls blks))) =
     Zseq 2 (List.length blks)
  /\ fetch_heights (trace (run w0 (serial_polls blks))) =
     Zseq (b + 1) (List.length blks)
  /\ (Z.of_nat (List.length blks) = transactionConfirmationBlocks ctx ->
      run w0 (serial_polls blks ++ ins) = run w0 (serial_polls blks)).
Proof.
  intros Hstart Hsup Hb HT Hh Hlen.
  apply start_returns in Hstart. destruct Hstart as (b' & _ & _ & _ & ->).
  rewrite Hsup.
  destruct (serial_polling (mkProps ctx r em fmt) b blks Hb HT Hh Hlen)
    as (t & Hrun & Hn & Hf).
  rewrite run_app, Hrun. cbn [pollers trace web3Context].
  repeat split; auto.
  intros Heq. apply run_stopped; [|reflexivity].
  simpl. apply Z.ltb_ge. lia.
Qed.

Lemma serial_polls_run_one_past_threshold_witness :
  exists w0,
    start plain_errors (ctx_polling 2) 0%nat (Some receipt100)
          "0xT"%string fmt0 = Some w0
    /\ confirmation_numbers
         (trace (run w0 (serial_polls [block 101 "H1" "B"; block 102 "H2" "H1"])))
       = Zseq 2 2.
Proof.
  eexists. split; [reflexivity|].
  exact (proj1 (proj2
    (serial_polls_run_one_past_threshold plain_errors (ctx_polling 2) 0%nat
       receipt100 "0xT"%string fmt0 _ 100
       [block 101 "H1" "B"; block 102 "H2" "H1"] []
       eq_refl eq_refl eq_refl ltac:(discriminate)
       ltac:(repeat constructor) ltac:(discriminate)))).
Defined.

(** X13: the run in which the poller stops on the threshold.  When the first
    T - 1 polls each find their block and the T-th poll finds none, the
    poller has emitted exactly the T - 1 confirmations 2 .. T, its interval
    is cleared with the counter at T, and it is at rest: nothing delivered
    later changes the world. *)
Theorem serial_polls_stop_on_threshold errors ctx em r th fmt w0 b blks nb ins :
  start errors ctx em (Some r) th fmt = Some w0 ->
  supportsSubscriptions ctx = false ->
  blockNumber r = Some b ->
  Forall (fun blk => truthy_string (hash blk) = true) blks ->
  Z.of_nat (List.length blks) + 1 = transactionConfirmationBlocks ctx ->
  no_block_yet nb ->
  pollers (run w0 (serial_polls blks ++ [Tick 0; BlockReturned 0 0 nb])) =
    [mkPoller (mkProps ctx r em fmt)
       (transactionConfirmationBlocks ctx) false []]
  /\ confirmation_numbers
       (trace (run w0 (serial_polls blks ++ [Tick 0; BlockReturned 0 0 nb]))) =
     Zseq 2 (List.length blks)
  /\ run w0 (serial_polls blks ++ [Tick 0; BlockReturned 0 0 nb] ++ ins) =
     run w0 (serial_polls blks ++ [Tick 0; BlockReturned 0 0 nb]).
Proof.
  intros Hstart Hsup Hb Hh HT Hnb.
  apply start_returns in Hstart. destruct Hstart as (b' & _ & _ & _ & ->).
  rewrite Hsup.
  set (P := mkProps ctx r em fmt).
  destruct (serial_polling P b blks Hb) as (t & Hrun & Hn & _);
    [simpl; lia | exact Hh | simpl; lia |].
  assert (Hlt : (Z.of_nat (List.length blks)
                   <? transactionConfirmationBlocks (web3Context P)) = true)
    by (apply Z.ltb_lt; simpl; lia).
  rewrite Hlt in Hrun.
  assert (Hle : (transactionConfirmationBlocks ctx
                   <=? 1 + Z.of_nat (List.length blks)) = true)
    by (apply Z.leb_le; lia).
  rewrite app_assoc, !run_app, Hrun.
  assert (Hrun2 : run (mkWorld NoSubscription []
                         [mkPoller P (1 + Z.of_nat (List.length blks)) true []] t)
                      [Tick 0; BlockReturned 0 0 nb] =
                  mkWorld NoSubscription []
                    [mkPoller P (transactionConfirmationBlocks ctx) false []]
                    (t ++ [ClearInterval;
                           GetBlockByNumber (b + (1 + Z.of_nat (List.length blks)))])).
  { unfold run. simpl. unfold interval_callback. simpl. rewrite Hb. simpl.
    rewrite Hle. simpl. unfold after_getBlockByNumber. simpl.
    replace (1 + Z.of_nat (List.length blks))
      with (transactionConfirmationBlocks ctx) by lia.
    destruct nb as [blk|]; simpl in Hnb; [rewrite Hnb|];
      unfold perform, set_pollers; simpl; rewrite app_nil_r; reflexivity. }
  rewrite Hrun2. cbn [pollers trace].
  repeat split.
  - rewrite confirmation_numbers_app, Hn. simpl. apply app_nil_r.
  - apply run_stopped; reflexivity.
Qed.

Lemma serial_polls_stop_on_threshold_witness :
  exists w0,
    start plain_errors (ctx_polling 3) 0%nat (Some receipt100)
          "0xT"%string fmt0 = Some w0
    /\ confirmation_numbers
         (trace (run w0 (serial_polls [block 101 "H1" "B"; block 102 "H2" "H1"]
                         ++ [Tick 0; BlockReturned 0 0 None])))
       = Zseq 2 2.
Proof.
  eexists. split; [reflexivity|].
  exact (proj1 (proj2
    (serial_polls_stop_on_threshold plain_errors (ctx_polling 3) 0%nat receipt100
       "0xT"%string fmt0 _ 100 [block 101 "H1" "B"; block 102 "H2" "H1"]
       None [Tick 0]
       eq_refl eq_refl eq_refl ltac:(repeat constructor) eq_refl I))).
Defined.

(** X14: a threshold of 1 or less.  The first tick that fires finds the
    threshold reached, clears the interval and still asks for block
    blockNumber + 1, so over the whole watch the poller makes at most one
    block request and emits at most one event, which carries confirmation
    number 2. *)
Theorem low_threshold_polls_once errors ctx em r th fmt w0 ins :
  start errors ctx em (Some r) th fmt = Some w0 ->
  supportsSubscriptions ctx = false ->
  transactionConfirmationBlocks ctx <= 1 ->
  (count_fetch (trace (run w0 ins)) <= 1)%nat
  /\ (confirmation_numbers (trace (run w0 ins)) = []
      \/ confirmation_numbers (trace (run w0 ins)) = [2]).
Proof.
  intros Hstart Hsup HT.
  assert (HQ : forall q, pollers (run w0 ins) = [q] ->
               count_fetch (trace (run w0 ins)) =
               if interval_active q then 0%nat else 1%nat).
  { induction ins as [|i ins IH] using rev_ind.
    - pose proof Hstart as H. apply start_returns in H.
      destruct H as (b & _ & _ & _ & ->). rewrite Hsup. simpl.
      intros q E. inversion E; subst. reflexivity.
    - rewrite run_snoc.
      destruct (polling_mode _ _ _ _ _ _ _ ins Hstart Hsup)
        as (Hs & Hu & q & Hq & HP & Hc).
      specialize (IH q Hq).
      pose proof Hstart as H. apply start_returns in H.
      destruct H as (b & Hb & _).
      destruct (run w0 ins) as [s u ps t].
      cbn [subscription unsubscribing pollers trace] in *. subst s u ps.
      assert (Hnop : forall q0, [q] = [q0] ->
                count_fetch t = if interval_active q0 then 0%nat else 1%nat)
        by (intros q0 E; inversion E; subst; exact IH).
      destruct i as [| | |d| |j|j|k|k j blk|k j]; simpl step;
        rewrite ?nth_error_nil; try exact Hnop.
      + destruct k as [|k]; simpl; rewrite ?nth_error_nil; try exact Hnop.
        destruct (interval_active q) eqn:Hact; [|exact Hnop].
        unfold interval_callback. rewrite HP. simpl. rewrite Hb. simpl.
        replace (_ <=? counter q) with true by (symmetry; apply Z.leb_le; lia).
        simpl. intros q0 E. inversion E; subst. simpl.
        rewrite !count_fetch_app, IH. reflexivity.
      + destruct k as [|k]; simpl; rewrite ?nth_error_nil; try exact Hnop.
        destruct (nth_error (pending q) j); [|exact Hnop].
        unfold after_getBlockByNumber. simpl.
        destruct blk as [blk|]; [destruct (truthy_string (hash blk))|]; simpl;
          intros q0 E; inversion E; subst; simpl;
          rewrite count_fetch_app, IH; simpl; lia.
      + destruct k as [|k]; simpl; rewrite ?nth_error_nil; try exact Hnop.
        destruct (nth_error (pending q) j); [|exact Hnop].
        simpl. intros q0 E; inversion E; subst; simpl.
        rewrite count_fetch_app, IH; simpl; lia. }
  destruct (polling_mode _ _ _ _ _ _ _ ins Hstart Hsup)
    as (Hs & Hu & q & Hq & HP & Hc).
  specialize (HQ q Hq).
  destruct (numbers_shape _ _ _ _ _ _ _ ins Hstart)
    as (b & hs & m & Hb & Hn & _ & Hm & _ & Hearly).
  rewrite Hs in Hearly. rewrite Hearly in Hn. simpl in Hn.
  rewrite Hq in Hm. simpl in Hm. apply Merge_single in Hm. rewrite Hm in Hn.
  destruct (fetch_counts _ _ _ _ _ _ _ ins Hstart) as [Hload _].
  rewrite Hq in Hload. unfold total_load, poller_load in Hload. simpl in Hload.
  assert (Hf : (count_fetch (trace (run w0 ins)) <= 1)%nat)
    by (rewrite HQ; destruct (interval_active q); lia).
  split; [exact Hf|].
  rewrite Hn. unfold poller_numbers.
  destruct (Z.to_nat (counter q - 1)) as [|[|n]];
    [left; reflexivity | right; reflexivity | lia].
Qed.

Lemma low_threshold_polls_once_witness :
  exists w0,
    start plain_errors (ctx_polling 1) 0%nat (Some receipt100)
          "0xT"%string fmt0 = Some w0
    /\ (count_fetch
          (trace (run w0 [Tick 0; Tick 0;
                          BlockReturned 0 0 (Some (block 101 "H1" "B"));
                          Tick 0])) <= 1)%nat.
Proof.
  eexists. split; [reflexivity|].
  exact (proj1
    (low_threshold_polls_once plain_errors (ctx_polling 1) 0%nat
       receipt100 "0xT"%string fmt0 _
       [Tick 0; Tick 0; BlockReturned 0 0 (Some (block 101 "H1" "B")); Tick 0]
       eq_refl eq_refl ltac:(discriminate))).
Defined.

(** ** Requests that the provider rejects *)

(** X15: a block request that is rejected.  The rejection is raised inside
    the interval callback, which nobody awaits and which has no [catch]: it
    is left unhandled.  The poller only loses the outstanding request: its
    counter and its interval are as before and nothing is emitted, so if the
    interval is still set the poller's next tick asks for the same height
    again. *)
Theorem rejected_block_request_keeps_polling
    errors ctx em r th fmt w0 ins k q j h b :
  start errors ctx em (Some r) th fmt = Some w0 ->
  nth_error (pollers (run w0 ins)) k = Some q ->
  blockNumber r = Some b ->
  nth_error (pending q) j = Some h ->
  step (run w0 ins) (BlockRejected k j) =
    mkWorld (subscription (run w0 ins)) (unsubscribing (run w0 ins))
      (update_nth k
         (mkPoller (mkProps ctx r em fmt) (counter q) (interval_active q)
                   (remove_nth j (pending q)))
         (pollers (run w0 ins)))
      (trace (run w0 ins) ++ [Uncaught RequestError])
  /\ (interval_active q = true ->
      fetch_heights
        (trace (step (step (run w0 ins) (BlockRejected k j)) (Tick k))) =
      fetch_heights (trace (run w0 ins)) ++ [b + counter q]).
Proof.
  intros Hstart Hq Hb Hnth.
  pose proof (base_pollers _ _ (start_Base _ _ _ _ _ _ _ ins Hstart)) as HBp.
  destruct (Forall_nth_error _ _ _ _ HBp Hq) as [HP _].
  destruct (run w0 ins) as [s u ps t].
  cbn [subscription unsubscribing pollers trace] in *.
  assert (Hstep : step (mkWorld s u ps t) (BlockRejected k j) =
    mkWorld s u
      (update_nth k
         (mkPoller (mkProps ctx r em fmt) (counter q) (interval_active q)
                   (remove_nth j (pending q))) ps)
      (t ++ [Uncaught RequestError])).
  { simpl. rewrite Hq, Hnth. simpl. unfold perform, set_pollers. simpl.
    rewrite HP. reflexivity. }
  split; [exact Hstep|].
  intros Hact. rewrite Hstep. simpl.
  rewrite (nth_error_update_nth _ _ _ _ Hq). simpl.
  rewrite Hact. unfold interval_callback. simpl.
  rewrite Hb. simpl. rewrite !fetch_heights_app.
  destruct (_ <=? _); simpl; rewrite ?app_nil_r; reflexivity.
Qed.

Lemma rejected_block_request_keeps_polling_witness :
  exists w0,
    start plain_errors (ctx_polling 3) 7%nat (Some receipt100)
          "0xT"%string fmt0 = Some w0
    /\ fetch_heights
         (trace (step (step (run w0 [Tick 0]) (BlockRejected 0 0)) (Tick 0))) =
       fetch_heights (trace (run w0 [Tick 0])) ++ [100 + 1].
Proof.
  eexists. split; [reflexivity|].
  exact (proj2
    (rejected_block_request_keeps_polling plain_errors (ctx_polling 3) 7%nat
       receipt100 "0xT"%string fmt0 _
       [Tick 0] 0%nat _ 0%nat 101 100 eq_refl eq_refl eq_refl eq_refl)
    eq_refl).
Defined.

(** X16: an unsubscribe request that is rejected after the threshold.  The
    handler ends with an unhandled rejection and the subscription is as
    before: still active, it goes on delivering, and every further header
    with a non-zero height emits again and calls [unsubscribe] again. *)
Theorem rejected_unsubscribe_leaves_subscription_active
    errors ctx em r th fmt w0 ins P j c :
  start errors ctx em (Some r) th fmt = Some w0 ->
  subscription (run w0 ins) = Active P ->
  nth_error (unsubscribing (run w0 ins)) j = Some c ->
  step (run w0 ins) (UnsubscribeRejected j) =
    mkWorld (Active P) (remove_nth j (unsubscribing (run w0 ins))) []
            (trace (run w0 ins) ++ [Uncaught RequestError])
  /\ (forall d h b,
        number d = Some h -> h <> 0 -> blockNumber r = Some b ->
        transactionConfirmationBlocks ctx <= h - b + 1 ->
        trace (step (step (run w0 ins) (UnsubscribeRejected j)) (Data (Some d))) =
        trace (run w0 ins)
        ++ [Uncaught RequestError;
            Emit em (mkEvent (format (h - b + 1) fmt) r (format (parentHash d) fmt));
            Unsubscribe]).
Proof.
  intros Hstart Hact Hc.
  pose proof (base_subscription _ _ (start_Base _ _ _ _ _ _ _ ins Hstart)) as Hs.
  rewrite Hact in Hs. destruct Hs as (-> & Hpoll).
  assert (Hstep : step (run w0 ins) (UnsubscribeRejected j) =
    mkWorld (Active (mkProps ctx r em fmt))
            (remove_nth j (unsubscribing (run w0 ins))) []
            (trace (run w0 ins) ++ [Uncaught RequestError])).
  { unfold step. rewrite Hc. unfold unsubscribe_rejected, perform,
      set_unsubscribing. simpl. rewrite Hact, Hpoll. reflexivity. }
  split; [exact Hstep|].
  intros d h b Hnum Hh Hb HT. rewrite Hstep. simpl.
  unfold on_data. simpl. rewrite Hnum. simpl. rewrite Hb. simpl.
  apply Z.eqb_neq in Hh. rewrite Hh. simpl.
  apply Z.leb_le in HT. rewrite HT. simpl.
  rewrite <- !app_assoc. reflexivity.
Qed.

Lemma rejected_unsubscribe_leaves_subscription_active_witness :
  exists w0,
    start plain_errors (ctx_subscription 3) 7%nat (Some receipt100)
          "0xT"%string fmt0 = Some w0
    /\ step (run w0 [Immediate; SubscribeResolved;
                     Data (Some (block 102 "H2" "H1"))])
            (UnsubscribeRejected 0) =
       mkWorld (Active (mkProps (ctx_subscription 3) receipt100 7%nat fmt0))
         (remove_nth 0
            (unsubscribing (run w0 [Immediate; SubscribeResolved;
                                    Data (Some (block 102 "H2" "H1"))])))
         []
         (trace (run w0 [Immediate; SubscribeResolved;
                         Data (Some (block 102 "H2" "H1"))])
          ++ [Uncaught RequestError]).
Proof.
  eexists. split; [reflexivity|].
  exact (proj1
    (rejected_unsubscribe_leaves_subscription_active plain_errors
       (ctx_subscription 3) 7%nat receipt100 "0xT"%string fmt0 _
       [Immediate; SubscribeResolved; Data (Some (block 102 "H2" "H1"))]
       _ 0%nat AfterThreshold eq_refl eq_refl eq_refl)).
Defined.
